(** * Nexora fraud prediction: entity normalisation, risk scoring, content
      scoring, one-time codes and the live-connection registry.

    Shallow embedding of
      - backend/routes/api.js            (analyzeContentForFraud,
                                          normalizeEntity, calculateFraudRisk)
      - services/otpService.js           (generate, verify, invalidate, cleanup)
      - backend/services/websocketService.js
                                         (connection handlers, isUserConnected,
                                          sendAlert)

    JavaScript strings are sequences of UTF-16 code units.  The model reads a
    Rocq [string] as a sequence of code units in the range U+0000..U+00FF
    (Latin-1); this range is closed under [toLowerCase], and every keyword,
    pattern and separator of the program lies in it.  Times are the integer
    millisecond values of [Date.now()]; counters and scores are integers. *)

From stdpp Require Import gmap strings list fin_maps pretty.
From Stdlib Require Import ZArith Ascii.

Local Open Scope Z_scope.
#[local] Set Warnings "-clear-no-such-hyp".

(* ===================================================================== *)
(** ** JavaScript string primitives used by the program                   *)
(* ===================================================================== *)

Module JsString.

Definition code (c : ascii) : N := Ascii.N_of_ascii c.

Definition between (lo hi n : N) : bool := ((lo <=? n) && (n <=? hi))%N.

(** [WhiteSpace] and [LineTerminator] code units below U+0100: TAB, LF, VT,
    FF, CR, SP and NBSP.  This is the set removed by [trim] and matched by
    the regular-expression class [\s]. *)
Definition isWhiteSpace (c : ascii) : bool :=
  let n := code c in
  between 9 13 n || (n =? 32)%N || (n =? 160)%N.

(** [/[A-Z]/] *)
Definition isUpperAZ (c : ascii) : bool := between 65 90 (code c).

(** [/[0-9]/] *)
Definition isDigit (c : ascii) : bool := between 48 57 (code c).

(** Lower-casing of one code unit: A-Z and the Latin-1 capitals
    U+00C0..U+00DE (without the multiplication sign U+00D7) move up by 32. *)
Definition toLowerChar (c : ascii) : ascii :=
  let n := code c in
  if between 65 90 n || (between 192 222 n && negb (n =? 215)%N)
  then Ascii.ascii_of_N (n + 32)
  else c.

(** [String.prototype.toLowerCase] *)
Fixpoint toLowerCase (s : string) : string :=
  match s with
  | EmptyString => EmptyString
  | String c s' => String (toLowerChar c) (toLowerCase s')
  end.

Fixpoint trimStart (s : string) : string :=
  match s with
  | EmptyString => EmptyString
  | String c s' => if isWhiteSpace c then trimStart s' else s
  end.

Fixpoint trimEnd (s : string) : string :=
  match s with
  | EmptyString => EmptyString
  | String c s' =>
      match trimEnd s' with
      | EmptyString => if isWhiteSpace c then EmptyString else String c EmptyString
      | r => String c r
      end
  end.

(** [String.prototype.trim] *)
Definition trim (s : string) : string := trimEnd (trimStart s).

(** [s.startsWith(p)] *)
Fixpoint startsWith (p s : string) : bool :=
  match p, s with
  | EmptyString, _ => true
  | String _ _, EmptyString => false
  | String a p', String b s' => Ascii.eqb a b && startsWith p' s'
  end.

(** [s.includes(p)]: [p] occurs in [s] as a substring. *)
Fixpoint includes (s p : string) : bool :=
  startsWith p s ||
  match s with
  | EmptyString => false
  | String _ s' => includes s' p
  end.

(** [s.replace(/[class]/g, '')] for a character class given as a test. *)
Fixpoint removeChars (cls : ascii -> bool) (s : string) : string :=
  match s with
  | EmptyString => EmptyString
  | String c s' =>
      if cls c then removeChars cls s' else String c (removeChars cls s')
  end.

(** [(s.match(/[class]/g) || []).length] *)
Fixpoint countChars (cls : ascii -> bool) (s : string) : Z :=
  match s with
  | EmptyString => 0
  | String c s' => (if cls c then 1 else 0) + countChars cls s'
  end.

(** [s.length] *)
Definition length (s : string) : Z := Z.of_nat (String.length s).

(** Every code unit of [s] passes the test. *)
Fixpoint allChars (P : ascii -> bool) (s : string) : bool :=
  match s with
  | EmptyString => true
  | String c s' => P c && allChars P s'
  end.

(** A string that does not start with white space. *)
Definition noLeadingSpace (s : string) : bool :=
  match s with
  | EmptyString => true
  | String c _ => negb (isWhiteSpace c)
  end.

End JsString.

(* ===================================================================== *)
(** ** routes/api.js: entity normalisation                                *)
(* ===================================================================== *)

(** The class [[\s\-\(\)\+\.]] of [normalizeEntity]. *)
Definition formattingChar (c : ascii) : bool :=
  JsString.isWhiteSpace c ||
  Ascii.eqb c "-" || Ascii.eqb c "(" || Ascii.eqb c ")" ||
  Ascii.eqb c "+" || Ascii.eqb c ".".

Definition normalizeEntity (entity : string) : string :=
  let normalized := JsString.trim (JsString.toLowerCase entity) in
  if JsString.includes normalized "@" then normalized
  else JsString.removeChars formattingChar normalized.


(* ===================================================================== *)
(** ** Regular expressions of the program                                 *)
(* ===================================================================== *)

(** The patterns of [analyzeContentForFraud] use literals, one character
    class, [?] and [+].  [RegExp.prototype.test] on a fresh pattern object
    answers whether some substring of the input is in the pattern's language;
    the matcher below decides that with derivatives. *)
Module Regex.

Inductive t : Type :=
| Empty                         (* matches nothing *)
| Eps                           (* matches the empty string *)
| Chr (P : ascii -> bool)       (* one code unit passing the test *)
| Cat (r1 r2 : t)
| Alt (r1 r2 : t)
| Star (r : t).

Fixpoint nullable (r : t) : bool :=
  match r with
  | Empty => false
  | Eps => true
  | Chr _ => false
  | Cat r1 r2 => nullable r1 && nullable r2
  | Alt r1 r2 => nullable r1 || nullable r2
  | Star _ => true
  end.

Fixpoint deriv (c : ascii) (r : t) : t :=
  match r with
  | Empty => Empty
  | Eps => Empty
  | Chr P => if P c then Eps else Empty
  | Cat r1 r2 =>
      if nullable r1
      then Alt (Cat (deriv c r1) r2) (deriv c r2)
      else Cat (deriv c r1) r2
  | Alt r1 r2 => Alt (deriv c r1) (deriv c r2)
  | Star r1 => Cat (deriv c r1) (Star r1)
  end.

(** Some prefix of [s] is in the language of [r]. *)
Fixpoint matchesPrefix (r : t) (s : string) : bool :=
  nullable r ||
  match s with
  | EmptyString => false
  | String c s' => matchesPrefix (deriv c r) s'
  end.

(** [r.test(s)] with [lastIndex = 0]. *)
Fixpoint test (r : t) (s : string) : bool :=
  matchesPrefix r s ||
  match s with
  | EmptyString => false
  | String _ s' => test r s'
  end.

(** A pattern character under the [i] flag. *)
Definition chrI (c : ascii) : t :=
  Chr (fun x => Ascii.eqb (JsString.toLowerChar x) (JsString.toLowerChar c)).

(** A literal under the [i] flag. *)
Fixpoint litI (s : string) : t :=
  match s with
  | EmptyString => Eps
  | String c s' => Cat (chrI c) (litI s')
  end.

Definition opt (r : t) : t := Alt Eps r.
Definition plus (r : t) : t := Cat r (Star r).
Definition digit : t := Chr JsString.isDigit.

End Regex.

(* ===================================================================== *)
(** ** routes/api.js: content-based fraud detection                       *)
(* ===================================================================== *)

(** The values a caller can pass for [content]. *)
Inductive JsValue : Type :=
| JsUndefined
| JsNull
| JsBoolean (b : bool)
| JsNumber (n : Z)
| JsString (s : string)
| JsObject.

(** [!!v] *)
Definition truthy (v : JsValue) : bool :=
  match v with
  | JsUndefined | JsNull => false
  | JsBoolean b => b
  | JsNumber n => negb (n =? 0)
  | JsString s => negb (String.eqb s "")
  | JsObject => true
  end.

(** [typeof v === 'string'] *)
Definition isString (v : JsValue) : bool :=
  match v with JsString _ => true | _ => false end.

Definition FRAUD_KEYWORDS : list (string * list string) :=
  [ ("urgency",
     [ "urgent"; "immediately"; "now"; "asap"; "hurry"; "quickly"; "fast";
       "limited time"; "act now"; "don't delay"; "last chance"; "expires today";
       "deadline"; "24 hours"; "within hours" ]);
    ("financial",
     [ "bank account"; "credit card"; "debit card"; "atm"; "pin"; "cvv"; "otp";
       "transfer"; "transaction"; "payment"; "loan"; "emi"; "upi"; "neft"; "rtgs";
       "blocked"; "suspended"; "verify account"; "update kyc"; "kyc expired";
       "prize"; "lottery"; "jackpot"; "won"; "winner"; "reward"; "cash prize";
       "refund"; "cashback"; "bonus" ]);
    ("threats",
     [ "account blocked"; "account suspended"; "will be blocked"; "will be suspended";
       "legal action"; "police"; "arrest"; "case filed"; "complaint"; "court";
       "fine"; "penalty"; "closure"; "terminate"; "deactivate"; "seized" ]);
    ("impersonation",
     [ "customer care"; "customer support"; "helpline"; "helpdesk";
       "rbi"; "reserve bank"; "income tax"; "it department"; "government";
       "sbi"; "hdfc"; "icici"; "axis"; "bank manager"; "bank officer";
       "amazon"; "flipkart"; "paytm"; "phonepe"; "gpay"; "google pay" ]);
    ("action_requests",
     [ "click here"; "click link"; "tap here"; "click below"; "visit";
       "call this number"; "call us"; "dial"; "contact immediately";
       "share otp"; "share pin"; "provide details"; "verify yourself";
       "confirm identity"; "update details"; "fill form"; "download app";
       "install"; "remote access"; "anydesk"; "teamviewer" ]);
    ("suspicious_patterns",
     [ "dear customer"; "dear user"; "dear valued"; "respected sir";
       "confidential"; "do not share"; "keep secret";
       "free gift"; "free offer"; "get free"; "100% free";
       "guaranteed"; "no risk"; "risk free" ]) ].

Definition weights : list (string * Z) :=
  [ ("urgency", 1); ("financial", 2); ("threats", 3);
    ("impersonation", 3); ("action_requests", 2); ("suspicious_patterns", 1) ].

Fixpoint assoc {A : Type} (k : string) (l : list (string * A)) : option A :=
  match l with
  | [] => None
  | (k', v) :: l' => if String.eqb k k' then Some v else assoc k l'
  end.

(** [weights[category] || 1]; the callers pass keys of [FRAUD_KEYWORDS]. *)
Definition getCategoryWeight (category : string) : Z :=
  match assoc category weights with
  | Some w => if w =? 0 then 1 else w
  | None => 1
  end.

Module Finding.
Record t : Type := mk {
  category : string;
  matchedKeywords : list string;
  score : Z
}.
End Finding.

Module ContentRiskResult.
(** [riskLevel], [riskMessage] and [analyzedAt] are absent from the object
    literal of the early return. *)
Record t : Type := mk {
  isSuspicious : bool;
  score : Z;
  riskLevel : option string;
  riskMessage : option string;
  findings : list Finding.t;
  analyzedAt : option Z
}.
End ContentRiskResult.

(** [keywords.filter(keyword => lowerContent.includes(keyword.toLowerCase()))] *)
Definition matchedKeywordsOf (lowerContent : string) (keywords : list string)
  : list string :=
  List.filter
    (fun keyword => JsString.includes lowerContent (JsString.toLowerCase keyword))
    keywords.

(** One iteration of the loop over [Object.entries(FRAUD_KEYWORDS)]; the state
    is the pair of the running [score] and the [findings] array. *)
Definition categoryStep (lowerContent : string)
    (st : Z * list Finding.t) (entry : string * list string)
  : Z * list Finding.t :=
  let '(score, findings) := st in
  let '(category, keywords) := entry in
  let matchedKeywords := matchedKeywordsOf lowerContent keywords in
  if 0 <? Z.of_nat (List.length matchedKeywords) then
    let categoryScore :=
      Z.of_nat (List.length matchedKeywords) * getCategoryWeight category in
    (score + categoryScore,
     findings ++ [Finding.mk category matchedKeywords categoryScore])
  else (score, findings).

Definition urlPatterns : list Regex.t :=
  [ Regex.litI "bit.ly"; Regex.litI "tinyurl"; Regex.litI "goo.gl";
    Regex.litI "ow.ly"; Regex.litI "t.co"; Regex.litI "shorturl";
    Regex.litI "tiny.cc"; Regex.litI "is.gd"; Regex.litI "v.gd";
    (* /http[s]?:\/\/[0-9]+\.[0-9]+\.[0-9]+\.[0-9]+/gi *)
    Regex.Cat (Regex.litI "http")
      (Regex.Cat (Regex.opt (Regex.chrI "s"))
         (Regex.Cat (Regex.litI "://")
            (Regex.Cat (Regex.plus Regex.digit)
               (Regex.Cat (Regex.chrI ".")
                  (Regex.Cat (Regex.plus Regex.digit)
                     (Regex.Cat (Regex.chrI ".")
                        (Regex.Cat (Regex.plus Regex.digit)
                           (Regex.Cat (Regex.chrI ".")
                              (Regex.plus Regex.digit))))))))) ].

(** The loop over [urlPatterns], left at the first pattern that matches. *)
Fixpoint urlLoop (patterns : list Regex.t) (content : string)
    (st : Z * list Finding.t) : Z * list Finding.t :=
  match patterns with
  | [] => st
  | pattern :: rest =>
      if Regex.test pattern content then
        (fst st + 3,
         snd st ++ [Finding.mk "suspicious_url"
                      ["shortened/suspicious URL detected"] 3])
      else urlLoop rest content st
  end.

(** [capsRatio > 0.5 && content.length > 20], where [capsRatio] is the
    quotient of two integers below 2^53 with a non-zero divisor; the double
    quotient exceeds 0.5 exactly when twice the count exceeds the length. *)
Definition excessiveCaps (content : string) : bool :=
  (JsString.length content <? 2 * JsString.countChars JsString.isUpperAZ content)
  && (20 <? JsString.length content).

Definition capsStep (content : string) (st : Z * list Finding.t)
  : Z * list Finding.t :=
  if excessiveCaps content then
    (fst st + 2,
     snd st ++ [Finding.mk "excessive_caps"
                  ["Excessive use of capital letters"] 2])
  else st.

Definition contentBand (score : Z) : string * string :=
  if score =? 0 then
    ("safe", "No suspicious patterns detected in content.")
  else if score <=? 5 then
    ("low", "Some potentially suspicious patterns detected. Be cautious.")
  else if score <=? 10 then
    ("suspicious", "Multiple fraud indicators found. Exercise caution!")
  else
    ("high_risk", "HIGH RISK - Multiple fraud patterns detected! Likely a scam.").

(** Some pattern of [urlPatterns] matches. *)
Definition urlMatches (content : string) : bool :=
  List.existsb (fun pattern => Regex.test pattern content) urlPatterns.

(** The number of keywords of a list that occur in the text, whatever the
    case of its letters. *)
Definition matchCount (content : string) (keywords : list string) : Z :=
  Z.of_nat (List.length (matchedKeywordsOf (JsString.toLowerCase content) keywords)).

(** [FRAUD_KEYWORDS[category]] *)
Definition keywordsOf (category : string) : list string :=
  default [] (assoc category FRAUD_KEYWORDS).

(** Sums over a list. *)
Definition sumOver {A : Type} (f : A -> Z) (l : list A) : Z :=
  List.fold_right (fun x acc => f x + acc) 0 l.

(** The contribution of one entry of [FRAUD_KEYWORDS]. *)
Definition categoryPoints (content : string) (entry : string * list string) : Z :=
  matchCount content (snd entry) * getCategoryWeight (fst entry).

(** The total the three passes of the analyser are specified to reach. *)
Definition contentTotal (content : string) : Z :=
  sumOver (categoryPoints content) FRAUD_KEYWORDS
  + (if urlMatches content then 3 else 0)
  + (if excessiveCaps content then 2 else 0).

(** The result of the guard at the head of [analyzeContentForFraud]. *)
Definition notAnalyzed : ContentRiskResult.t :=
  ContentRiskResult.mk false 0 None None [] None.

(** The body of [analyzeContentForFraud] after its guard; [now] is the reading
    of the clock taken by [new Date()]. *)
Definition analyzeText (now : Z) (content : string) : ContentRiskResult.t :=
  let lowerContent := JsString.toLowerCase content in
  let st1 := List.fold_left (categoryStep lowerContent) FRAUD_KEYWORDS (0, []) in
  let st2 := urlLoop urlPatterns content st1 in
  let '(score, findings) := capsStep content st2 in
  let '(riskLevel, riskMessage) := contentBand score in
  ContentRiskResult.mk (0 <? score) score (Some riskLevel)
    (Some riskMessage) findings (Some now).

Definition analyzeContentForFraud (now : Z) (content : JsValue)
  : ContentRiskResult.t :=
  if negb (truthy content) || negb (isString content) then notAnalyzed
  else
    match content with
    | JsString text => analyzeText now text
    | _ => notAnalyzed
    end.

(* ===================================================================== *)
(** ** routes/api.js: crowd-intelligence risk calculation                 *)
(* ===================================================================== *)

Module Report.
(** The fields of a report that [calculateFraudRisk] reads or writes.  The
    mock reports of demo mode carry no [targetEntity]. *)
Record t : Type := mk {
  targetEntity : option string;
  category : string;
  timestamp : Z;
  isActive : bool
}.
End Report.

Module Env.
(** What [calculateFraudRisk] reads from outside: the flag
    [global.DEMO_MODE], the array [demoStorage.reports], the report
    collection behind [FraudReport.find] ([None] when the lookup rejects)
    and the answer of [CyberCrime.findOne] for a search pattern ([None] when
    it rejects, [Some None] when no document matches, otherwise the
    document's [investigativeProtocol]). *)
Record t : Type := mk {
  DEMO_MODE : bool;
  demoReports : list Report.t;
  fraudReports : option (list Report.t);
  cyberCrime : string -> option (option (list string))
}.

Definition setDemoMode (e : t) : t :=
  mk true (demoReports e) (fraudReports e) (cyberCrime e).
End Env.

Module Notification.
(** The argument of [notificationService.dispatch]. *)
Record t : Type := mk {
  userId : string;
  type : string;
  priority : string;
  title : string;
  body : string;
  targetChannel : string
}.
End Notification.

Module RiskResult.
Record t : Type := mk {
  schemaVersion : string;
  targetEntity : string;
  score : Z;
  riskLevel : string;
  riskColor : string;
  riskMessage : string;
  totalReports : Z;
  investigativeProtocols : list string;
  checkedAt : Z;
  isDemo : bool
}.
End RiskResult.

(** The characters of [/[-[\]{}()*+?.,\\^$|#\s]/]. *)
Definition regexSpecial (c : ascii) : bool :=
  JsString.isWhiteSpace c ||
  List.existsb (Ascii.eqb c)
    ["-"; "["; "]"; "{"; "}"; "("; ")"; "*"; "+"; "?"; "."; ","; "\"; "^";
     "$"; "|"; "#"]%char.

(** [string.replace(/[-[\]{}()*+?.,\\^$|#\s]/g, '\\$&')] *)
Fixpoint escapeRegex (s : string) : string :=
  match s with
  | EmptyString => EmptyString
  | String c s' =>
      if regexSpecial c then String "\" (String c (escapeRegex s'))
      else String c (escapeRegex s')
  end.

(** [FraudReport.find({ targetEntity, timestamp: { $gte }, isActive: true })]
    over the documents of the collection. *)
Definition findReports (docs : list Report.t)
    (normalizedEntity : string) (thirtyDaysAgo : Z) : list Report.t :=
  List.filter
    (fun r =>
       bool_decide (Report.targetEntity r = Some normalizedEntity)
       && (thirtyDaysAgo <=? Report.timestamp r)
       && Report.isActive r)
    docs.

(** [demoFraudEntities]: entity, category, count. *)
Definition demoFraudEntities : list (string * (string * nat)) :=
  [ ("9944084754", ("Phishing", 3%nat));
    ("fraud@test.com", ("Identity Theft", 2%nat));
    ("scam@upi", ("Financial Fraud", 5%nat));
    ("241cb016@srcw.ac.in", ("Phishing", 30%nat)) ].

(** The reports of the demo branch: the active entries of
    [demoStorage.reports] for the entity, followed by the mock reports of a
    demo entity. *)
Definition demoModeReports (demo : list Report.t)
    (normalizedEntity : string) (now : Z) : list Report.t :=
  let reports :=
    List.filter
      (fun r => bool_decide (Report.targetEntity r = Some normalizedEntity)
                && Report.isActive r)
      demo in
  match assoc normalizedEntity demoFraudEntities with
  | Some (category, count) =>
      reports ++ List.repeat (Report.mk None category now true) count
  | None => reports
  end.

(** The callback of [reports.reduce]. *)
Definition reportStep (acc : Z) (report : Report.t) : Z :=
  let reportScore := 1 in
  let reportScore :=
    if String.eqb (Report.category report) "Phishing"
       || String.eqb (Report.category report) "Identity Theft"
    then reportScore + 2 else reportScore in
  acc + reportScore.

Definition riskMapping (score : Z) : string * string * string :=
  if score =? 0 then
    ("safe", "green", "Authoritative data indicates no current threat vectors.")
  else if score <=? 5 then
    ("suspicious", "yellow", "Trace activity detected. Monitoring protocols active.")
  else
    ("high_risk", "red", "CRITICAL THREAT: Investigative protocols triggered.").

(** [userId] is truthy. *)
Definition knownUser (userId : option string) : option string :=
  match userId with
  | Some u => if String.eqb u "" then None else Some u
  | None => None
  end.

(** The part of [calculateFraudRisk] after the reports are in hand: the
    payload, and the notifications handed to [notificationService.dispatch]. *)
Definition riskPayload (demoMode : bool) (normalizedEntity : string)
    (investigativeContext : option (list string)) (now : Z)
    (userId : option string) (reports : list Report.t)
  : RiskResult.t * list Notification.t :=
  let score := List.fold_left reportStep reports 0 in
  let '(level, color, msg) := riskMapping score in
  let responsePayload :=
    RiskResult.mk "2.0.0" normalizedEntity score level color msg
      (Z.of_nat (List.length reports))
      (match investigativeContext with Some p => p | None => [] end)
      now demoMode in
  let dispatched :=
    match knownUser userId with
    | Some u =>
        if String.eqb level "high_risk" then
          [Notification.mk u "THREAT_ALERT" "critical" "High Risk Alert"
             ("Critical threat detected for entity: " +:+ normalizedEntity +:+ ".")
             "web_and_sms"]
        else []
    | None => []
    end in
  (responsePayload, dispatched).

(** The points one report contributes: the vocabulary in which the score is
    specified. *)
Definition reportPoints (report : Report.t) : Z :=
  1 + (if bool_decide (Report.category report = "Phishing"
                       \/ Report.category report = "Identity Theft")
       then 2 else 0).

(** The array [reports] that reaches the scoring code: the result of the
    store query, or the demo reports when the flag is up or the query
    rejects. *)
Definition reportsInHand (env : Env.t) (now thirtyDaysAgo : Z)
    (targetEntity : string) : list Report.t :=
  if Env.DEMO_MODE env then
    demoModeReports (Env.demoReports env) (normalizeEntity targetEntity) now
  else
    match Env.fraudReports env with
    | Some docs => findReports docs (normalizeEntity targetEntity) thirtyDaysAgo
    | None =>
        demoModeReports (Env.demoReports env) (normalizeEntity targetEntity) now
    end.

(** [calculateFraudRisk(targetEntity, userId)].  [now] is the clock reading
    and [thirtyDaysAgo] the date obtained from it by [setDate(getDate() - 30)];
    the nested call reads the same values.  The result is the payload, the
    environment left behind (the flag may have been raised) and the
    notifications dispatched.  [fuel] bounds the nesting of the call on itself;
    [None] is returned only when it runs out. *)
Fixpoint calculateFraudRisk (fuel : nat) (env : Env.t) (now thirtyDaysAgo : Z)
    (targetEntity : string) (userId : option string)
  : option (RiskResult.t * Env.t * list Notification.t) :=
  match fuel with
  | O => None
  | S fuel' =>
      let normalizedEntity := normalizeEntity targetEntity in
      let safeSearchPattern := escapeRegex normalizedEntity in
      let investigativeContext :=
        if Env.DEMO_MODE env then None
        else match Env.cyberCrime env safeSearchPattern with
             | Some found => found
             | None => None          (* caught, a warning is logged *)
             end in
      if Env.DEMO_MODE env then
        let reports := demoModeReports (Env.demoReports env) normalizedEntity now in
        let '(payload, dispatched) :=
          riskPayload (Env.DEMO_MODE env) normalizedEntity investigativeContext
            now userId reports in
        Some (payload, env, dispatched)
      else
        match Env.fraudReports env with
        | Some docs =>
            let reports := findReports docs normalizedEntity thirtyDaysAgo in
            let '(payload, dispatched) :=
              riskPayload (Env.DEMO_MODE env) normalizedEntity investigativeContext
                now userId reports in
            Some (payload, env, dispatched)
        | None =>
            calculateFraudRisk fuel' (Env.setDemoMode env) now thirtyDaysAgo
              targetEntity userId
        end
  end.

(* ===================================================================== *)
(** ** services/otpService.js                                             *)
(* ===================================================================== *)

Module otpService.

Module OTP_CONFIG.
Definition length : nat := 6.
Definition expiryMinutes : Z := 10.
Definition maxAttempts : Z := 3.
Definition cooldownMinutes : Z := 1.
End OTP_CONFIG.

(** A stored entry of [otpStore]. *)
Record entry : Type := mkEntry {
  otp : string;
  createdAt : Z;
  expiresAt : Z;
  attempts : Z;
  verified : bool
}.

(** The module state: the map [otpStore] and the deletions scheduled with
    [setTimeout], each with its due time and key. *)
Record state : Type := mkState {
  otpStore : gmap string entry;
  timers : list (Z * string)
}.

Definition initial : state := mkState ∅ [].

(** [digits[b % 10]] *)
Definition digitOf (b : N) : ascii := Ascii.ascii_of_N (48 + b mod 10).

(** [generateOTP(length)]; [randomBytes] is the buffer returned by
    [crypto.randomBytes(length)]. *)
Fixpoint generateOTP (randomBytes : list N) (length : nat) : string :=
  match length, randomBytes with
  | S n, b :: rest => String (digitOf b) (generateOTP rest n)
  | _, _ => EmptyString
  end.

Definition createOTPKey (identifier purpose : string) : string :=
  purpose +:+ ":" +:+ JsString.trim (JsString.toLowerCase identifier).

(** [Math.ceil(a / b)] for integers [a] and [b > 0]. *)
Definition ceilDiv (a b : Z) : Z := - ((- a) / b).

(** The objects returned by [generate]; the human-readable [message] is
    left out. *)
Record generateResult : Type := mkGenerateResult {
  g_success : bool;
  g_error : option string;
  waitSeconds : option Z;
  g_otp : option string;
  g_expiresAt : option Z;
  expiresInMinutes : option Z
}.

(** The objects returned by [verify]; the human-readable [message] is left
    out. *)
Record verifyResult : Type := mkVerifyResult {
  v_success : bool;
  v_error : option string;
  remainingAttempts : option Z
}.

Definition failure (e : string) : verifyResult :=
  mkVerifyResult false (Some e) None.

(** [generate(identifier, purpose)] at clock reading [now], with the random
    buffer the call would draw. *)
Definition generate (st : state) (now : Z) (randomBytes : list N)
    (identifier purpose : string) : generateResult * state :=
  let key := createOTPKey identifier purpose in
  let fresh :=
    let otp := generateOTP randomBytes OTP_CONFIG.length in
    let expiresAt := now + OTP_CONFIG.expiryMinutes * 60 * 1000 in
    (mkGenerateResult true None None (Some otp) (Some expiresAt)
       (Some OTP_CONFIG.expiryMinutes),
     mkState (<[key := mkEntry otp now expiresAt 0 false]> (otpStore st))
             (timers st)) in
  match otpStore st !! key with
  | Some existing =>
      let cooldownMs := OTP_CONFIG.cooldownMinutes * 60 * 1000 in
      let timeSinceCreation := now - createdAt existing in
      if timeSinceCreation <? cooldownMs then
        let waitSeconds := ceilDiv (cooldownMs - timeSinceCreation) 1000 in
        (mkGenerateResult false (Some "cooldown") (Some waitSeconds)
           None None None, st)
      else fresh
  | None => fresh
  end.

(** [verify(identifier, inputOTP, purpose)] at clock reading [now]. *)
Definition verify (st : state) (now : Z)
    (identifier inputOTP purpose : string) : verifyResult * state :=
  let key := createOTPKey identifier purpose in
  match otpStore st !! key with
  | None => (failure "not_found", st)
  | Some stored =>
      if verified stored then (failure "already_used", st)
      else if expiresAt stored <? now then
        (failure "expired", mkState (delete key (otpStore st)) (timers st))
      else if OTP_CONFIG.maxAttempts <=? attempts stored then
        (failure "max_attempts", mkState (delete key (otpStore st)) (timers st))
      else
        (* stored.attempts++ on the object held by the map *)
        let stored1 :=
          mkEntry (otp stored) (createdAt stored) (expiresAt stored)
                  (attempts stored + 1) (verified stored) in
        if negb (String.eqb (otp stored1) (JsString.trim inputOTP)) then
          let remainingAttempts := OTP_CONFIG.maxAttempts - attempts stored1 in
          (mkVerifyResult false (Some "invalid") (Some remainingAttempts),
           mkState (<[key := stored1]> (otpStore st)) (timers st))
        else
          let stored2 :=
            mkEntry (otp stored1) (createdAt stored1) (expiresAt stored1)
                    (attempts stored1) true in
          (mkVerifyResult true None None,
           mkState (<[key := stored2]> (otpStore st))
                   (timers st ++ [(now + 5000, key)]))
  end.

(** [invalidate(identifier, purpose)] *)
Definition invalidate (st : state) (identifier purpose : string) : state :=
  mkState (delete (createOTPKey identifier purpose) (otpStore st)) (timers st).

(** The timers due at [now] fire: each deletes its key. *)
Definition runTimers (st : state) (now : Z) : state :=
  let due := List.filter (fun t => fst t <=? now) (timers st) in
  mkState (List.fold_left (fun m t => delete (snd t) m) due (otpStore st))
          (List.filter (fun t => negb (fst t <=? now)) (timers st)).

(** [cleanup()] at clock reading [now]. *)
Definition cleanup (st : state) (now : Z) : state :=
  mkState
    (filter
       (fun kv =>
          ¬ (expiresAt kv.2 < now
             ∨ (verified kv.2 = true ∧ 300000 < now - createdAt kv.2)))
       (otpStore st))
    (timers st).

End otpService.

(* ===================================================================== *)
(** ** backend/services/websocketService.js                               *)
(* ===================================================================== *)

Module websocketService.

(** The module state: whether [io] has been set by [initializeWebSocket],
    the map [connectedUsers] and the rooms kept by the socket server (a
    socket joins a room with [socket.join] and leaves every room when it
    disconnects). *)
Record state : Type := mkState {
  io : bool;
  connectedUsers : gmap string (gset string);
  rooms : gmap string (gset string)
}.

Definition uninitialized : state := mkState false ∅ ∅.

(** [initializeWebSocket(server)] *)
Definition initialize (st : state) : state :=
  mkState true (connectedUsers st) (rooms st).

Definition roomOf (userId : string) : string := "user:" +:+ userId.

Module AlertData.
Record t : Type := mk {
  _id : option string;
  id : option string;
  alertType : string;
  fromEntity : string;
  riskLevel : string;
  riskScore : Z;
  message : string;
  category : string;
  createdAt : option string
}.
End AlertData.

Module AlertPayload.
Record t : Type := mk {
  type : string;
  _id : option string;
  alertType : string;
  fromEntity : string;
  riskLevel : string;
  riskScore : Z;
  message : string;
  category : string;
  createdAt : option string;
  timestamp : string
}.
End AlertPayload.

(** What reaches a socket. *)
Inductive emission : Type :=
| Connected (socketId : string) (timestamp : string)
| AlertNew (socketId : string) (payload : AlertPayload.t).

(** [a || b] on optional strings. *)
Definition orElse (a b : option string) : option string :=
  match a with
  | Some s => if String.eqb s "" then b else a
  | None => b
  end.

Definition membersOf (st : state) (room : string) : gset string :=
  default ∅ (rooms st !! room).

(** The handler of ['connection'] for a socket of [userId]. *)
Definition onConnection (st : state) (nowIso : string)
    (userId socketId : string) : state * list emission :=
  let users :=
    if bool_decide (is_Some (connectedUsers st !! userId))
    then connectedUsers st
    else <[userId := ∅]> (connectedUsers st) in
  let users :=
    <[userId := default ∅ (users !! userId) ∪ {[socketId]}]> users in
  let room := roomOf userId in
  (mkState (io st) users
     (<[room := membersOf st room ∪ {[socketId]}]> (rooms st)),
   [Connected socketId nowIso]).

(** The handler of ['disconnect'] registered by that socket. *)
Definition onDisconnect (st : state) (userId socketId : string) : state :=
  let left := (fun members : gset string => members ∖ {[socketId]}) <$> rooms st in
  match connectedUsers st !! userId with
  | Some userSockets =>
      let userSockets := userSockets ∖ {[socketId]} in
      if bool_decide (size userSockets = 0%nat) then
        mkState (io st) (delete userId (connectedUsers st)) left
      else
        mkState (io st) (<[userId := userSockets]> (connectedUsers st)) left
  | None => mkState (io st) (connectedUsers st) left
  end.

Definition isUserConnected (st : state) (userId : string) : bool :=
  match connectedUsers st !! userId with
  | Some userSockets => bool_decide (0 < size userSockets)%nat
  | None => false
  end.

Definition getConnectedUsersCount (st : state) : nat := size (connectedUsers st).

(** [sendAlert(userId, alertData)]: the returned value and what
    [io.to(room).emit('alert:new', payload)] hands to the sockets of the
    room. *)
Definition sendAlert (st : state) (nowIso : string)
    (userId : string) (alertData : AlertData.t) : bool * list emission :=
  if negb (io st) then (false, [])
  else
    let payload :=
      AlertPayload.mk "fraud_alert"
        (orElse (AlertData._id alertData) (AlertData.id alertData))
        (AlertData.alertType alertData)
        (AlertData.fromEntity alertData)
        (AlertData.riskLevel alertData)
        (AlertData.riskScore alertData)
        (AlertData.message alertData)
        (AlertData.category alertData)
        (orElse (AlertData.createdAt alertData) (Some nowIso))
        nowIso in
    (true,
     (fun socketId => AlertNew socketId payload)
       <$> elements (membersOf st (roomOf userId))).

(** Channel events and the registry they lead to. *)
Inductive event : Type :=
| Open (userId socketId : string)
| Close (userId socketId : string).

Definition step (st : state) (ev : event) : state :=
  match ev with
  | Open u s => fst (onConnection st "" u s)
  | Close u s => onDisconnect st u s
  end.

Definition run (st : state) (evs : list event) : state :=
  List.fold_left step evs st.

(** The sessions a trace leaves open: a session is a pair of a user and a
    socket id, opened by [Open] and ended by [Close]. *)
Definition sessionsStep (open : gset (string * string)) (ev : event)
  : gset (string * string) :=
  match ev with
  | Open u s => open ∪ {[(u, s)]}
  | Close u s => open ∖ {[(u, s)]}
  end.

Definition openSessions (evs : list event) : gset (string * string) :=
  List.fold_left sessionsStep evs ∅.

(** The registry mirrors a set of sessions: a user has an entry exactly when
    some session of theirs is in the set, and the entry lists those
    sessions. *)
Definition mirrors (st : state) (open : gset (string * string)) : Prop :=
  forall u : string,
    match connectedUsers st !! u with
    | Some userSockets =>
        userSockets <> ∅ /\ forall s, s ∈ userSockets <-> (u, s) ∈ open
    | None => forall s, (u, s) ∉ open
    end.

(** Every member of a user's room is one of the user's sessions in the
    set. *)
Definition roomsWithin (st : state) (open : gset (string * string)) : Prop :=
  forall u s : string, s ∈ membersOf st (roomOf u) -> (u, s) ∈ open.

(** The state in which the handlers run: [io] is set, nobody is connected. *)
Definition started : state := initialize uninitialized.

End websocketService.

(* ===================================================================== *)
(** ** services/otpService.js: status query and sequences of calls        *)
(* ===================================================================== *)

Module otpCalls.
Import otpService.

(** The object returned by [check]. *)
Record checkResult : Type := mkCheckResult {
  c_exists : bool;
  isExpired : option bool;
  isVerified : option bool;
  remainingSeconds : option Z;
  c_attempts : option Z;
  c_maxAttempts : option Z
}.

(** [check(identifier, purpose)] at clock reading [now]. *)
Definition check (st : state) (now : Z) (identifier purpose : string)
  : checkResult :=
  let key := createOTPKey identifier purpose in
  match otpStore st !! key with
  | None => mkCheckResult false None None None None None
  | Some stored =>
      let isExpired := expiresAt stored <? now in
      let remainingSeconds := Z.max 0 ((expiresAt stored - now) / 1000) in
      mkCheckResult true (Some isExpired) (Some (verified stored))
        (Some remainingSeconds) (Some (attempts stored))
        (Some OTP_CONFIG.maxAttempts)
  end.

(** [getStoreSize()] *)
Definition getStoreSize (st : state) : nat := size (otpStore st).

(** What can happen to the store: the exported calls, and the firing of the
    timers set by [verify]. *)
Inductive call : Type :=
| Generate (now : Z) (randomBytes : list N) (identifier purpose : string)
| Verify (now : Z) (identifier inputOTP purpose : string)
| Invalidate (identifier purpose : string)
| Cleanup (now : Z)
| TimersFire (now : Z).

Definition perform (st : state) (c : call) : state :=
  match c with
  | Generate now randomBytes identifier purpose =>
      snd (generate st now randomBytes identifier purpose)
  | Verify now identifier inputOTP purpose =>
      snd (verify st now identifier inputOTP purpose)
  | Invalidate identifier purpose => invalidate st identifier purpose
  | Cleanup now => cleanup st now
  | TimersFire now => runTimers st now
  end.

(** The store after a sequence of calls on the empty store. *)
Definition after (calls : list call) : state :=
  List.fold_left perform calls initial.

(** What holds of every entry the calls can leave in the store. *)
Definition entryOk (e : entry) : Prop :=
  0 <= attempts e <= OTP_CONFIG.maxAttempts
  /\ expiresAt e = createdAt e + 600000
  /\ (verified e = true -> 1 <= attempts e)
  /\ JsString.allChars JsString.isDigit (otp e) = true.

(** Every entry of the store is as [entryOk] says. *)
Definition storeOk (st : state) : Prop :=
  forall k e, otpStore st !! k = Some e -> entryOk e.

End otpCalls.

(* ===================================================================== *)
(** ** routes/api.js: vocabulary for the risk engine                      *)
(* ===================================================================== *)

(** A report of one of the two categories that score two further points. *)
Definition weightedCategory (report : Report.t) : bool :=
  bool_decide (Report.category report = "Phishing"
               \/ Report.category report = "Identity Theft").

(** The test of the query [{ targetEntity, timestamp: { $gte }, isActive }]
    on one document. *)
Definition reportMatches (normalizedEntity : string) (thirtyDaysAgo : Z)
    (r : Report.t) : bool :=
  bool_decide (Report.targetEntity r = Some normalizedEntity)
  && (thirtyDaysAgo <=? Report.timestamp r)
  && Report.isActive r.

(** What a caller sees of a call: the payload and the notifications. *)
Definition observable
    (res : option (RiskResult.t * Env.t * list Notification.t))
  : option (RiskResult.t * list Notification.t) :=
  match res with
  | Some (payload, _, dispatched) => Some (payload, dispatched)
  | None => None
  end.

(* ===================================================================== *)
(** ** routes/api.js: POST /api/analyze-content                           *)
(* ===================================================================== *)

Module CombinedRisk.
Record t : Type := mk {
  score : Z;
  riskLevel : option string
}.
End CombinedRisk.

(** [level === name] for a level that may be absent. *)
Definition levelIs (level : option string) (name : string) : bool :=
  match level with
  | Some l => String.eqb l name
  | None => false
  end.

(** The combination of the two analyses in the route handler. *)
Definition combineRisk (contentAnalysis : ContentRiskResult.t)
    (entityRisk : option RiskResult.t) : CombinedRisk.t :=
  let combinedRiskLevel := ContentRiskResult.riskLevel contentAnalysis in
  let combinedScore := ContentRiskResult.score contentAnalysis in
  match entityRisk with
  | Some risk =>
      let combinedScore := combinedScore + RiskResult.score risk in
      let combinedRiskLevel :=
        if String.eqb (RiskResult.riskLevel risk) "high_risk"
           || levelIs (ContentRiskResult.riskLevel contentAnalysis) "high_risk"
        then Some "high_risk"
        else if String.eqb (RiskResult.riskLevel risk) "suspicious"
                || levelIs (ContentRiskResult.riskLevel contentAnalysis) "suspicious"
        then Some "suspicious"
        else combinedRiskLevel in
      CombinedRisk.mk combinedScore combinedRiskLevel
  | None => CombinedRisk.mk combinedScore combinedRiskLevel
  end.

(** The handler up to the combined risk: the content analysis, the entity
    risk when a sender is given (a truthy [senderEntity]; the call passes no
    user), and their combination.  [content] is the validated body field. *)
Definition analyzeContentRoute (fuel : nat) (env : Env.t) (now thirtyDaysAgo : Z)
    (content : string) (senderEntity : option string)
  : option (ContentRiskResult.t * option RiskResult.t * CombinedRisk.t * Env.t) :=
  let contentAnalysis := analyzeContentForFraud now (JsString content) in
  match knownUser senderEntity with
  | Some sender =>
      match calculateFraudRisk fuel env now thirtyDaysAgo sender None with
      | Some (entityRisk, env', _) =>
          Some (contentAnalysis, Some entityRisk,
                combineRisk contentAnalysis (Some entityRisk), env')
      | None => None
      end
  | None =>
      Some (contentAnalysis, None, combineRisk contentAnalysis None, env)
  end.

(** The order of the levels: safe, low, suspicious, high_risk. *)
Definition severity (level : string) : nat :=
  if String.eqb level "high_risk" then 3
  else if String.eqb level "suspicious" then 2
  else if String.eqb level "low" then 1
  else 0.

(** The names matched by the nine literal patterns of [urlPatterns]. *)
Definition shortenerNames : list string :=
  [ "bit.ly"; "tinyurl"; "goo.gl"; "ow.ly"; "t.co"; "shorturl"; "tiny.cc";
    "is.gd"; "v.gd" ].

(** The running score is the sum of the scores of the findings, each of
    which is positive. *)
Definition findingsAccount (st : Z * list Finding.t) : Prop :=
  fst st = sumOver Finding.score (snd st)
  /\ Forall (fun f => 0 < Finding.score f) (snd st).

(* ===================================================================== *)
(** ** websocketService.js: notifications and statistics                  *)
(* ===================================================================== *)

Module websocketNotify.
Import websocketService.

(** The unified envelope built by [notificationService.dispatch]. *)
Module UnifiedPayload.
Record t : Type := mk {
  id : string;
  schemaVersion : string;
  type : string;
  priority : string;
  timestamp : string;
  title : string;
  body : string;
  actionUrl : option string;
  metadata : list (string * string);
  websocket : bool;
  sms : bool;
  email : bool
}.
End UnifiedPayload.

(** What a socket receives on the ['notification'] event: the envelope, with
    [timestamp] set again by [sendNotification]. *)
Definition notificationEmission : Type := (string * UnifiedPayload.t)%type.

Definition withTimestamp (p : UnifiedPayload.t) (nowIso : string)
  : UnifiedPayload.t :=
  UnifiedPayload.mk (UnifiedPayload.id p) (UnifiedPayload.schemaVersion p)
    (UnifiedPayload.type p) (UnifiedPayload.priority p) nowIso
    (UnifiedPayload.title p) (UnifiedPayload.body p)
    (UnifiedPayload.actionUrl p) (UnifiedPayload.metadata p)
    (UnifiedPayload.websocket p) (UnifiedPayload.sms p)
    (UnifiedPayload.email p).

(** [sendNotification(userId, notification)] for an envelope. *)
Definition sendNotification (st : state) (nowIso : string) (userId : string)
    (notification : UnifiedPayload.t) : bool * list notificationEmission :=
  if negb (io st) then (false, [])
  else
    (true,
     (fun socketId => (socketId, withTimestamp notification nowIso))
       <$> elements (membersOf st (roomOf userId))).

(** The socket ids of the registry belong to users: [owner] names the user
    of each socket id that occurs in the events. *)
Definition ownedBy (owner : string -> string) (evs : list event) : Prop :=
  forall ev, In ev evs ->
    match ev with
    | Open u s => owner s = u
    | Close u s => owner s = u
    end.

(** The rooms hold exactly the sessions of the set, each under its owner. *)
Definition roomsMirror (owner : string -> string) (st : state)
    (open : gset (string * string)) : Prop :=
  (forall u s, s ∈ membersOf st (roomOf u) <-> (u, s) ∈ open)
  /\ (forall u s, (u, s) ∈ open -> owner s = u).

End websocketNotify.

(* ===================================================================== *)
(** ** services/notificationService.js                                    *)
(* ===================================================================== *)

Module notificationService.
Import websocketService websocketNotify.

(** The argument [notificationData] of [dispatch]; [metadata] is a flat
    object of strings. *)
Module NotificationData.
Record t : Type := mk {
  id : option string;
  type : string;
  priority : string;
  title : string;
  body : string;
  actionUrl : option string;
  metadata : option (list (string * string));
  targetChannel : option string
}.
End NotificationData.

(** The notification object that [calculateFraudRisk] passes. *)
Definition ofNotification (n : Notification.t) : NotificationData.t :=
  NotificationData.mk None (Notification.type n) (Notification.priority n)
    (Notification.title n) (Notification.body n) None None
    (Some (Notification.targetChannel n)).

(** [dispatch(userId, notificationData)] at clock reading [nowMs], whose ISO
    rendering is [nowIso]: the envelope returned, what the sockets receive,
    and the calls of [sendTwilioSMS] with their user and envelope. *)
Definition dispatch (ws : state) (nowMs : Z) (nowIso : string)
    (userId : string) (notificationData : NotificationData.t)
  : UnifiedPayload.t * list notificationEmission
    * list (string * UnifiedPayload.t) :=
  let unifiedPayload :=
    UnifiedPayload.mk
      (default ("notif_" +:+ pretty nowMs)
         (orElse (NotificationData.id notificationData) None))
      "2.0.0"
      (NotificationData.type notificationData)
      (NotificationData.priority notificationData)
      nowIso
      (NotificationData.title notificationData)
      (NotificationData.body notificationData)
      (orElse (NotificationData.actionUrl notificationData) None)
      (default [] (NotificationData.metadata notificationData))
      true
      (levelIs (NotificationData.targetChannel notificationData) "sms"
       || String.eqb (NotificationData.priority notificationData) "critical")
      (String.eqb (NotificationData.priority notificationData) "high"
       || String.eqb (NotificationData.priority notificationData) "critical") in
  let emitted := snd (sendNotification ws nowIso userId unifiedPayload) in
  let smsCalls :=
    if UnifiedPayload.sms unifiedPayload then [(userId, unifiedPayload)] else [] in
  (unifiedPayload, emitted, smsCalls).

End notificationService.

(* ===================================================================== *)
(** ** routes/api.js: password rules and escaped search patterns          *)
(* ===================================================================== *)

(** Some code unit of [s] passes the test: [/[class]/.test(s)]. *)
Fixpoint anyChar (P : ascii -> bool) (s : string) : bool :=
  match s with
  | EmptyString => false
  | String c s' => P c || anyChar P s'
  end.

(** [/[a-z]/] *)
Definition isLowerAZ (c : ascii) : bool :=
  JsString.between 97 122 (JsString.code c).

(** The double quote, code unit 34. *)
Definition doubleQuote : ascii := Ascii.ascii_of_N 34.

(** The class of the last rule of [validatePasswordStrength]. *)
Definition passwordSpecial (c : ascii) : bool :=
  List.existsb (Ascii.eqb c)
    ["!"; "@"; "#"; "$"; "%"; "^"; "&"; "*"; "("; ")"; ","; "."; "?";
     doubleQuote; ":"; "{"; "}"; "|"; "<"; ">"]%char.

Definition validatePasswordStrength (password : string) : list string :=
  let errors := [] in
  let errors :=
    if JsString.length password <? 8
    then errors ++ ["Password must be at least 8 characters long"]
    else errors in
  let errors :=
    if negb (anyChar JsString.isUpperAZ password)
    then errors ++ ["Password must contain at least one uppercase letter"]
    else errors in
  let errors :=
    if negb (anyChar isLowerAZ password)
    then errors ++ ["Password must contain at least one lowercase letter"]
    else errors in
  let errors :=
    if negb (anyChar JsString.isDigit password)
    then errors ++ ["Password must contain at least one number"]
    else errors in
  let errors :=
    if negb (anyChar passwordSpecial password)
    then errors ++
         ["Password must contain at least one special character (!@#$%^&*(),.?"
          +:+ String doubleQuote ":{}|<>)"]
    else errors in
  errors.

(** How a pattern made of literals and escapes reads: a backslash makes the
    character after it stand for itself, and so does any character outside
    the special class.  [literalPattern] tells whether a pattern is of that
    kind, [patternText] gives the text it stands for. *)
Fixpoint literalPattern (pattern : string) : bool :=
  match pattern with
  | EmptyString => true
  | String c rest =>
      if Ascii.eqb c "\" then
        match rest with
        | EmptyString => false
        | String _ rest' => literalPattern rest'
        end
      else negb (regexSpecial c) && literalPattern rest
  end.

Fixpoint patternText (pattern : string) : string :=
  match pattern with
  | EmptyString => EmptyString
  | String c rest =>
      if Ascii.eqb c "\" then
        match rest with
        | EmptyString => EmptyString
        | String d rest' => String d (patternText rest')
        end
      else String c (patternText rest)
  end.

(* ===================================================================== *)
(** ** routes/api.js: the alert routes                                    *)
(* ===================================================================== *)

Module Alerts.

Record PendingAlert : Type := mkPending {
  _id : string;
  alertType : string;
  fromEntity : string;
  riskLevel : string;
  riskScore : Z;
  message : string;
  category : string;
  createdAt : Z;
  acknowledged : bool;
  acknowledgedAt : option Z
}.

Record HistoryEntry : Type := mkHistory {
  h_alertType : string;
  h_fromEntity : string;
  h_riskLevel : string;
  h_riskScore : Z;
  action : string;
  timestamp : Z
}.

(** The fields of a user document that the alert routes read and write. *)
Record User : Type := mkUser {
  userId : string;
  email : string;
  pendingAlerts : list PendingAlert;
  alertHistory : list HistoryEntry
}.

(** [array.slice(start)] *)
Definition slice {A : Type} (start : Z) (l : list A) : list A :=
  let len := Z.of_nat (List.length l) in
  let from := if start <? 0 then Z.max (len + start) 0 else Z.min start len in
  List.skipn (Z.to_nat from) l.

(** GET /api/alerts/pending: the alerts returned and their count. *)
Definition pendingRoute (user : User) : list PendingAlert * Z :=
  let pending := List.filter (fun a => negb (acknowledged a)) (pendingAlerts user) in
  (pending, Z.of_nat (List.length pending)).

(** [pendingAlerts.id(alertId)]: the first sub-document with that id. *)
Definition findAlert (alertId : string) (alerts : list PendingAlert)
  : option PendingAlert :=
  List.find (fun a => String.eqb (_id a) alertId) alerts.

(** The assignment to the sub-document found by [id]: it is the first of
    the array with that id. *)
Fixpoint markAcknowledged (alertId : string) (now : Z)
    (alerts : list PendingAlert) : list PendingAlert :=
  match alerts with
  | [] => []
  | a :: rest =>
      if String.eqb (_id a) alertId then
        mkPending (_id a) (alertType a) (fromEntity a) (riskLevel a)
          (riskScore a) (message a) (category a) (createdAt a) true (Some now)
        :: rest
      else a :: markAcknowledged alertId now rest
  end.

Inductive status : Type := Ok200 | NotFound404 | Error500.

(** POST /api/alerts/acknowledge/:alertId, with the validated [action] of
    the body, at clock reading [now]; the document is saved as it is left. *)
Definition acknowledgeRoute (user : User) (now : Z) (alertId : string)
    (action : option string) : status * User :=
  match findAlert alertId (pendingAlerts user) with
  | None => (NotFound404, user)
  | Some alert =>
      let pending := markAcknowledged alertId now (pendingAlerts user) in
      let history :=
        alertHistory user ++
        [mkHistory (alertType alert) (fromEntity alert) (riskLevel alert)
           (riskScore alert)
           (default "dismissed" (websocketService.orElse action None)) now] in
      let history :=
        if 500 <? Z.of_nat (List.length history) then slice (-500) history
        else history in
      (Ok200, mkUser (userId user) (email user) pending history)
  end.

(** GET /api/alerts/history; [limit] is the value of
    [parseInt(req.query.limit)], [None] standing for NaN. *)
Definition historyRoute (user : User) (limit : option Z)
  : list HistoryEntry * Z :=
  let limit :=
    match limit with
    | Some n => if n =? 0 then 50 else n
    | None => 50
    end in
  let history := List.rev (slice (- limit) (alertHistory user)) in
  (history, Z.of_nat (List.length history)).

(** What the trigger route gives back. *)
Inductive triggerResponse : Type :=
| NoProtectedUsers
| Processed (alertsCreated : Z) (riskResult : RiskResult.t)
| ErrorTriggering.

(** The state the loop of the trigger route works on: the user documents
    gone through so far, what the sockets were handed, the addresses the
    e-mail service was called for, and the count. *)
Record loopState : Type := mkLoop {
  processed : list User;
  emitted : list websocketService.emission;
  emailed : list string;
  alertsCreated : Z
}.

(** [riskResult.reportDetails]: the payload built by [calculateFraudRisk]
    has no property of that name, so the access yields [undefined]. *)
Definition reportDetails (riskResult : RiskResult.t)
  : option (list Report.t) := None.

(** One round of the loop over the users found.  Reading index 0 of an
    undefined [reportDetails] throws; [None] stands for the exception.
    [newId] is the id the store gives the pushed sub-document, [nowIso] the
    ISO rendering of [now], and [warningText level alertType] the default
    message, a template around the upper-cased level and the alert type. *)
Definition triggerStep (ws : websocketService.state) (now : Z) (nowIso : string)
    (newId : User -> string) (warningText : string -> string -> string)
    (riskResult : RiskResult.t)
    (fromEntity alertType : string) (message : option string)
    (st : loopState) (user : User) : option loopState :=
  if negb (String.eqb (RiskResult.riskLevel riskResult) "safe") then
    let text :=
      default (warningText (RiskResult.riskLevel riskResult) alertType)
        (websocketService.orElse message None) in
    match reportDetails riskResult with
    | None => None
    | Some details =>
        let category :=
          match details with
          | first :: _ =>
              if String.eqb (Report.category first) "" then "Unknown"
              else Report.category first
          | [] => "Unknown"
          end in
        let alertData :=
          mkPending (newId user) alertType
            (JsString.trim (JsString.toLowerCase fromEntity))
            (RiskResult.riskLevel riskResult) (RiskResult.score riskResult)
            text category now false None in
        let pending := pendingAlerts user ++ [alertData] in
        let pending :=
          if 100 <? Z.of_nat (List.length pending) then slice (-100) pending
          else pending in
        let user' := mkUser (userId user) (email user) pending (alertHistory user) in
        let sent :=
          snd (websocketService.sendAlert ws nowIso (userId user)
                 (websocketService.AlertData.mk (Some (newId user)) None
                    alertType
                    (JsString.trim (JsString.toLowerCase fromEntity))
                    (RiskResult.riskLevel riskResult)
                    (RiskResult.score riskResult) text category
                    (Some nowIso))) in
        let mails :=
          if String.eqb (RiskResult.riskLevel riskResult) "critical"
             || String.eqb (RiskResult.riskLevel riskResult) "high"
          then [email user] else [] in
        Some (mkLoop (processed st ++ [user']) (emitted st ++ sent)
                     (emailed st ++ mails) (alertsCreated st + 1))
    end
  else Some (mkLoop (processed st ++ [user]) (emitted st) (emailed st)
                    (alertsCreated st)).

(** The loop; when a round throws, the loop is left with the documents as
    they are at that point and the flag [false]. *)
Fixpoint triggerLoop (step : loopState -> User -> option loopState)
    (users : list User) (st : loopState) : loopState * bool :=
  match users with
  | [] => (st, true)
  | user :: rest =>
      match step st user with
      | Some st' => triggerLoop step rest st'
      | None =>
          (mkLoop (processed st ++ user :: rest) (emitted st) (emailed st)
                  (alertsCreated st), false)
      end
  end.

(** POST /api/alerts/trigger with the users its lookup found: the response,
    the state the loop leaves (documents, socket emissions, e-mail calls)
    and the environment left by the risk check. *)
Definition triggerRoute (fuel : nat) (env : Env.t) (now thirtyDaysAgo : Z)
    (ws : websocketService.state) (nowIso : string) (newId : User -> string)
    (warningText : string -> string -> string)
    (users : list User) (fromEntity alertType : string)
    (message : option string)
  : triggerResponse * loopState * Env.t :=
  if (Z.of_nat (List.length users) =? 0) then
    (NoProtectedUsers, mkLoop users [] [] 0, env)
  else
    match calculateFraudRisk fuel env now thirtyDaysAgo fromEntity None with
    | None => (ErrorTriggering, mkLoop users [] [] 0, env)
    | Some (riskResult, env', _) =>
        match triggerLoop
                (triggerStep ws now nowIso newId warningText riskResult
                   fromEntity alertType message)
                users (mkLoop [] [] [] 0) with
        | (st, true) => (Processed (alertsCreated st) riskResult, st, env')
        | (st, false) => (ErrorTriggering, st, env')
        end
    end.

End Alerts.

(* ===================================================================== *)
(** ** Sample inputs                                                      *)
(* ===================================================================== *)

(** An environment whose report store rejects every lookup and whose demo
    storage is empty. *)
Definition failingStore : Env.t :=
  Env.mk false [] None (fun _ => None).

(** A store holding one fresh code: ["123456"], generated at time 0 for
    ["user@example.com"] and the purpose ["login"]. *)
Definition freshCode : otpService.state :=
  snd (otpService.generate otpService.initial 0 [1; 2; 3; 4; 5; 6]%N
         "user@example.com" "login").

(** [freshCode] after three calls of [verify] with the wrong code
    ["000000"], at times 1000, 2000 and 3000. *)
Definition afterThreeWrong : otpService.state :=
  let s1 := snd (otpService.verify freshCode 1000 "user@example.com" "000000" "login") in
  let s2 := snd (otpService.verify s1 2000 "user@example.com" "000000" "login") in
  snd (otpService.verify s2 3000 "user@example.com" "000000" "login").

(** An alert as the alert route saves it. *)
Definition sampleAlert : websocketService.AlertData.t :=
  websocketService.AlertData.mk (Some "a1") None "call" "9944084754"
    "high_risk" 9 "incoming call" "Phishing" None.

(* ===================================================================== *)
(** * Properties                                                          *)
(* ===================================================================== *)

(** ** Code units *)

Ltac ascii_cases c :=
  destruct c as [[] [] [] [] [] [] [] []]; vm_compute; try reflexivity.

Lemma toLowerChar_idem (c : ascii) :
  JsString.toLowerChar (JsString.toLowerChar c) = JsString.toLowerChar c.
Proof. ascii_cases c. Qed.

Lemma isWhiteSpace_toLowerChar (c : ascii) :
  JsString.isWhiteSpace (JsString.toLowerChar c) = JsString.isWhiteSpace c.
Proof. ascii_cases c. Qed.

Lemma formattingChar_toLowerChar (c : ascii) :
  formattingChar (JsString.toLowerChar c) = formattingChar c.
Proof. ascii_cases c. Qed.

Lemma isWhiteSpace_formattingChar (c : ascii) :
  JsString.isWhiteSpace c = true -> formattingChar c = true.
Proof. unfold formattingChar. intros ->. reflexivity. Qed.

Lemma at_not_formattingChar (c : ascii) :
  Ascii.eqb "@" c = true -> formattingChar c = false.
Proof. intros H. apply Ascii.eqb_eq in H. subst c. reflexivity. Qed.

(** ** Strings *)

Section StringLemmas.
Import JsString.

Lemma toLowerCase_idem (s : string) :
  toLowerCase (toLowerCase s) = toLowerCase s.
Proof.
  induction s as [|c s IH]; simpl; [reflexivity|].
  rewrite toLowerChar_idem, IH. reflexivity.
Qed.

Lemma toLowerCase_empty (s : string) :
  toLowerCase s = EmptyString <-> s = EmptyString.
Proof. destruct s; simpl; split; congruence. Qed.

Lemma toLowerCase_trimStart (s : string) :
  toLowerCase (trimStart s) = trimStart (toLowerCase s).
Proof.
  induction s as [|c s IH]; simpl; [reflexivity|].
  rewrite isWhiteSpace_toLowerChar.
  destruct (isWhiteSpace c); [exact IH | reflexivity].
Qed.

Lemma toLowerCase_trimEnd (s : string) :
  toLowerCase (trimEnd s) = trimEnd (toLowerCase s).
Proof.
  induction s as [|c s IH]; simpl; [reflexivity|].
  rewrite <- IH, isWhiteSpace_toLowerChar.
  destruct (trimEnd s) as [|d r]; simpl.
  - destruct (isWhiteSpace c); reflexivity.
  - reflexivity.
Qed.

Lemma toLowerCase_trim (s : string) :
  toLowerCase (trim s) = trim (toLowerCase s).
Proof.
  unfold trim. rewrite toLowerCase_trimEnd, toLowerCase_trimStart. reflexivity.
Qed.

Lemma toLowerCase_removeChars (cls : ascii -> bool) (s : string) :
  (forall c, cls (toLowerChar c) = cls c) ->
  toLowerCase (removeChars cls s) = removeChars cls (toLowerCase s).
Proof.
  intros Hcls. induction s as [|c s IH]; simpl; [reflexivity|].
  rewrite Hcls. destruct (cls c); simpl; rewrite IH; reflexivity.
Qed.

Lemma trimStart_noLeadingSpace (s : string) :
  noLeadingSpace (trimStart s) = true.
Proof.
  induction s as [|c s IH]; simpl; [reflexivity|].
  destruct (isWhiteSpace c) eqn:E; [exact IH | simpl; rewrite E; reflexivity].
Qed.

Lemma trimStart_fixed (s : string) :
  noLeadingSpace s = true -> trimStart s = s.
Proof.
  destruct s as [|c s]; simpl; [reflexivity|].
  destruct (isWhiteSpace c); [discriminate | reflexivity].
Qed.

Lemma trimEnd_noLeadingSpace (s : string) :
  noLeadingSpace s = true -> noLeadingSpace (trimEnd s) = true.
Proof.
  destruct s as [|c s]; simpl; [reflexivity|].
  intros H. destruct (trimEnd s); simpl; [|exact H].
  destruct (isWhiteSpace c) eqn:E; simpl in *; [discriminate|].
  rewrite E. reflexivity.
Qed.

Lemma trimEnd_idem (s : string) : trimEnd (trimEnd s) = trimEnd s.
Proof.
  induction s as [|c s IH]; simpl; [reflexivity|].
  destruct (trimEnd s) as [|d r] eqn:E.
  - destruct (isWhiteSpace c) eqn:Ec; simpl; [reflexivity|].
    rewrite Ec. reflexivity.
  - change (trimEnd (String c (String d r))) with
      (match trimEnd (String d r) with
       | EmptyString =>
           if isWhiteSpace c then EmptyString else String c EmptyString
       | r0 => String c r0
       end).
    rewrite IH. reflexivity.
Qed.

Lemma trim_idem (s : string) : trim (trim s) = trim s.
Proof.
  unfold trim.
  rewrite (trimStart_fixed (trimEnd (trimStart s))).
  - apply trimEnd_idem.
  - apply trimEnd_noLeadingSpace, trimStart_noLeadingSpace.
Qed.

Lemma trimStart_no_space (s : string) :
  allChars (fun c => negb (isWhiteSpace c)) s = true -> trimStart s = s.
Proof.
  destruct s as [|c s]; simpl; [reflexivity|].
  destruct (isWhiteSpace c); [discriminate | reflexivity].
Qed.

Lemma trimEnd_no_space (s : string) :
  allChars (fun c => negb (isWhiteSpace c)) s = true -> trimEnd s = s.
Proof.
  induction s as [|c s IH]; simpl; [reflexivity|].
  intros H. apply andb_prop in H as [Hc Hs].
  rewrite (IH Hs). destruct s; [|reflexivity].
  destruct (isWhiteSpace c); [discriminate | reflexivity].
Qed.

Lemma trim_no_space (s : string) :
  allChars (fun c => negb (isWhiteSpace c)) s = true -> trim s = s.
Proof.
  intros H. unfold trim. rewrite (trimStart_no_space s H).
  apply trimEnd_no_space, H.
Qed.

Lemma removeChars_allChars (cls : ascii -> bool) (s : string) :
  allChars (fun c => negb (cls c)) (removeChars cls s) = true.
Proof.
  induction s as [|c s IH]; simpl; [reflexivity|].
  destruct (cls c) eqn:E; simpl; [exact IH|].
  rewrite E, IH. reflexivity.
Qed.

Lemma allChars_weaken (P Q : ascii -> bool) (s : string) :
  (forall c, P c = true -> Q c = true) ->
  allChars P s = true -> allChars Q s = true.
Proof.
  intros HPQ. induction s as [|c s IH]; simpl; [reflexivity|].
  intros H. apply andb_prop in H as [Hc Hs].
  rewrite (HPQ c Hc), (IH Hs). reflexivity.
Qed.

Lemma removeChars_fixed (cls : ascii -> bool) (s : string) :
  allChars (fun c => negb (cls c)) s = true -> removeChars cls s = s.
Proof.
  induction s as [|c s IH]; simpl; [reflexivity|].
  intros H. apply andb_prop in H as [Hc Hs].
  destruct (cls c); [discriminate|]. rewrite (IH Hs). reflexivity.
Qed.

Lemma removeChars_trimStart (cls : ascii -> bool) (s : string) :
  (forall c, isWhiteSpace c = true -> cls c = true) ->
  removeChars cls (trimStart s) = removeChars cls s.
Proof.
  intros Hcls. induction s as [|c s IH]; simpl; [reflexivity|].
  destruct (isWhiteSpace c) eqn:E; [|reflexivity].
  rewrite (Hcls c E). exact IH.
Qed.

Lemma removeChars_trimEnd (cls : ascii -> bool) (s : string) :
  (forall c, isWhiteSpace c = true -> cls c = true) ->
  removeChars cls (trimEnd s) = removeChars cls s.
Proof.
  intros Hcls. induction s as [|c s IH]; simpl; [reflexivity|].
  rewrite <- IH. destruct (trimEnd s) as [|d r]; [|reflexivity].
  destruct (isWhiteSpace c) eqn:E; [|reflexivity].
  simpl. rewrite (Hcls c E). reflexivity.
Qed.

Lemma removeChars_trim (cls : ascii -> bool) (s : string) :
  (forall c, isWhiteSpace c = true -> cls c = true) ->
  removeChars cls (trim s) = removeChars cls s.
Proof.
  intros Hcls. unfold trim.
  rewrite removeChars_trimEnd, removeChars_trimStart by exact Hcls.
  reflexivity.
Qed.

Lemma includes_at_cons (c : ascii) (s : string) :
  includes (String c s) "@" = Ascii.eqb "@" c || includes s "@".
Proof.
  change (includes (String c s) "@")
    with (startsWith "@" (String c s) || includes s "@").
  simpl. destruct s; rewrite andb_true_r; reflexivity.
Qed.

Lemma includes_at_removeChars (cls : ascii -> bool) (s : string) :
  includes s "@" = false -> includes (removeChars cls s) "@" = false.
Proof.
  induction s as [|c s IH]; [intros _; reflexivity|].
  rewrite includes_at_cons. intros H. apply orb_false_elim in H as [Hc Hs].
  simpl. destruct (cls c); [exact (IH Hs)|].
  rewrite includes_at_cons, Hc, (IH Hs). reflexivity.
Qed.

End StringLemmas.


(** ** Entity normalisation *)

(** The result of the phone branch holds no formatting character. *)
Lemma removeChars_formatting_clean (s : string) :
  JsString.allChars (fun c => negb (formattingChar c))
    (JsString.removeChars formattingChar s) = true.
Proof. apply removeChars_allChars. Qed.

Lemma normalized_fixed_by_lower_trim (x : string) :
  let n := JsString.trim (JsString.toLowerCase x) in
  JsString.trim (JsString.toLowerCase n) = n.
Proof.
  simpl. rewrite toLowerCase_trim, toLowerCase_idem. apply trim_idem.
Qed.

(** C6, as stated, fails: the digits of the country code stay in the key. *)
Lemma normalize_country_code_differs :
  normalizeEntity " +91 98765-43210 " <> normalizeEntity "9876543210".
Proof. vm_compute. discriminate. Qed.

(** C6 (amended): [" +91 98765-43210 "] is normalised to the twelve digits
    ["919876543210"], the key of ["919876543210"] itself, while
    ["9876543210"] keeps its own ten digits as key. *)
Theorem normalize_phone_formatting :
  normalizeEntity " +91 98765-43210 " = "919876543210"
  /\ normalizeEntity " +91 98765-43210 " = normalizeEntity "919876543210"
  /\ normalizeEntity "9876543210" = "9876543210".
Proof. repeat split; vm_compute; reflexivity. Qed.

(** C7: [normalizeEntity] is idempotent; an input whose trimmed lower-case
    form contains ['@'] is returned in that form, and any other input has the
    characters of the class [[\s\-\(\)\+\.]] (white space, ['-'], ['('], [')'],
    ['+'], ['.']) removed and the rest lower-cased. *)
Theorem normalizeEntity_idempotent (x : string) :
  normalizeEntity (normalizeEntity x) = normalizeEntity x
  /\ (JsString.includes (JsString.trim (JsString.toLowerCase x)) "@" = true ->
      normalizeEntity x = JsString.trim (JsString.toLowerCase x))
  /\ (JsString.includes (JsString.trim (JsString.toLowerCase x)) "@" = false ->
      normalizeEntity x
      = JsString.toLowerCase (JsString.removeChars formattingChar x)).
Proof.
  pose proof (normalized_fixed_by_lower_trim x) as Hfix. simpl in Hfix.
  set (n := JsString.trim (JsString.toLowerCase x)) in *.
  assert (Hdef : normalizeEntity x =
                 if JsString.includes n "@" then n
                 else JsString.removeChars formattingChar n) by reflexivity.
  rewrite Hdef. clear Hdef.
  destruct (JsString.includes n "@") eqn:Hat.
  - split; [|split; [reflexivity | discriminate]].
    unfold normalizeEntity. rewrite Hfix, Hat. reflexivity.
  - split; [|split; [discriminate|]].
    + set (r := JsString.removeChars formattingChar n).
      assert (Hclean : JsString.allChars (fun c => negb (formattingChar c)) r = true)
        by apply removeChars_formatting_clean.
      assert (Hlow : JsString.toLowerCase r = r).
      { unfold r. rewrite toLowerCase_removeChars by apply formattingChar_toLowerChar.
        unfold n at 1. rewrite toLowerCase_trim, toLowerCase_idem. reflexivity. }
      assert (Htrim : JsString.trim r = r).
      { apply trim_no_space.
        apply (allChars_weaken (fun c => negb (formattingChar c))); [|exact Hclean].
        intros c Hc. destruct (JsString.isWhiteSpace c) eqn:E; [|reflexivity].
        rewrite (isWhiteSpace_formattingChar c E) in Hc. discriminate. }
      pose proof (includes_at_removeChars formattingChar n Hat) as Hno.
      fold r in Hno.
      unfold normalizeEntity. rewrite Hlow, Htrim, Hno.
      apply removeChars_fixed, Hclean.
    + intros _. unfold n.
      rewrite removeChars_trim by apply isWhiteSpace_formattingChar.
      rewrite toLowerCase_removeChars by apply formattingChar_toLowerChar.
      reflexivity.
Qed.

Lemma normalizeEntity_idempotent_witness :
  normalizeEntity (normalizeEntity " Foo@Bar.COM ") = normalizeEntity " Foo@Bar.COM "
  /\ normalizeEntity " Foo@Bar.COM "
     = JsString.trim (JsString.toLowerCase " Foo@Bar.COM ")
  /\ normalizeEntity "(763) 274-3899"
     = JsString.toLowerCase (JsString.removeChars formattingChar "(763) 274-3899").
Proof.
  split; [exact (proj1 (normalizeEntity_idempotent " Foo@Bar.COM "))|]. split.
  - apply (proj1 (proj2 (normalizeEntity_idempotent " Foo@Bar.COM "))).
    reflexivity.
  - apply (proj2 (proj2 (normalizeEntity_idempotent "(763) 274-3899"))).
    reflexivity.
Defined.


(** ** Risk scoring *)

Lemma fold_reportStep (reports : list Report.t) (acc : Z) :
  List.fold_left reportStep reports acc = acc + sumOver reportPoints reports.
Proof.
  revert acc. induction reports as [|r reports IH]; intros acc; simpl.
  - lia.
  - rewrite IH. unfold reportStep, reportPoints.
    destruct (String.eqb_spec (Report.category r) "Phishing") as [E1|N1];
      destruct (String.eqb_spec (Report.category r) "Identity Theft") as [E2|N2];
      simpl; case_bool_decide; try lia; exfalso; tauto.
Qed.

Lemma reportPoints_pos (r : Report.t) : 1 <= reportPoints r.
Proof. unfold reportPoints. case_bool_decide; lia. Qed.

Lemma sumOver_reportPoints_ge (reports : list Report.t) :
  Z.of_nat (List.length reports) <= sumOver reportPoints reports.
Proof.
  induction reports as [|r reports IH]; simpl; [lia|].
  pose proof (reportPoints_pos r). lia.
Qed.

Lemma riskMapping_level (score : Z) :
  0 <= score ->
  let level := fst (fst (riskMapping score)) in
  (level = "safe" <-> score = 0)
  /\ (level = "suspicious" <-> 1 <= score <= 5)
  /\ (level = "high_risk" <-> 5 < score).
Proof.
  intros Hs. unfold riskMapping.
  destruct (Z.eqb_spec score 0) as [E0|N0]; simpl.
  - intuition (try discriminate; try lia).
  - destruct (Z.leb_spec score 5) as [L5|G5]; simpl;
      intuition (try discriminate; try lia).
Qed.

(** What the scoring code makes of the reports it is handed. *)
Lemma riskPayload_spec (demoMode : bool) (entity : string)
    (ctx : option (list string)) (now : Z) (userId : option string)
    (reports : list Report.t) :
  let payload := fst (riskPayload demoMode entity ctx now userId reports) in
  RiskResult.score payload = sumOver reportPoints reports
  /\ RiskResult.riskLevel payload
     = fst (fst (riskMapping (sumOver reportPoints reports)))
  /\ RiskResult.totalReports payload = Z.of_nat (List.length reports)
  /\ RiskResult.isDemo payload = demoMode
  /\ RiskResult.targetEntity payload = entity.
Proof.
  unfold riskPayload. rewrite fold_reportStep, Z.add_0_l.
  destruct (riskMapping (sumOver reportPoints reports)) as [[level color] msg].
  simpl. repeat split; reflexivity.
Qed.

(** Two levels of nesting are enough: the call returns. *)
Lemma calculateFraudRisk_returns (fuel : nat) (env : Env.t)
    (now thirtyDaysAgo : Z) (targetEntity : string) (userId : option string) :
  exists payload dispatched,
    calculateFraudRisk (S (S fuel)) env now thirtyDaysAgo targetEntity userId
    = Some (payload,
            match Env.DEMO_MODE env, Env.fraudReports env with
            | false, None => Env.setDemoMode env
            | _, _ => env
            end,
            dispatched)
    /\ payload
       = fst (riskPayload
                (match Env.fraudReports env with
                 | None => true
                 | Some _ => Env.DEMO_MODE env
                 end)
                (normalizeEntity targetEntity)
                (if Env.DEMO_MODE env then None
                 else match Env.fraudReports env with
                      | Some _ =>
                          match Env.cyberCrime env
                                  (escapeRegex (normalizeEntity targetEntity)) with
                          | Some found => found
                          | None => None
                          end
                      | None => None
                      end)
                now userId
                (reportsInHand env now thirtyDaysAgo targetEntity)).
Proof.
  unfold reportsInHand.
  destruct env as [demo demoReports [docs|] cyber]; destruct demo; simpl;
    match goal with
    | |- context [riskPayload ?a ?b ?c ?d ?e ?f] =>
        destruct (riskPayload a b c d e f) as [payload dispatched] eqn:E
    end;
    exists payload, dispatched; (split; [reflexivity|]); reflexivity.
Qed.

(** C1: the score of [calculateFraudRisk] is the sum over the reports in hand
    of one point each, plus two for a report of category ['Phishing'] or
    ['Identity Theft']; the level is ['safe'] iff the score is 0,
    ['suspicious'] iff it lies in 1..5 and ['high_risk'] iff it exceeds 5;
    [totalReports] is the number of reports, not the score. *)
Theorem calculateFraudRisk_score (fuel : nat) (env : Env.t)
    (now thirtyDaysAgo : Z) (targetEntity : string) (userId : option string) :
  let reports := reportsInHand env now thirtyDaysAgo targetEntity in
  exists payload env' dispatched,
    calculateFraudRisk (S (S fuel)) env now thirtyDaysAgo targetEntity userId
    = Some (payload, env', dispatched)
    /\ RiskResult.score payload = sumOver reportPoints reports
    /\ (RiskResult.riskLevel payload = "safe" <-> RiskResult.score payload = 0)
    /\ (RiskResult.riskLevel payload = "suspicious"
        <-> 1 <= RiskResult.score payload <= 5)
    /\ (RiskResult.riskLevel payload = "high_risk"
        <-> 5 < RiskResult.score payload)
    /\ RiskResult.totalReports payload = Z.of_nat (List.length reports).
Proof.
  intros reports.
  destruct (calculateFraudRisk_returns fuel env now thirtyDaysAgo targetEntity userId)
    as (payload & dispatched & Hcall & Hpayload).
  eexists payload, _, dispatched. split; [exact Hcall|].
  fold reports in Hpayload.
  match type of Hpayload with
  | _ = fst (riskPayload ?a ?b ?c ?d ?e ?f) =>
      pose proof (riskPayload_spec a b c d e f) as (Hs & Hl & Ht & _)
  end.
  rewrite <- Hpayload in Hs, Hl, Ht.
  assert (Hnn : 0 <= sumOver reportPoints reports).
  { pose proof (sumOver_reportPoints_ge reports). lia. }
  pose proof (riskMapping_level _ Hnn) as (L1 & L2 & L3).
  rewrite Hl, Hs. repeat split; try tauto; try exact Ht; try apply L1;
    try apply L2; try apply L3.
Qed.

(** Three reports of category ['Phishing'] score 9, which is ['high_risk']. *)
Example three_phishing_reports :
  let r := Report.mk (Some "x") "Phishing" 0 true in
  let payload := fst (riskPayload false "x" None 0 None [r; r; r]) in
  RiskResult.score payload = 9
  /\ RiskResult.riskLevel payload = "high_risk"
  /\ RiskResult.totalReports payload = 3.
Proof. repeat split; reflexivity. Qed.

(** C3, as stated, fails: with the store failing, the demo entity
    ["9944084754"] is scored from three mock reports. *)
Lemma lookup_failure_not_zero_reports :
  exists payload env' dispatched,
    calculateFraudRisk 2 failingStore 0 0 "9944084754" None
    = Some (payload, env', dispatched)
    /\ RiskResult.score payload = 9
    /\ RiskResult.riskLevel payload = "high_risk"
    /\ RiskResult.totalReports payload = 3
    /\ ~ (RiskResult.score payload = 0
          /\ RiskResult.riskLevel payload = "safe"
          /\ RiskResult.totalReports payload = 0).
Proof.
  eexists _, _, _. split; [vm_compute; reflexivity|].
  simpl. repeat split; try reflexivity. intros (H & _). discriminate H.
Qed.

(** C3 (amended): when the store lookup fails the call still returns; it
    raises the demo flag and scores the demo reports of the entity (the
    active entries of the demo storage and the mock reports of a demo
    entity).  The result is the zero-report result exactly when there is no
    such demo report. *)
Theorem lookup_failure_falls_back_to_demo (fuel : nat) (env : Env.t)
    (now thirtyDaysAgo : Z) (targetEntity : string) (userId : option string) :
  Env.DEMO_MODE env = false ->
  Env.fraudReports env = None ->
  let reports :=
    demoModeReports (Env.demoReports env) (normalizeEntity targetEntity) now in
  exists payload dispatched,
    calculateFraudRisk (S (S fuel)) env now thirtyDaysAgo targetEntity userId
    = Some (payload, Env.setDemoMode env, dispatched)
    /\ RiskResult.isDemo payload = true
    /\ RiskResult.score payload = sumOver reportPoints reports
    /\ RiskResult.totalReports payload = Z.of_nat (List.length reports)
    /\ (reports = [] <->
        RiskResult.score payload = 0
        /\ RiskResult.riskLevel payload = "safe"
        /\ RiskResult.totalReports payload = 0).
Proof.
  intros Hdemo Hfail reports.
  destruct (calculateFraudRisk_returns fuel env now thirtyDaysAgo targetEntity userId)
    as (payload & dispatched & Hcall & Hpayload).
  unfold reportsInHand in Hpayload.
  rewrite Hdemo, Hfail in Hcall, Hpayload. fold reports in Hpayload.
  exists payload, dispatched. split; [exact Hcall|].
  match type of Hpayload with
  | _ = fst (riskPayload ?a ?b ?c ?d ?e ?f) =>
      pose proof (riskPayload_spec a b c d e f) as (Hs & Hl & Ht & Hd & _)
  end.
  rewrite <- Hpayload in Hs, Hl, Ht, Hd.
  split; [exact Hd|]. split; [exact Hs|]. split; [exact Ht|]. split.
  - intros E. rewrite Hs, Hl, Ht, E. repeat split; reflexivity.
  - intros (_ & _ & H0). rewrite Ht in H0.
    destruct reports; [reflexivity | simpl in H0; lia].
Qed.

Lemma lookup_failure_falls_back_to_demo_witness :
  exists payload dispatched,
    calculateFraudRisk 2 failingStore 0 0 "9944084754" None
    = Some (payload, Env.setDemoMode failingStore, dispatched)
    /\ RiskResult.isDemo payload = true
    /\ RiskResult.score payload
       = sumOver reportPoints (demoModeReports [] (normalizeEntity "9944084754") 0)
    /\ RiskResult.totalReports payload
       = Z.of_nat (List.length (demoModeReports [] (normalizeEntity "9944084754") 0))
    /\ (demoModeReports [] (normalizeEntity "9944084754") 0 = [] <->
        RiskResult.score payload = 0
        /\ RiskResult.riskLevel payload = "safe"
        /\ RiskResult.totalReports payload = 0).
Proof.
  exact (lookup_failure_falls_back_to_demo 0 failingStore 0 0 "9944084754" None
           eq_refl eq_refl).
Defined.


(** ** Content scoring *)

Lemma assoc_In {A : Type} (k : string) (l : list (string * A)) (v : A) :
  assoc k l = Some v -> In (k, v) l.
Proof.
  induction l as [|[k' v'] l IH]; simpl; [discriminate|].
  destruct (String.eqb_spec k k') as [->|_].
  - intros [= ->]. left. reflexivity.
  - intros H. right. exact (IH H).
Qed.

Lemma getCategoryWeight_pos (category : string) : 1 <= getCategoryWeight category.
Proof.
  unfold getCategoryWeight.
  destruct (assoc category weights) as [w|] eqn:E; [|lia].
  apply assoc_In in E. simpl in E.
  destruct (Z.eqb_spec w 0); [lia|].
  repeat (destruct E as [[= _ <-]|E]; [lia|]). destruct E.
Qed.

Lemma categoryPoints_nonneg (content : string) (entry : string * list string) :
  0 <= categoryPoints content entry.
Proof.
  unfold categoryPoints, matchCount.
  pose proof (getCategoryWeight_pos (fst entry)). nia.
Qed.

Lemma sumOver_cons {A : Type} (f : A -> Z) (x : A) (l : list A) :
  sumOver f (x :: l) = f x + sumOver f l.
Proof. reflexivity. Qed.

Lemma sumOver_nonneg {A : Type} (f : A -> Z) (l : list A) :
  (forall x, 0 <= f x) -> 0 <= sumOver f l.
Proof.
  intros Hf. induction l as [|x l IH]; simpl; [lia|].
  pose proof (Hf x). lia.
Qed.

Lemma fold_categoryStep (content : string)
    (entries : list (string * list string)) (st : Z * list Finding.t) :
  fst (List.fold_left (categoryStep (JsString.toLowerCase content)) entries st)
  = fst st + sumOver (categoryPoints content) entries.
Proof.
  revert st. induction entries as [|[category keywords] entries IH];
    intros [score findings].
  - simpl. lia.
  - rewrite sumOver_cons. cbn [List.fold_left]. rewrite IH.
    unfold categoryStep, categoryPoints at 2, matchCount. cbn [fst snd].
    set (n := Z.of_nat (List.length
                (matchedKeywordsOf (JsString.toLowerCase content) keywords))).
    destruct (Z.ltb_spec 0 n); cbn [fst]; [lia|].
    assert (n = 0) as -> by (unfold n in *; lia). lia.
Qed.

Lemma urlLoop_score (patterns : list Regex.t) (content : string)
    (st : Z * list Finding.t) :
  fst (urlLoop patterns content st)
  = fst st
    + (if List.existsb (fun pattern => Regex.test pattern content) patterns
       then 3 else 0).
Proof.
  induction patterns as [|pattern rest IH]; simpl; [lia|].
  destruct (Regex.test pattern content); simpl; [reflexivity | exact IH].
Qed.

Lemma excessiveCaps_spec (content : string) :
  excessiveCaps content = true <->
  JsString.length content < 2 * JsString.countChars JsString.isUpperAZ content
  /\ 20 < JsString.length content.
Proof.
  unfold excessiveCaps. rewrite andb_true_iff, !Z.ltb_lt. reflexivity.
Qed.

Lemma capsStep_score (content : string) (st : Z * list Finding.t) :
  fst (capsStep content st)
  = fst st + (if excessiveCaps content then 2 else 0).
Proof. unfold capsStep. destruct (excessiveCaps content); simpl; lia. Qed.

Lemma contentBand_level (score : Z) :
  0 <= score ->
  let level := fst (contentBand score) in
  (level = "safe" <-> score = 0)
  /\ (level = "low" <-> 1 <= score <= 5)
  /\ (level = "suspicious" <-> 6 <= score <= 10)
  /\ (level = "high_risk" <-> 10 < score).
Proof.
  intros Hs. unfold contentBand.
  destruct (Z.eqb_spec score 0) as [E0|N0]; simpl;
    [intuition (try discriminate; try lia)|].
  destruct (Z.leb_spec score 5) as [L5|G5]; simpl;
    [intuition (try discriminate; try lia)|].
  destruct (Z.leb_spec score 10) as [L10|G10]; simpl;
    intuition (try discriminate; try lia).
Qed.

Lemma contentTotal_nonneg (content : string) : 0 <= contentTotal content.
Proof.
  unfold contentTotal.
  pose proof (sumOver_nonneg (categoryPoints content) FRAUD_KEYWORDS
                (categoryPoints_nonneg content)).
  destruct (urlMatches content), (excessiveCaps content); lia.
Qed.

Lemma analyzeText_spec (now : Z) (content : string) :
  ContentRiskResult.score (analyzeText now content) = contentTotal content
  /\ ContentRiskResult.riskLevel (analyzeText now content)
     = Some (fst (contentBand (contentTotal content)))
  /\ ContentRiskResult.isSuspicious (analyzeText now content)
     = (0 <? contentTotal content).
Proof.
  unfold analyzeText.
  match goal with
  | |- context [capsStep content ?st] =>
      pose proof (capsStep_score content st) as Hc;
      destruct (capsStep content st) as [score findings]
  end.
  rewrite urlLoop_score, fold_categoryStep in Hc. cbn [fst] in Hc.
  fold (urlMatches content) in Hc.
  assert (Hscore : score = contentTotal content)
    by (unfold contentTotal; lia).
  clear Hc. subst score.
  destruct (contentBand (contentTotal content)) as [level message].
  simpl. repeat split; reflexivity.
Qed.

Lemma analyze_nonempty_string (now : Z) (text : string) :
  text <> "" ->
  analyzeContentForFraud now (JsString text) = analyzeText now text.
Proof.
  intros Hne. unfold analyzeContentForFraud. simpl.
  destruct (String.eqb_spec text ""); [contradiction | reflexivity].
Qed.

Lemma contentTotal_by_category (content : string) :
  contentTotal content
  = 1 * matchCount content (keywordsOf "urgency")
    + 2 * matchCount content (keywordsOf "financial")
    + 3 * matchCount content (keywordsOf "threats")
    + 3 * matchCount content (keywordsOf "impersonation")
    + 2 * matchCount content (keywordsOf "action_requests")
    + 1 * matchCount content (keywordsOf "suspicious_patterns")
    + (if urlMatches content then 3 else 0)
    + (if excessiveCaps content then 2 else 0).
Proof.
  unfold contentTotal, FRAUD_KEYWORDS. rewrite !sumOver_cons.
  unfold categoryPoints. cbn [fst snd sumOver List.fold_right].
  repeat match goal with
         | |- context [getCategoryWeight ?c] =>
             let w := eval vm_compute in (getCategoryWeight c) in
             change (getCategoryWeight c) with w
         | |- context [keywordsOf ?c] =>
             let l := eval vm_compute in (keywordsOf c) in
             change (keywordsOf c) with l
         end.
  lia.
Qed.

(** The text of the specification's example scores 1 + 2 + 2 = 5, a ['low']
    risk. *)
Example urgent_bank_click :
  let r := analyzeContentForFraud 0 (JsString "urgent bank account click here") in
  ContentRiskResult.score r = 5 /\ ContentRiskResult.riskLevel r = Some "low".
Proof. vm_compute. split; reflexivity. Qed.

(** C5, as stated for every text, fails at the empty text: its score is 0
    but its result carries no risk level. *)
Lemma empty_text_has_no_band :
  let r := analyzeContentForFraud 0 (JsString "") in
  ContentRiskResult.score r = 0
  /\ ContentRiskResult.riskLevel r = None
  /\ ~ (ContentRiskResult.riskLevel r = Some "safe"
        <-> ContentRiskResult.score r = 0).
Proof.
  simpl. repeat split. intros [_ H]. specialize (H eq_refl). discriminate H.
Qed.

(** C5 (amended): for every non-empty text the score is the sum over the
    keyword categories of the number of keywords found in the text, letter
    case ignored, times the weight of the category (urgency 1, financial 2,
    threats 3, impersonation 3, action_requests 2, suspicious_patterns 1),
    plus 3 once if a link-shortener or raw-IP URL pattern matches, plus 2 if
    more than half of the code units are letters A-Z and the length exceeds
    20; the level is ['safe'] iff the score is 0, ['low'] iff it lies in 1..5,
    ['suspicious'] iff it lies in 6..10 and ['high_risk'] iff it exceeds 10. *)
Theorem content_score_and_band (now : Z) (text : string) :
  text <> "" ->
  let r := analyzeContentForFraud now (JsString text) in
  ContentRiskResult.score r
  = 1 * matchCount text (keywordsOf "urgency")
    + 2 * matchCount text (keywordsOf "financial")
    + 3 * matchCount text (keywordsOf "threats")
    + 3 * matchCount text (keywordsOf "impersonation")
    + 2 * matchCount text (keywordsOf "action_requests")
    + 1 * matchCount text (keywordsOf "suspicious_patterns")
    + (if urlMatches text then 3 else 0)
    + (if excessiveCaps text then 2 else 0)
  /\ (excessiveCaps text = true <->
      JsString.length text < 2 * JsString.countChars JsString.isUpperAZ text
      /\ 20 < JsString.length text)
  /\ (ContentRiskResult.riskLevel r = Some "safe"
      <-> ContentRiskResult.score r = 0)
  /\ (ContentRiskResult.riskLevel r = Some "low"
      <-> 1 <= ContentRiskResult.score r <= 5)
  /\ (ContentRiskResult.riskLevel r = Some "suspicious"
      <-> 6 <= ContentRiskResult.score r <= 10)
  /\ (ContentRiskResult.riskLevel r = Some "high_risk"
      <-> 10 < ContentRiskResult.score r).
Proof.
  intros Hne r. unfold r. rewrite (analyze_nonempty_string now text Hne).
  destruct (analyzeText_spec now text) as (Hs & Hl & _).
  pose proof (contentBand_level _ (contentTotal_nonneg text)) as (B1 & B2 & B3 & B4).
  rewrite Hs, Hl, <- contentTotal_by_category.
  split; [reflexivity|]. split; [apply excessiveCaps_spec|].
  assert (Hinj : forall a b : string, Some a = Some b <-> a = b).
  { intros a b. split; [intros [= ->] | intros ->]; reflexivity. }
  rewrite !Hinj. exact (conj B1 (conj B2 (conj B3 B4))).
Qed.

Lemma content_score_and_band_witness :
  let text := "urgent bank account click here" in
  let r := analyzeContentForFraud 0 (JsString text) in
  ContentRiskResult.score r
  = 1 * matchCount text (keywordsOf "urgency")
    + 2 * matchCount text (keywordsOf "financial")
    + 3 * matchCount text (keywordsOf "threats")
    + 3 * matchCount text (keywordsOf "impersonation")
    + 2 * matchCount text (keywordsOf "action_requests")
    + 1 * matchCount text (keywordsOf "suspicious_patterns")
    + (if urlMatches text then 3 else 0)
    + (if excessiveCaps text then 2 else 0)
  /\ (excessiveCaps text = true <->
      JsString.length text < 2 * JsString.countChars JsString.isUpperAZ text
      /\ 20 < JsString.length text)
  /\ (ContentRiskResult.riskLevel r = Some "safe"
      <-> ContentRiskResult.score r = 0)
  /\ (ContentRiskResult.riskLevel r = Some "low"
      <-> 1 <= ContentRiskResult.score r <= 5)
  /\ (ContentRiskResult.riskLevel r = Some "suspicious"
      <-> 6 <= ContentRiskResult.score r <= 10)
  /\ (ContentRiskResult.riskLevel r = Some "high_risk"
      <-> 10 < ContentRiskResult.score r).
Proof.
  apply (content_score_and_band 0 "urgent bank account click here").
  discriminate.
Defined.

(** C10: for an input that is empty, null or not a string the analyser
    returns [{isSuspicious: false, score: 0, findings: []}], an object
    without [riskLevel]; the result for a non-empty string always has one. *)
Theorem analyze_guard_result (now : Z) (content : JsValue) :
  (content = JsString "" \/ content = JsNull \/ isString content = false ->
   analyzeContentForFraud now content
   = ContentRiskResult.mk false 0 None None [] None)
  /\ (forall text, content = JsString text -> text <> "" ->
      exists level,
        ContentRiskResult.riskLevel (analyzeContentForFraud now content)
        = Some level).
Proof.
  split.
  - intros [-> | [-> | Hns]]; [reflexivity | reflexivity |].
    unfold analyzeContentForFraud. rewrite Hns, orb_true_r. reflexivity.
  - intros text -> Hne. rewrite (analyze_nonempty_string now text Hne).
    destruct (analyzeText_spec now text) as (_ & Hl & _).
    eexists. exact Hl.
Qed.

Lemma analyze_guard_result_witness :
  analyzeContentForFraud 0 (JsNumber 42)
  = ContentRiskResult.mk false 0 None None [] None
  /\ analyzeContentForFraud 0 (JsString "")
     = ContentRiskResult.mk false 0 None None [] None
  /\ exists level,
       ContentRiskResult.riskLevel (analyzeContentForFraud 0 (JsString "hello"))
       = Some level.
Proof.
  split; [|split].
  - apply (proj1 (analyze_guard_result 0 (JsNumber 42))).
    right. right. reflexivity.
  - apply (proj1 (analyze_guard_result 0 (JsString ""))).
    left. reflexivity.
  - apply (proj2 (analyze_guard_result 0 (JsString "hello")) "hello").
    + reflexivity.
    + discriminate.
Defined.

(** ** One-time codes *)

Section OneTimeCodes.
Import otpService.

Lemma ceilDiv_spec (a : Z) :
  0 < a ->
  0 < ceilDiv a 1000
  /\ (ceilDiv a 1000 - 1) * 1000 < a <= ceilDiv a 1000 * 1000.
Proof.
  intros Ha. unfold ceilDiv.
  pose proof (Z.div_mod (- a) 1000 ltac:(lia)) as Hdm.
  pose proof (Z.mod_pos_bound (- a) 1000 ltac:(lia)) as Hb.
  lia.
Qed.

Lemma generate_success_stores (st : state) (now : Z) (randomBytes : list N)
    (identifier purpose : string) :
  g_success (fst (generate st now randomBytes identifier purpose)) = true ->
  exists e,
    otpStore (snd (generate st now randomBytes identifier purpose))
      !! createOTPKey identifier purpose = Some e
    /\ createdAt e = now
    /\ expiresAt e = now + 600000
    /\ attempts e = 0
    /\ verified e = false
    /\ g_otp (fst (generate st now randomBytes identifier purpose)) = Some (otp e).
Proof.
  unfold generate.
  destruct (otpStore st !! createOTPKey identifier purpose) as [existing|];
    [destruct (now - createdAt existing <? _)|]; simpl;
    try discriminate; intros _; eexists; rewrite lookup_insert_eq;
    (split; [reflexivity|]); simpl; repeat split; reflexivity.
Qed.

Lemma generate_in_cooldown (st : state) (now : Z) (randomBytes : list N)
    (identifier purpose : string) (existing : entry) :
  otpStore st !! createOTPKey identifier purpose = Some existing ->
  now - createdAt existing < 60000 ->
  generate st now randomBytes identifier purpose
  = (mkGenerateResult false (Some "cooldown")
       (Some (ceilDiv (60000 - (now - createdAt existing)) 1000)) None None None,
     st).
Proof.
  intros Hex Hlt. unfold generate. rewrite Hex.
  change (OTP_CONFIG.cooldownMinutes * 60 * 1000) with 60000.
  destruct (Z.ltb_spec (now - createdAt existing) 60000); [reflexivity | lia].
Qed.

(** C8: when [generate] has succeeded for a key at time [t1] and is called
    again for the same key at a time [t2] less than 60 seconds after [t1],
    the second call fails with [success: false], [error: 'cooldown'] and a
    positive [waitSeconds], the remaining milliseconds divided by 1000 and
    rounded up; the state of the store is left as it was. *)
Theorem generate_twice_within_cooldown (st : state) (t1 t2 : Z)
    (bytes1 bytes2 : list N) (id1 id2 purpose1 purpose2 : string) :
  createOTPKey id1 purpose1 = createOTPKey id2 purpose2 ->
  g_success (fst (generate st t1 bytes1 id1 purpose1)) = true ->
  t2 - t1 < 60000 ->
  let st1 := snd (generate st t1 bytes1 id1 purpose1) in
  let second := generate st1 t2 bytes2 id2 purpose2 in
  g_success (fst second) = false
  /\ g_error (fst second) = Some "cooldown"
  /\ (exists w,
        waitSeconds (fst second) = Some w
        /\ 0 < w
        /\ (w - 1) * 1000 < 60000 - (t2 - t1) <= w * 1000)
  /\ snd second = st1.
Proof.
  intros Hkey Hok Hlt st1 second.
  destruct (generate_success_stores st t1 bytes1 id1 purpose1 Hok)
    as (e & Hlook & Hcreated & _).
  fold st1 in Hlook. rewrite Hkey in Hlook.
  unfold second.
  rewrite (generate_in_cooldown st1 t2 bytes2 id2 purpose2 e Hlook)
    by (rewrite Hcreated; exact Hlt).
  rewrite Hcreated. simpl.
  split; [reflexivity|]. split; [reflexivity|]. split; [|reflexivity].
  eexists. split; [reflexivity|]. apply ceilDiv_spec. lia.
Qed.

Lemma generate_twice_within_cooldown_witness :
  let st1 := snd (generate initial 0 [1; 2; 3; 4; 5; 6]%N "User@Example.com " "login") in
  let second := generate st1 1500 [9; 9; 9; 9; 9; 9]%N "user@example.com" "login" in
  g_success (fst second) = false
  /\ g_error (fst second) = Some "cooldown"
  /\ (exists w,
        waitSeconds (fst second) = Some w
        /\ 0 < w
        /\ (w - 1) * 1000 < 60000 - (1500 - 0) <= w * 1000)
  /\ snd second = st1.
Proof.
  apply (generate_twice_within_cooldown initial 0 1500
           [1; 2; 3; 4; 5; 6]%N [9; 9; 9; 9; 9; 9]%N
           "User@Example.com " "user@example.com" "login" "login").
  - reflexivity.
  - reflexivity.
  - lia.
Defined.

Lemma verify_absent (st : state) (now : Z)
    (identifier inputOTP purpose : string) :
  otpStore st !! createOTPKey identifier purpose = None ->
  verify st now identifier inputOTP purpose = (failure "not_found", st).
Proof. intros H. unfold verify. rewrite H. reflexivity. Qed.

Lemma verify_wrong (st : state) (now : Z)
    (identifier inputOTP purpose : string) (e : entry) :
  otpStore st !! createOTPKey identifier purpose = Some e ->
  verified e = false ->
  now <= expiresAt e ->
  attempts e < 3 ->
  JsString.trim inputOTP <> otp e ->
  verify st now identifier inputOTP purpose
  = (mkVerifyResult false (Some "invalid") (Some (3 - (attempts e + 1))),
     mkState
       (<[createOTPKey identifier purpose :=
            mkEntry (otp e) (createdAt e) (expiresAt e) (attempts e + 1) false]>
          (otpStore st))
       (timers st)).
Proof.
  intros Hlook Hver Hexp Hatt Hcode. unfold verify. rewrite Hlook, Hver.
  destruct (Z.ltb_spec (expiresAt e) now); [lia|].
  change OTP_CONFIG.maxAttempts with 3.
  destruct (Z.leb_spec 3 (attempts e)); [lia|].
  cbn [otp attempts createdAt expiresAt verified].
  destruct (String.eqb_spec (otp e) (JsString.trim inputOTP)) as [E|_];
    [congruence | reflexivity].
Qed.

Lemma verify_exhausted (st : state) (now : Z)
    (identifier inputOTP purpose : string) (e : entry) :
  otpStore st !! createOTPKey identifier purpose = Some e ->
  verified e = false ->
  now <= expiresAt e ->
  3 <= attempts e ->
  verify st now identifier inputOTP purpose
  = (failure "max_attempts",
     mkState (delete (createOTPKey identifier purpose) (otpStore st)) (timers st)).
Proof.
  intros Hlook Hver Hexp Hatt. unfold verify. rewrite Hlook, Hver.
  destruct (Z.ltb_spec (expiresAt e) now); [lia|].
  change OTP_CONFIG.maxAttempts with 3.
  destruct (Z.leb_spec 3 (attempts e)); [reflexivity | lia].
Qed.

(** C2, as stated, fails: after three wrong codes the entry is still in the
    store, with three attempts counted, and the fourth call answers
    ['max_attempts'], not ['not_found']. *)
Lemma third_wrong_code_keeps_entry :
  otpStore afterThreeWrong !! createOTPKey "user@example.com" "login"
  = Some (mkEntry "123456" 0 600000 3 false)
  /\ v_error (fst (verify afterThreeWrong 4000 "user@example.com" "000000" "login"))
     = Some "max_attempts"
  /\ ~ (otpStore afterThreeWrong !! createOTPKey "user@example.com" "login" = None
        /\ v_error (fst (verify afterThreeWrong 4000 "user@example.com"
                           "000000" "login"))
           = Some "not_found").
Proof.
  assert (H : otpStore afterThreeWrong !! createOTPKey "user@example.com" "login"
              = Some (mkEntry "123456" 0 600000 3 false))
    by (vm_compute; reflexivity).
  split; [exact H|]. split.
  - vm_compute. reflexivity.
  - intros [Hnone _]. rewrite H in Hnone. discriminate Hnone.
Qed.

(** C2 (amended): on a fresh entry (no attempt counted, not verified, not
    expired at the times of the calls) three consecutive calls of [verify]
    with a wrong code answer ['invalid'], with 2, 1 and 0 attempts remaining,
    and leave the entry in the store with three attempts counted; the fourth
    call, whatever its code, answers ['max_attempts'] and deletes the entry;
    a fifth call answers ['not_found']. *)
Theorem three_wrong_codes_then_max_attempts (st : state)
    (t1 t2 t3 t4 t5 : Z) (identifier purpose c1 c2 c3 c4 c5 : string)
    (e : entry) :
  otpStore st !! createOTPKey identifier purpose = Some e ->
  verified e = false ->
  attempts e = 0 ->
  t1 <= expiresAt e -> t2 <= expiresAt e ->
  t3 <= expiresAt e -> t4 <= expiresAt e ->
  JsString.trim c1 <> otp e ->
  JsString.trim c2 <> otp e ->
  JsString.trim c3 <> otp e ->
  let key := createOTPKey identifier purpose in
  let v1 := verify st t1 identifier c1 purpose in
  let v2 := verify (snd v1) t2 identifier c2 purpose in
  let v3 := verify (snd v2) t3 identifier c3 purpose in
  let v4 := verify (snd v3) t4 identifier c4 purpose in
  let v5 := verify (snd v4) t5 identifier c5 purpose in
  fst v1 = mkVerifyResult false (Some "invalid") (Some 2)
  /\ fst v2 = mkVerifyResult false (Some "invalid") (Some 1)
  /\ fst v3 = mkVerifyResult false (Some "invalid") (Some 0)
  /\ otpStore (snd v3) !! key
     = Some (mkEntry (otp e) (createdAt e) (expiresAt e) 3 false)
  /\ fst v4 = mkVerifyResult false (Some "max_attempts") None
  /\ otpStore (snd v4) !! key = None
  /\ fst v5 = mkVerifyResult false (Some "not_found") None.
Proof.
  intros Hlook Hver Hatt H1 H2 H3 H4 W1 W2 W3 key v1 v2 v3 v4 v5.
  assert (E1 : v1 = verify st t1 identifier c1 purpose) by reflexivity.
  rewrite (verify_wrong st t1 identifier c1 purpose e Hlook Hver H1
             ltac:(lia) W1) in E1.
  rewrite Hatt in E1. fold key in E1.
  set (e1 := mkEntry (otp e) (createdAt e) (expiresAt e) (0 + 1) false) in E1.
  assert (E2 : v2 = verify (snd v1) t2 identifier c2 purpose) by reflexivity.
  rewrite E1 in E2. cbn [snd] in E2.
  rewrite (verify_wrong _ t2 identifier c2 purpose e1) in E2;
    [| apply lookup_insert_eq | reflexivity | exact H2 | simpl; lia | exact W2].
  cbn [otp attempts createdAt expiresAt otpStore timers e1] in E2.
  fold key in E2. rewrite insert_insert_eq in E2.
  set (e2 := mkEntry (otp e) (createdAt e) (expiresAt e) (0 + 1 + 1) false) in E2.
  assert (E3 : v3 = verify (snd v2) t3 identifier c3 purpose) by reflexivity.
  rewrite E2 in E3. cbn [snd] in E3.
  rewrite (verify_wrong _ t3 identifier c3 purpose e2) in E3;
    [| apply lookup_insert_eq | reflexivity | exact H3 | simpl; lia | exact W3].
  cbn [otp attempts createdAt expiresAt otpStore timers e2] in E3.
  fold key in E3. rewrite insert_insert_eq in E3.
  set (e3 := mkEntry (otp e) (createdAt e) (expiresAt e) (0 + 1 + 1 + 1) false) in E3.
  assert (E4 : v4 = verify (snd v3) t4 identifier c4 purpose) by reflexivity.
  rewrite E3 in E4. cbn [snd] in E4.
  rewrite (verify_exhausted _ t4 identifier c4 purpose e3) in E4;
    [| apply lookup_insert_eq | reflexivity | exact H4 | simpl; lia].
  cbn [otpStore timers] in E4. fold key in E4. rewrite delete_insert_eq in E4.
  assert (E5 : v5 = verify (snd v4) t5 identifier c5 purpose) by reflexivity.
  rewrite E4 in E5. cbn [snd] in E5.
  rewrite verify_absent in E5 by apply lookup_delete_eq.
  rewrite E1, E2, E3, E4, E5. cbn [fst snd otpStore].
  fold key. rewrite lookup_insert_eq, lookup_delete_eq.
  repeat split; reflexivity.
Qed.

Lemma three_wrong_codes_then_max_attempts_witness :
  let key := createOTPKey "user@example.com" "login" in
  let v1 := verify freshCode 1000 "user@example.com" "000000" "login" in
  let v2 := verify (snd v1) 2000 "user@example.com" "111111" "login" in
  let v3 := verify (snd v2) 3000 "user@example.com" "222222" "login" in
  let v4 := verify (snd v3) 4000 "user@example.com" "123456" "login" in
  let v5 := verify (snd v4) 5000 "user@example.com" "123456" "login" in
  fst v1 = mkVerifyResult false (Some "invalid") (Some 2)
  /\ fst v2 = mkVerifyResult false (Some "invalid") (Some 1)
  /\ fst v3 = mkVerifyResult false (Some "invalid") (Some 0)
  /\ otpStore (snd v3) !! key = Some (mkEntry "123456" 0 600000 3 false)
  /\ fst v4 = mkVerifyResult false (Some "max_attempts") None
  /\ otpStore (snd v4) !! key = None
  /\ fst v5 = mkVerifyResult false (Some "not_found") None.
Proof.
  apply (three_wrong_codes_then_max_attempts freshCode 1000 2000 3000 4000 5000
           "user@example.com" "login" "000000" "111111" "222222" "123456" "123456"
           (mkEntry "123456" 0 600000 0 false)).
  - vm_compute. reflexivity.
  - reflexivity.
  - reflexivity.
  - simpl. lia.
  - simpl. lia.
  - simpl. lia.
  - simpl. lia.
  - vm_compute. discriminate.
  - vm_compute. discriminate.
  - vm_compute. discriminate.
Defined.

End OneTimeCodes.

(** ** Connection registry *)

Section ConnectionRegistry.
Import websocketService.

Lemma mirrors_onConnection (st : state) (open : gset (string * string))
    (nowIso u0 s0 : string) :
  mirrors st open ->
  mirrors (fst (onConnection st nowIso u0 s0)) (open ∪ {[(u0, s0)]}).
Proof.
  intros Hm u. specialize (Hm u). unfold onConnection. cbn [fst connectedUsers].
  destruct (decide (u = u0)) as [->|Hne].
  - rewrite lookup_insert_eq.
    case_bool_decide as Hsome.
    + destruct Hsome as [old Hold]. rewrite Hold in Hm |- *. simpl.
      destruct Hm as [_ Hm]. split; [set_solver|].
      intros s. rewrite elem_of_union, elem_of_singleton, Hm. set_solver.
    + rewrite lookup_insert_eq. simpl.
      destruct (connectedUsers st !! u0) as [old|] eqn:Hold;
        [exfalso; apply Hsome; eauto|].
      split; [set_solver|]. intros s. set_solver.
  - rewrite lookup_insert_ne by congruence.
    assert (Hsame :
      (if bool_decide (is_Some (connectedUsers st !! u0))
       then connectedUsers st
       else <[u0 := ∅]> (connectedUsers st)) !! u = connectedUsers st !! u).
    { case_bool_decide; [reflexivity|]. apply lookup_insert_ne. congruence. }
    rewrite Hsame.
    destruct (connectedUsers st !! u) as [ss|].
    + destruct Hm as [Hn Hm]. split; [exact Hn|]. intros s. rewrite Hm. set_solver.
    + intros s. specialize (Hm s). set_solver.
Qed.

Lemma mirrors_onDisconnect (st : state) (open : gset (string * string))
    (u0 s0 : string) :
  mirrors st open ->
  mirrors (onDisconnect st u0 s0) (open ∖ {[(u0, s0)]}).
Proof.
  intros Hm u. unfold onDisconnect.
  pose proof (Hm u0) as Hm0.
  destruct (connectedUsers st !! u0) as [ss0|] eqn:H0.
  - destruct Hm0 as [_ Hm0].
    case_bool_decide as Hsize; cbn [connectedUsers].
    + apply size_empty_inv in Hsize. apply leibniz_equiv in Hsize.
      destruct (decide (u = u0)) as [->|Hne].
      * rewrite lookup_delete_eq. intros s Hin.
        apply elem_of_difference in Hin as [Hin Hnot].
        apply Hm0 in Hin.
        assert (s ∈ ss0 ∖ {[s0]}) as Hs by set_solver.
        rewrite Hsize in Hs. set_solver.
      * rewrite lookup_delete_ne by congruence. specialize (Hm u).
        destruct (connectedUsers st !! u) as [ss|].
        -- destruct Hm as [Hn Hm]. split; [exact Hn|]. intros s. rewrite Hm.
           set_solver.
        -- intros s. specialize (Hm s). set_solver.
    + destruct (decide (u = u0)) as [->|Hne].
      * rewrite lookup_insert_eq. split.
        -- intros Hempty. apply Hsize. rewrite Hempty. apply size_empty.
        -- intros s. rewrite elem_of_difference, Hm0. set_solver.
      * rewrite lookup_insert_ne by congruence. specialize (Hm u).
        destruct (connectedUsers st !! u) as [ss|].
        -- destruct Hm as [Hn Hm]. split; [exact Hn|]. intros s. rewrite Hm.
           set_solver.
        -- intros s. specialize (Hm s). set_solver.
  - cbn [connectedUsers]. specialize (Hm u).
    destruct (connectedUsers st !! u) as [ss|] eqn:Hu.
    + destruct Hm as [Hn Hm]. split; [exact Hn|]. intros s. rewrite Hm.
      split; [|set_solver]. intros Hin. apply elem_of_difference.
      split; [exact Hin|]. intros Heq. apply elem_of_singleton in Heq.
      injection Heq as -> ->. congruence.
    + intros s. specialize (Hm s). set_solver.
Qed.

Lemma mirrors_step (st : state) (open : gset (string * string)) (ev : event) :
  mirrors st open -> mirrors (step st ev) (sessionsStep open ev).
Proof.
  intros Hm. destruct ev as [u s|u s].
  - exact (mirrors_onConnection st open "" u s Hm).
  - exact (mirrors_onDisconnect st open u s Hm).
Qed.

Lemma mirrors_fold (evs : list event) (st : state) (open : gset (string * string)) :
  mirrors st open ->
  mirrors (List.fold_left step evs st) (List.fold_left sessionsStep evs open).
Proof.
  revert st open. induction evs as [|ev evs IH]; intros st open Hm; simpl.
  - exact Hm.
  - apply IH, mirrors_step, Hm.
Qed.

Lemma mirrors_run (evs : list event) :
  mirrors (run started evs) (openSessions evs).
Proof.
  apply mirrors_fold. intros u. simpl. rewrite lookup_empty. set_solver.
Qed.

Lemma mirrors_online (st : state) (open : gset (string * string)) (u : string) :
  mirrors st open ->
  (isUserConnected st u = true <-> exists s, (u, s) ∈ open)
  /\ (is_Some (connectedUsers st !! u) <-> exists s, (u, s) ∈ open).
Proof.
  intros Hm. specialize (Hm u). unfold isUserConnected.
  destruct (connectedUsers st !! u) as [ss|].
  - destruct Hm as [Hn Hm].
    assert (Hex : exists s, (u, s) ∈ open).
    { apply set_choose_L in Hn as [s Hs]. exists s. apply Hm, Hs. }
    split; (split; [intros _; exact Hex|intros _]); [|eauto].
    apply bool_decide_eq_true.
    destruct Hex as [s Hs]. apply Hm in Hs.
    assert (size ss <> 0%nat); [|lia].
    intros Hz. apply size_empty_inv in Hz. set_solver.
  - split; (split; [intros H; first [discriminate H | destruct H as [? [=]]]|]);
      intros [s Hs]; exfalso; exact (Hm s Hs).
Qed.

Lemma run_snoc (st : state) (evs : list event) (ev : event) :
  run st (evs ++ [ev]) = step (run st evs) ev.
Proof. unfold run. rewrite fold_left_app. reflexivity. Qed.

Lemma openSessions_snoc (evs : list event) (ev : event) :
  openSessions (evs ++ [ev]) = sessionsStep (openSessions evs) ev.
Proof. unfold openSessions. rewrite fold_left_app. reflexivity. Qed.

Lemma isUserConnected_false (st : state) (u : string) :
  isUserConnected st u = false <-> ~ (isUserConnected st u = true).
Proof. destruct (isUserConnected st u); split; congruence. Qed.

(** C9: after any sequence of channel openings and closings, [isUserConnected]
    holds of a user exactly when one of their sessions is open, and the user
    has an entry in [connectedUsers] exactly then; an event removes the entry
    exactly when it closes the user's last open session.  In particular the
    user is offline once their only channel has closed, and online when one
    of two channels has closed. *)
Theorem registry_tracks_sessions (evs : list event) (u : string) :
  let st := run started evs in
  (isUserConnected st u = true <-> exists s, (u, s) ∈ openSessions evs)
  /\ (is_Some (connectedUsers st !! u) <-> exists s, (u, s) ∈ openSessions evs)
  /\ (forall ev,
        is_Some (connectedUsers st !! u)
        /\ connectedUsers (step st ev) !! u = None
        <-> exists s, ev = Close u s
                      /\ (u, s) ∈ openSessions evs
                      /\ forall s', (u, s') ∈ openSessions evs -> s' = s)
  /\ (forall s,
        (forall s', (u, s') ∈ openSessions evs -> s' = s) ->
        isUserConnected (step st (Close u s)) u = false)
  /\ (forall s s',
        s' <> s -> (u, s') ∈ openSessions evs ->
        isUserConnected (step st (Close u s)) u = true)
  /\ (forall s, isUserConnected (run started [Open u s; Close u s]) u = false)
  /\ (forall s1 s2,
        s1 <> s2 ->
        isUserConnected (run started [Open u s1; Open u s2; Close u s1]) u = true).
Proof.
  intros st.
  pose proof (mirrors_online st (openSessions evs) u (mirrors_run evs))
    as [Honline Hentry].
  assert (Hafter : forall ev,
    (isUserConnected (step st ev) u = true
     <-> exists s, (u, s) ∈ sessionsStep (openSessions evs) ev)
    /\ (is_Some (connectedUsers (step st ev) !! u)
        <-> exists s, (u, s) ∈ sessionsStep (openSessions evs) ev)).
  { intros ev. apply mirrors_online, mirrors_step, mirrors_run. }
  split; [exact Honline|]. split; [exact Hentry|]. split; [|split; [|split; [|split]]].
  - intros ev. destruct (Hafter ev) as [_ Hev]. split.
    + intros [Hsome Hnone].
      apply Hentry in Hsome as [s Hs].
      assert (Hno : forall s', (u, s') ∉ sessionsStep (openSessions evs) ev).
      { intros s' Hin.
        assert (is_Some (connectedUsers (step st ev) !! u)) as [x Hx]
          by (apply Hev; eauto).
        congruence. }
      destruct ev as [u' s'|u' s']; simpl in Hno.
      * exfalso. apply (Hno s). set_solver.
      * assert (Hall : forall t, (u, t) ∈ openSessions evs -> (u, t) = (u', s')).
        { intros t Ht. destruct (decide ((u, t) = (u', s'))); [assumption|].
          exfalso. apply (Hno t). set_solver. }
        pose proof (Hall s Hs) as Heq. injection Heq as Hu Hs'.
        subst u' s'.
        exists s. split; [reflexivity|]. split; [exact Hs|].
        intros t Ht. specialize (Hall t Ht). congruence.
    + intros (s & -> & Hs & Honly). split; [apply Hentry; eauto|].
      destruct (connectedUsers (step st (Close u s)) !! u) eqn:E; [|reflexivity].
      exfalso.
      assert (exists t, (u, t) ∈ sessionsStep (openSessions evs) (Close u s))
        as [t Ht] by (apply Hev; eauto).
      simpl in Ht. apply elem_of_difference in Ht as [Ht Hne].
      apply Honly in Ht. subst t. set_solver.
  - intros s Honly. apply isUserConnected_false. intros Hon.
    apply (Hafter (Close u s)) in Hon as [t Ht]. simpl in Ht.
    apply elem_of_difference in Ht as [Ht Hne].
    apply Honly in Ht. subst t. set_solver.
  - intros s s' Hne Hs'. apply (Hafter (Close u s)). exists s'. simpl.
    apply elem_of_difference. split; [exact Hs'|].
    intros Heq. apply elem_of_singleton in Heq. congruence.
  - intros s. apply isUserConnected_false. intros Hon.
    pose proof (mirrors_online _ _ u (mirrors_run [Open u s; Close u s]))
      as [Ho _].
    apply Ho in Hon as [t Ht]. unfold openSessions in Ht. simpl in Ht. set_solver.
  - intros s1 s2 Hne.
    pose proof (mirrors_online _ _ u
                  (mirrors_run [Open u s1; Open u s2; Close u s1])) as [Ho _].
    apply Ho. exists s2. unfold openSessions. simpl.
    apply elem_of_difference. split; [set_solver|].
    intros Heq. apply elem_of_singleton in Heq. congruence.
Qed.

Lemma registry_tracks_sessions_witness :
  isUserConnected (run started [Open "u1" "a"; Close "u1" "a"]) "u1" = false
  /\ isUserConnected
       (run started [Open "u1" "a"; Open "u1" "b"; Close "u1" "a"]) "u1" = true
  /\ isUserConnected
       (step (run started [Open "u1" "a"; Open "u1" "b"]) (Close "u1" "b")) "u1"
     = true.
Proof.
  split; [|split].
  - exact (proj1 (proj2 (proj2 (proj2 (proj2 (proj2
             (registry_tracks_sessions [] "u1")))))) "a").
  - apply (proj2 (proj2 (proj2 (proj2 (proj2 (proj2
             (registry_tracks_sessions [] "u1")))))) "a" "b").
    discriminate.
  - apply (proj1 (proj2 (proj2 (proj2 (proj2
             (registry_tracks_sessions [Open "u1" "a"; Open "u1" "b"] "u1")))))
             "b" "a").
    + discriminate.
    + vm_compute. reflexivity.
Defined.

(** ** Alert push *)

Lemma roomOf_inj (u u' : string) : roomOf u = roomOf u' -> u = u'.
Proof. unfold roomOf. simpl. intros [= H]. exact H. Qed.

Lemma step_io (st : state) (ev : event) : io (step st ev) = io st.
Proof.
  destruct ev as [u s|u s]; [reflexivity|].
  simpl. unfold onDisconnect.
  destruct (connectedUsers st !! u); [case_bool_decide|]; reflexivity.
Qed.

Lemma run_io (evs : list event) (st : state) : io (run st evs) = io st.
Proof.
  revert st. induction evs as [|ev evs IH]; intros st; [reflexivity|].
  unfold run in *. simpl. rewrite IH. apply step_io.
Qed.

Lemma onDisconnect_rooms (st : state) (u s : string) :
  rooms (onDisconnect st u s)
  = (fun members : gset string => members ∖ {[s]}) <$> rooms st.
Proof.
  unfold onDisconnect.
  destruct (connectedUsers st !! u); [case_bool_decide|]; reflexivity.
Qed.

Lemma roomsWithin_step (st : state) (open : gset (string * string)) (ev : event) :
  roomsWithin st open -> roomsWithin (step st ev) (sessionsStep open ev).
Proof.
  intros Hr u s. destruct ev as [u0 s0|u0 s0]; unfold membersOf.
  - cbn [step sessionsStep onConnection fst rooms].
    destruct (decide (u = u0)) as [->|Hne].
    + rewrite lookup_insert_eq. simpl. intros Hin.
      apply elem_of_union in Hin as [Hin|Hin].
      * apply elem_of_union. left. apply Hr, Hin.
      * apply elem_of_singleton in Hin as ->. set_solver.
    + rewrite lookup_insert_ne
        by (intros Heq; apply Hne; symmetry; exact (roomOf_inj _ _ Heq)).
      intros Hin. apply elem_of_union. left. apply Hr, Hin.
  - cbn [step sessionsStep]. rewrite onDisconnect_rooms, lookup_fmap.
    specialize (Hr u s). unfold membersOf in Hr.
    destruct (rooms st !! roomOf u) as [members|]; simpl in *; [|set_solver].
    intros Hin. apply elem_of_difference in Hin as [Hin Hne].
    apply elem_of_difference. split; [exact (Hr Hin)|].
    intros Heq. apply elem_of_singleton in Heq. injection Heq as _ ->.
    apply Hne. set_solver.
Qed.

Lemma roomsWithin_run (evs : list event) :
  roomsWithin (run started evs) (openSessions evs).
Proof.
  unfold run, openSessions.
  assert (H0 : roomsWithin started ∅).
  { intros u s. unfold membersOf. simpl. rewrite lookup_empty. set_solver. }
  revert H0. generalize started (∅ : gset (string * string)).
  induction evs as [|ev evs IH]; intros st open Hr; simpl; [exact Hr|].
  apply IH, roomsWithin_step, Hr.
Qed.

(** C4, as stated, fails: with the socket server set up and nobody connected,
    [sendAlert] hands the alert to no socket and still returns [true]. *)
Lemma sendAlert_offline_returns_true :
  isUserConnected started "u1" = false
  /\ sendAlert started "2026-01-01T00:00:00.000Z" "u1" sampleAlert = (true, [])
  /\ ~ (fst (sendAlert started "2026-01-01T00:00:00.000Z" "u1" sampleAlert) = true
        <-> snd (sendAlert started "2026-01-01T00:00:00.000Z" "u1" sampleAlert) <> []).
Proof.
  assert (H : sendAlert started "2026-01-01T00:00:00.000Z" "u1" sampleAlert
              = (true, [])) by (vm_compute; reflexivity).
  split; [vm_compute; reflexivity|]. split; [exact H|].
  rewrite H. simpl. intros [Hdel _]. apply (Hdel eq_refl). reflexivity.
Qed.

(** C4 (amended): [sendAlert] never throws and returns [true] exactly when
    the socket server has been set up, whether or not the alert reaches a
    socket: the value is [false] only before initialisation, when nothing is
    emitted.  Once the server is set up, after any sequence of channel
    events the call returns [true], emits only to open sessions of the user,
    and emits nothing for a user who is offline. *)
Theorem sendAlert_returns_initialised (st : state) (nowIso u : string)
    (alertData : AlertData.t) :
  fst (sendAlert st nowIso u alertData) = io st
  /\ (io st = false -> snd (sendAlert st nowIso u alertData) = [])
  /\ (forall evs,
        st = run started evs ->
        fst (sendAlert st nowIso u alertData) = true
        /\ (forall e, e ∈ snd (sendAlert st nowIso u alertData) ->
              exists s payload,
                e = AlertNew s payload /\ (u, s) ∈ openSessions evs)
        /\ (isUserConnected st u = false ->
            snd (sendAlert st nowIso u alertData) = [])).
Proof.
  assert (Hfst : fst (sendAlert st nowIso u alertData) = io st).
  { unfold sendAlert. destruct (io st); reflexivity. }
  split; [exact Hfst|]. split.
  - intros Hio. unfold sendAlert. rewrite Hio. reflexivity.
  - intros evs ->.
    assert (Hio : io (run started evs) = true) by (rewrite run_io; reflexivity).
    assert (Hto : forall e,
      e ∈ snd (sendAlert (run started evs) nowIso u alertData) ->
      exists s payload, e = AlertNew s payload /\ (u, s) ∈ openSessions evs).
    { intros e. unfold sendAlert. rewrite Hio. cbn [negb snd].
      intros Hin. apply list_elem_of_fmap in Hin as (s & -> & Hs).
      apply elem_of_elements in Hs.
      eexists s, _. split; [reflexivity|].
      exact (roomsWithin_run evs u s Hs). }
    split; [rewrite Hfst; exact Hio|]. split; [exact Hto|].
    intros Hoff.
    destruct (snd (sendAlert (run started evs) nowIso u alertData))
      as [|e rest] eqn:E; [reflexivity|].
    exfalso. assert (Hin : e ∈ e :: rest) by left.
    destruct (Hto e Hin) as (s & _ & _ & Hs).
    apply isUserConnected_false in Hoff. apply Hoff.
    apply (mirrors_online _ _ u (mirrors_run evs)). eauto.
Qed.

Lemma sendAlert_returns_initialised_witness :
  fst (sendAlert (run started [Open "u1" "a"; Close "u1" "a"])
         "2026-01-01T00:00:00.000Z" "u1" sampleAlert) = true
  /\ snd (sendAlert (run started [Open "u1" "a"; Close "u1" "a"])
            "2026-01-01T00:00:00.000Z" "u1" sampleAlert) = []
  /\ snd (sendAlert uninitialized "2026-01-01T00:00:00.000Z" "u1" sampleAlert) = [].
Proof.
  pose proof (proj2 (proj2
    (sendAlert_returns_initialised
       (run started [Open "u1" "a"; Close "u1" "a"])
       "2026-01-01T00:00:00.000Z" "u1" sampleAlert))
    [Open "u1" "a"; Close "u1" "a"] eq_refl) as (Htrue & _ & Hoff).
  split; [exact Htrue|]. split.
  - apply Hoff. vm_compute. reflexivity.
  - apply (proj1 (proj2
      (sendAlert_returns_initialised uninitialized
         "2026-01-01T00:00:00.000Z" "u1" sampleAlert))).
    reflexivity.
Defined.

End ConnectionRegistry.

(** ** One-time codes: further properties *)

Section OneTimeCodeCalls.
Import otpService otpCalls.

Lemma digitOf_isDigit (b : N) : JsString.isDigit (digitOf b) = true.
Proof.
  unfold digitOf.
  assert (H : (b mod 10 < 10)%N) by (apply N.mod_lt; discriminate).
  set (k := (b mod 10)%N) in *. clearbody k.
  assert (Hc : (k = 0 \/ k = 1 \/ k = 2 \/ k = 3 \/ k = 4 \/ k = 5 \/ k = 6
                \/ k = 7 \/ k = 8 \/ k = 9)%N) by lia.
  repeat (destruct Hc as [-> | Hc]; [reflexivity|]).
  rewrite Hc. reflexivity.
Qed.

Lemma generateOTP_digits (randomBytes : list N) (n : nat) :
  JsString.allChars JsString.isDigit (generateOTP randomBytes n) = true.
Proof.
  revert randomBytes. induction n as [|n IH]; intros [|b rest]; simpl;
    try reflexivity.
  rewrite digitOf_isDigit, IH. reflexivity.
Qed.

(** X1: [generateOTP] returns as many characters as asked for, or as many as
    the buffer holds if that is fewer, and each is a decimal digit. *)
Theorem generateOTP_shape (randomBytes : list N) (n : nat) :
  String.length (generateOTP randomBytes n)
  = Nat.min n (List.length randomBytes)
  /\ JsString.allChars JsString.isDigit (generateOTP randomBytes n) = true.
Proof.
  split; [|apply generateOTP_digits].
  revert randomBytes. induction n as [|n IH]; intros [|b rest]; simpl;
    try reflexivity.
  rewrite IH. reflexivity.
Qed.

Lemma append_inj_l (p a b : string) : p +:+ a = p +:+ b -> a = b.
Proof.
  induction p as [|c p IH]; simpl; [tauto|].
  intros [= H]. exact (IH H).
Qed.

(** X2: for one purpose, two identifiers name the same store key exactly when
    they agree after lower-casing and trimming; [generate], [verify] and
    [check] then answer alike for both. *)
Theorem createOTPKey_same_purpose (st : state) (now : Z) (bytes : list N)
    (id1 id2 purpose code : string) :
  (createOTPKey id1 purpose = createOTPKey id2 purpose
   <-> JsString.trim (JsString.toLowerCase id1)
       = JsString.trim (JsString.toLowerCase id2))
  /\ (JsString.trim (JsString.toLowerCase id1)
      = JsString.trim (JsString.toLowerCase id2) ->
      generate st now bytes id1 purpose = generate st now bytes id2 purpose
      /\ verify st now id1 code purpose = verify st now id2 code purpose
      /\ check st now id1 purpose = check st now id2 purpose).
Proof.
  split.
  - unfold createOTPKey. split.
    + intros H. apply append_inj_l in H. exact (append_inj_l ":" _ _ H).
    + intros ->. reflexivity.
  - intros H. unfold generate, verify, check, createOTPKey. rewrite H.
    repeat split; reflexivity.
Qed.

Lemma createOTPKey_same_purpose_witness :
  generate freshCode 1000 [7; 7; 7; 7; 7; 7]%N "  USER@Example.com " "login"
  = generate freshCode 1000 [7; 7; 7; 7; 7; 7]%N "user@example.com" "login"
  /\ verify freshCode 1000 "  USER@Example.com " "123456" "login"
     = verify freshCode 1000 "user@example.com" "123456" "login"
  /\ check freshCode 1000 "  USER@Example.com " "login"
     = check freshCode 1000 "user@example.com" "login".
Proof.
  apply (proj2 (createOTPKey_same_purpose freshCode 1000 [7; 7; 7; 7; 7; 7]%N
                  "  USER@Example.com " "user@example.com" "login" "123456")).
  reflexivity.
Defined.

Lemma verify_correct (st : state) (now : Z)
    (identifier inputOTP purpose : string) (e : entry) :
  otpStore st !! createOTPKey identifier purpose = Some e ->
  verified e = false ->
  now <= expiresAt e ->
  attempts e < 3 ->
  JsString.trim inputOTP = otp e ->
  verify st now identifier inputOTP purpose
  = (mkVerifyResult true None None,
     mkState
       (<[createOTPKey identifier purpose :=
            mkEntry (otp e) (createdAt e) (expiresAt e) (attempts e + 1) true]>
          (otpStore st))
       (timers st ++ [(now + 5000, createOTPKey identifier purpose)])).
Proof.
  intros Hlook Hver Hexp Hatt Hcode. unfold verify. rewrite Hlook, Hver.
  destruct (Z.ltb_spec (expiresAt e) now); [lia|].
  change OTP_CONFIG.maxAttempts with 3.
  destruct (Z.leb_spec 3 (attempts e)); [lia|].
  cbn [otp attempts createdAt expiresAt verified].
  rewrite Hcode, String.eqb_refl. reflexivity.
Qed.

Lemma verify_used (st : state) (now : Z)
    (identifier inputOTP purpose : string) (e : entry) :
  otpStore st !! createOTPKey identifier purpose = Some e ->
  verified e = true ->
  verify st now identifier inputOTP purpose = (failure "already_used", st).
Proof. intros Hlook Hver. unfold verify. rewrite Hlook, Hver. reflexivity. Qed.

Lemma verify_expired (st : state) (now : Z)
    (identifier inputOTP purpose : string) (e : entry) :
  otpStore st !! createOTPKey identifier purpose = Some e ->
  verified e = false ->
  expiresAt e < now ->
  verify st now identifier inputOTP purpose
  = (failure "expired",
     mkState (delete (createOTPKey identifier purpose) (otpStore st)) (timers st)).
Proof.
  intros Hlook Hver Hexp. unfold verify. rewrite Hlook, Hver.
  destruct (Z.ltb_spec (expiresAt e) now); [reflexivity | lia].
Qed.

Lemma fold_delete_lookup (due : list (Z * string)) (m : gmap string entry)
    (k : string) :
  List.fold_left (fun m t => delete (snd t) m) due m !! k
  = if bool_decide (k ∈ List.map snd due) then None else m !! k.
Proof.
  revert m. induction due as [|[t k'] due IH]; intros m;
    cbn [List.fold_left List.map snd].
  - rewrite bool_decide_eq_false_2 by set_solver. reflexivity.
  - rewrite IH. destruct (decide (k = k')) as [->|Hne].
    + rewrite lookup_delete_eq.
      rewrite (bool_decide_eq_true_2 (k' ∈ k' :: List.map snd due)) by set_solver.
      case_bool_decide; reflexivity.
    + rewrite lookup_delete_ne by congruence.
      destruct (decide (k ∈ List.map snd due)) as [Hin|Hnin].
      * rewrite !bool_decide_eq_true_2 by set_solver. reflexivity.
      * rewrite !bool_decide_eq_false_2 by set_solver. reflexivity.
Qed.

Lemma due_keys (st : state) (now : Z) (k : string) :
  k ∈ List.map snd (List.filter (fun t => fst t <=? now) (timers st))
  <-> exists t, t <= now /\ (t, k) ∈ timers st.
Proof.
  rewrite list_elem_of_In, in_map_iff. split.
  - intros ([t k'] & Hk & Hin). simpl in Hk. subst k'.
    apply filter_In in Hin as [Hin Hle]. simpl in Hle.
    exists t. split; [lia|]. apply list_elem_of_In, Hin.
  - intros (t & Hle & Hin). exists (t, k). split; [reflexivity|].
    apply filter_In. split; [apply list_elem_of_In, Hin|]. simpl. lia.
Qed.

Lemma runTimers_due (st : state) (now t : Z) (k : string) :
  (t, k) ∈ timers st -> t <= now -> otpStore (runTimers st now) !! k = None.
Proof.
  intros Hin Hle. unfold runTimers. cbn [otpStore]. rewrite fold_delete_lookup.
  rewrite bool_decide_eq_true_2; [reflexivity|].
  apply due_keys. eauto.
Qed.

Lemma runTimers_lookup_Some (st : state) (now : Z) (k : string) (e : entry) :
  otpStore (runTimers st now) !! k = Some e -> otpStore st !! k = Some e.
Proof.
  unfold runTimers. cbn [otpStore]. rewrite fold_delete_lookup.
  case_bool_decide; [discriminate | tauto].
Qed.

End OneTimeCodeCalls.

Section OneTimeCodeFlows.
Import otpService otpCalls.

(** X3: a correct code presented for an entry that is not verified, not
    expired and has attempts left is accepted; the entry stays in the store
    marked verified, so a repeated call answers ['already_used'] whatever it
    presents; once the timer set by the accepting call has fired, five
    seconds later, the entry is gone and the call answers ['not_found']. *)
Theorem verify_accepts_once (st : state) (t1 t2 t3 t4 : Z)
    (identifier purpose c1 c2 c4 : string) (e : entry) :
  otpStore st !! createOTPKey identifier purpose = Some e ->
  verified e = false ->
  t1 <= expiresAt e ->
  attempts e < 3 ->
  JsString.trim c1 = otp e ->
  t1 + 5000 <= t3 ->
  let v1 := verify st t1 identifier c1 purpose in
  let v2 := verify (snd v1) t2 identifier c2 purpose in
  let fired := runTimers (snd v2) t3 in
  let v4 := verify fired t4 identifier c4 purpose in
  fst v1 = mkVerifyResult true None None
  /\ otpStore (snd v1) !! createOTPKey identifier purpose
     = Some (mkEntry (otp e) (createdAt e) (expiresAt e) (attempts e + 1) true)
  /\ fst v2 = mkVerifyResult false (Some "already_used") None
  /\ snd v2 = snd v1
  /\ otpStore fired !! createOTPKey identifier purpose = None
  /\ fst v4 = mkVerifyResult false (Some "not_found") None.
Proof.
  intros Hlook Hver Hexp Hatt Hcode Hdue v1 v2 fired v4.
  set (key := createOTPKey identifier purpose) in *.
  assert (E1 : v1 = verify st t1 identifier c1 purpose) by reflexivity.
  rewrite (verify_correct st t1 identifier c1 purpose e Hlook Hver Hexp Hatt Hcode)
    in E1.
  fold key in E1.
  assert (L1 : otpStore (snd v1) !! key
               = Some (mkEntry (otp e) (createdAt e) (expiresAt e)
                               (attempts e + 1) true)).
  { rewrite E1. cbn [snd otpStore]. apply lookup_insert_eq. }
  assert (E2 : v2 = (failure "already_used", snd v1)).
  { unfold v2. apply (verify_used _ t2 identifier c2 purpose _ L1). reflexivity. }
  assert (Hfired : otpStore fired !! key = None).
  { unfold fired. rewrite E2. cbn [snd].
    apply (runTimers_due _ t3 (t1 + 5000)); [|exact Hdue].
    rewrite E1. cbn [snd timers]. apply elem_of_app. right. left. }
  split; [rewrite E1; reflexivity|]. split; [exact L1|].
  split; [rewrite E2; reflexivity|]. split; [rewrite E2; reflexivity|].
  split; [exact Hfired|].
  unfold v4. rewrite (verify_absent fired t4 identifier c4 purpose Hfired).
  reflexivity.
Qed.

Lemma verify_accepts_once_witness :
  let v1 := verify freshCode 1000 "user@example.com" " 123456 " "login" in
  let v2 := verify (snd v1) 2000 "user@example.com" "123456" "login" in
  let fired := runTimers (snd v2) 6000 in
  let v4 := verify fired 7000 "user@example.com" "123456" "login" in
  fst v1 = mkVerifyResult true None None
  /\ otpStore (snd v1) !! createOTPKey "user@example.com" "login"
     = Some (mkEntry "123456" 0 600000 (0 + 1) true)
  /\ fst v2 = mkVerifyResult false (Some "already_used") None
  /\ snd v2 = snd v1
  /\ otpStore fired !! createOTPKey "user@example.com" "login" = None
  /\ fst v4 = mkVerifyResult false (Some "not_found") None.
Proof.
  apply (verify_accepts_once freshCode 1000 2000 6000 7000
           "user@example.com" "login" " 123456 " "123456" "123456"
           (mkEntry "123456" 0 600000 0 false)).
  - vm_compute. reflexivity.
  - reflexivity.
  - simpl. lia.
  - simpl. lia.
  - vm_compute. reflexivity.
  - lia.
Defined.

(** X4: a call of [verify] after the expiry time of an entry that is not
    verified answers ['expired'] and deletes the entry, even when the code
    is right; the next call answers ['not_found'].  An entry already
    verified answers ['already_used'] instead and is kept. *)
Theorem verify_after_expiry (st : state) (t1 t2 : Z)
    (identifier purpose c1 c2 : string) (e : entry) :
  otpStore st !! createOTPKey identifier purpose = Some e ->
  expiresAt e < t1 ->
  let v1 := verify st t1 identifier c1 purpose in
  let v2 := verify (snd v1) t2 identifier c2 purpose in
  (verified e = false ->
   fst v1 = mkVerifyResult false (Some "expired") None
   /\ otpStore (snd v1) !! createOTPKey identifier purpose = None
   /\ fst v2 = mkVerifyResult false (Some "not_found") None)
  /\ (verified e = true ->
      fst v1 = mkVerifyResult false (Some "already_used") None
      /\ snd v1 = st).
Proof.
  intros Hlook Hexp v1 v2. split; intros Hver.
  - assert (E1 : v1 = verify st t1 identifier c1 purpose) by reflexivity.
    rewrite (verify_expired st t1 identifier c1 purpose e Hlook Hver Hexp) in E1.
    assert (Hgone : otpStore (snd v1) !! createOTPKey identifier purpose = None).
    { rewrite E1. cbn [snd otpStore]. apply lookup_delete_eq. }
    split; [rewrite E1; reflexivity|]. split; [exact Hgone|].
    unfold v2. rewrite (verify_absent _ t2 identifier c2 purpose Hgone).
    reflexivity.
  - unfold v1. rewrite (verify_used st t1 identifier c1 purpose e Hlook Hver).
    split; reflexivity.
Qed.

Lemma verify_after_expiry_witness :
  let v1 := verify freshCode 600001 "user@example.com" "123456" "login" in
  let v2 := verify (snd v1) 600002 "user@example.com" "123456" "login" in
  fst v1 = mkVerifyResult false (Some "expired") None
  /\ otpStore (snd v1) !! createOTPKey "user@example.com" "login" = None
  /\ fst v2 = mkVerifyResult false (Some "not_found") None.
Proof.
  apply (proj1 (verify_after_expiry freshCode 600001 600002
                  "user@example.com" "login" "123456" "123456"
                  (mkEntry "123456" 0 600000 0 false)
                  ltac:(vm_compute; reflexivity) ltac:(simpl; lia))).
  reflexivity.
Defined.

(** X5: [generate] fails only for the cooldown: it succeeds exactly when the
    key has no entry or its entry was created at least 60 seconds before.
    On success the key holds a new entry with the code returned, no attempt
    counted, not verified, expiring ten minutes later, whatever the state of
    the entry it replaces; on failure the store is untouched.  Entries
    under other keys and the pending timers are never changed. *)
Theorem generate_outcome (st : state) (now : Z) (randomBytes : list N)
    (identifier purpose : string) :
  let key := createOTPKey identifier purpose in
  let r := generate st now randomBytes identifier purpose in
  (g_success (fst r) = true
   <-> otpStore st !! key = None
       \/ exists e, otpStore st !! key = Some e /\ 60000 <= now - createdAt e)
  /\ (g_success (fst r) = true ->
      g_otp (fst r) = Some (generateOTP randomBytes 6)
      /\ g_expiresAt (fst r) = Some (now + 600000)
      /\ otpStore (snd r) !! key
         = Some (mkEntry (generateOTP randomBytes 6) now (now + 600000) 0 false))
  /\ (g_success (fst r) = false ->
      g_error (fst r) = Some "cooldown" /\ snd r = st)
  /\ (forall k, k <> key -> otpStore (snd r) !! k = otpStore st !! k)
  /\ timers (snd r) = timers st.
Proof.
  intros key r. unfold r, generate. fold key.
  change (OTP_CONFIG.cooldownMinutes * 60 * 1000) with 60000.
  change (OTP_CONFIG.expiryMinutes * 60 * 1000) with 600000.
  change OTP_CONFIG.length with 6%nat.
  destruct (otpStore st !! key) as [existing|] eqn:Hlook.
  - destruct (Z.ltb_spec (now - createdAt existing) 60000) as [Hlt|Hge];
      cbn [fst snd g_success g_error g_otp g_expiresAt otpStore timers].
    + split; [|split; [|split; [|split]]]; try discriminate; try tauto.
      split; [discriminate|].
      intros [Hn | (e & [= <-] & Hge)]; [discriminate | lia].
    + split; [|split; [|split; [|split]]]; try discriminate; try reflexivity.
      * split; [intros _; right; eauto | reflexivity].
      * intros _. rewrite lookup_insert_eq. repeat split; reflexivity.
      * intros k Hk. apply lookup_insert_ne. congruence.
  - cbn [fst snd g_success g_error g_otp g_expiresAt otpStore timers].
    split; [|split; [|split; [|split]]]; try discriminate; try reflexivity.
    + split; [intros _; left; reflexivity | reflexivity].
    + intros _. rewrite lookup_insert_eq. repeat split; reflexivity.
    + intros k Hk. apply lookup_insert_ne. congruence.
Qed.

Lemma generate_outcome_witness :
  let r := generate afterThreeWrong 60000 [4; 4; 4; 4; 4; 4]%N
             "user@example.com" "login" in
  g_otp (fst r) = Some (generateOTP [4; 4; 4; 4; 4; 4]%N 6)
  /\ g_expiresAt (fst r) = Some (60000 + 600000)
  /\ otpStore (snd r) !! createOTPKey "user@example.com" "login"
     = Some (mkEntry (generateOTP [4; 4; 4; 4; 4; 4]%N 6) 60000
               (60000 + 600000) 0 false).
Proof.
  apply (proj1 (proj2 (generate_outcome afterThreeWrong 60000
                         [4; 4; 4; 4; 4; 4]%N "user@example.com" "login"))).
  vm_compute. reflexivity.
Defined.

End OneTimeCodeFlows.

Section OneTimeCodeInvariants.
Import otpService otpCalls.

Lemma entryOk_fresh (randomBytes : list N) (now : Z) :
  entryOk (mkEntry (generateOTP randomBytes OTP_CONFIG.length) now
             (now + OTP_CONFIG.expiryMinutes * 60 * 1000) 0 false).
Proof.
  unfold entryOk. cbn [attempts expiresAt createdAt verified otp].
  change OTP_CONFIG.maxAttempts with 3.
  change (OTP_CONFIG.expiryMinutes * 60 * 1000) with 600000.
  repeat split; try lia; try discriminate. apply generateOTP_digits.
Qed.

Lemma storeOk_insert (st : state) (k : string) (e : entry)
    (tm : list (Z * string)) :
  storeOk st -> entryOk e -> storeOk (mkState (<[k := e]> (otpStore st)) tm).
Proof.
  intros Hst He k' e'. cbn [otpStore].
  destruct (decide (k = k')) as [->|Hne].
  - rewrite lookup_insert_eq. intros [= <-]. exact He.
  - rewrite lookup_insert_ne by exact Hne. apply Hst.
Qed.

Lemma storeOk_delete (st : state) (k : string) (tm : list (Z * string)) :
  storeOk st -> storeOk (mkState (delete k (otpStore st)) tm).
Proof.
  intros Hst k' e'. cbn [otpStore]. intros H.
  apply lookup_delete_Some in H as [_ H]. exact (Hst k' e' H).
Qed.

Lemma storeOk_generate (st : state) (now : Z) (randomBytes : list N)
    (identifier purpose : string) :
  storeOk st -> storeOk (snd (generate st now randomBytes identifier purpose)).
Proof.
  intros Hst. unfold generate.
  destruct (otpStore st !! createOTPKey identifier purpose) as [existing|];
    [destruct (now - createdAt existing <? _)|]; cbn [snd];
    try exact Hst; apply storeOk_insert; auto using entryOk_fresh.
Qed.

Lemma storeOk_verify (st : state) (now : Z)
    (identifier inputOTP purpose : string) :
  storeOk st -> storeOk (snd (verify st now identifier inputOTP purpose)).
Proof.
  intros Hst. unfold verify.
  destruct (otpStore st !! createOTPKey identifier purpose) as [stored|] eqn:Hlook;
    [|exact Hst].
  pose proof (Hst _ _ Hlook) as (Hatt & Hexp & Hver & Hdig).
  change OTP_CONFIG.maxAttempts with 3 in *.
  destruct (verified stored); [exact Hst|].
  destruct (expiresAt stored <? now); [apply storeOk_delete, Hst|].
  destruct (Z.leb_spec 3 (attempts stored)); [apply storeOk_delete, Hst|].
  cbn [otp attempts createdAt expiresAt verified].
  destruct (negb (String.eqb (otp stored) (JsString.trim inputOTP)));
    cbn [snd]; apply storeOk_insert; try exact Hst;
    unfold entryOk; cbn [otp attempts createdAt expiresAt verified];
    change OTP_CONFIG.maxAttempts with 3;
    repeat split; try lia; try discriminate; try assumption.
Qed.

Lemma storeOk_perform (st : state) (c : call) :
  storeOk st -> storeOk (perform st c).
Proof.
  intros Hst. destruct c; cbn [perform].
  - apply storeOk_generate, Hst.
  - apply storeOk_verify, Hst.
  - apply storeOk_delete, Hst.
  - intros k e. unfold cleanup. cbn [otpStore]. intros H.
    apply map_lookup_filter_Some in H as [H _]. exact (Hst k e H).
  - intros k e H. apply runTimers_lookup_Some in H. exact (Hst k e H).
Qed.

(** X6: whatever calls are made, in whatever order and at whatever times,
    every entry in the store has between 0 and 3 attempts counted, expires
    exactly ten minutes after its creation, is verified only after a counted
    attempt and holds a code made of decimal digits. *)
Theorem store_entries_wellformed (calls : list call) (k : string) (e : entry) :
  otpStore (after calls) !! k = Some e ->
  0 <= attempts e <= 3
  /\ expiresAt e = createdAt e + 600000
  /\ (verified e = true -> 1 <= attempts e)
  /\ JsString.allChars JsString.isDigit (otp e) = true.
Proof.
  assert (H : storeOk (after calls)).
  { unfold after.
    assert (H0 : storeOk initial).
    { intros k' e'. cbn [initial otpStore]. rewrite lookup_empty. discriminate. }
    revert H0. generalize initial.
    induction calls as [|c calls IH]; intros st Hst; simpl; [exact Hst|].
    apply IH, storeOk_perform, Hst. }
  intros Hlook. exact (H k e Hlook).
Qed.

Lemma store_entries_wellformed_witness :
  0 <= attempts (mkEntry "123456" 0 600000 3 false) <= 3
  /\ expiresAt (mkEntry "123456" 0 600000 3 false)
     = createdAt (mkEntry "123456" 0 600000 3 false) + 600000
  /\ (verified (mkEntry "123456" 0 600000 3 false) = true ->
      1 <= attempts (mkEntry "123456" 0 600000 3 false))
  /\ JsString.allChars JsString.isDigit (otp (mkEntry "123456" 0 600000 3 false))
     = true.
Proof.
  apply (store_entries_wellformed
           [Generate 0 [1; 2; 3; 4; 5; 6]%N "user@example.com" "login";
            Verify 1000 "user@example.com" "000000" "login";
            Verify 2000 "user@example.com" "000000" "login";
            Verify 3000 "user@example.com" "000000" "login"]
           (createOTPKey "user@example.com" "login")).
  vm_compute. reflexivity.
Defined.

(** X7: [verify] and [invalidate] touch one key only: the entry under any
    other key is as it was before the call. *)
Theorem other_keys_untouched (st : state) (now : Z)
    (identifier inputOTP purpose k : string) :
  k <> createOTPKey identifier purpose ->
  otpStore (snd (verify st now identifier inputOTP purpose)) !! k
  = otpStore st !! k
  /\ otpStore (invalidate st identifier purpose) !! k = otpStore st !! k.
Proof.
  intros Hk. split.
  - unfold verify.
    destruct (otpStore st !! createOTPKey identifier purpose) as [stored|];
      [|reflexivity].
    destruct (verified stored); [reflexivity|].
    destruct (expiresAt stored <? now);
      [cbn [snd otpStore]; apply lookup_delete_ne; congruence|].
    destruct (OTP_CONFIG.maxAttempts <=? attempts stored);
      [cbn [snd otpStore]; apply lookup_delete_ne; congruence|].
    destruct (negb _); cbn [snd otpStore]; apply lookup_insert_ne; congruence.
  - unfold invalidate. cbn [otpStore]. apply lookup_delete_ne. congruence.
Qed.

Lemma other_keys_untouched_witness :
  otpStore (snd (verify freshCode 1000 "other@example.com" "000000" "login"))
    !! createOTPKey "user@example.com" "login"
  = otpStore freshCode !! createOTPKey "user@example.com" "login"
  /\ otpStore (invalidate freshCode "other@example.com" "login")
       !! createOTPKey "user@example.com" "login"
     = otpStore freshCode !! createOTPKey "user@example.com" "login".
Proof.
  apply (other_keys_untouched freshCode 1000 "other@example.com" "000000"
           "login" (createOTPKey "user@example.com" "login")).
  vm_compute. discriminate.
Defined.

(** X8: after a successful [generate], [invalidate] removes the entry, as the
    send-OTP route does when the e-mail cannot be sent: [verify] then answers
    ['not_found'] even for the code just issued, and a new [generate]
    succeeds at once, without any cooldown. *)
Theorem invalidate_clears_cooldown (st : state) (t1 t2 t3 : Z)
    (bytes1 bytes3 : list N) (identifier purpose code : string) :
  g_success (fst (generate st t1 bytes1 identifier purpose)) = true ->
  let st1 := snd (generate st t1 bytes1 identifier purpose) in
  let st2 := invalidate st1 identifier purpose in
  otpStore st2 !! createOTPKey identifier purpose = None
  /\ fst (verify st2 t2 identifier code purpose)
     = mkVerifyResult false (Some "not_found") None
  /\ g_success (fst (generate st2 t3 bytes3 identifier purpose)) = true.
Proof.
  intros _ st1 st2.
  assert (Hgone : otpStore st2 !! createOTPKey identifier purpose = None).
  { unfold st2, invalidate. cbn [otpStore]. apply lookup_delete_eq. }
  split; [exact Hgone|]. split.
  - rewrite (verify_absent st2 t2 identifier code purpose Hgone). reflexivity.
  - unfold generate. rewrite Hgone. reflexivity.
Qed.

Lemma invalidate_clears_cooldown_witness :
  let st1 := snd (generate initial 0 [1; 2; 3; 4; 5; 6]%N "user@example.com" "kyc") in
  let st2 := invalidate st1 "user@example.com" "kyc" in
  otpStore st2 !! createOTPKey "user@example.com" "kyc" = None
  /\ fst (verify st2 10 "user@example.com" "123456" "kyc")
     = mkVerifyResult false (Some "not_found") None
  /\ g_success (fst (generate st2 20 [6; 5; 4; 3; 2; 1]%N "user@example.com" "kyc"))
     = true.
Proof.
  apply (invalidate_clears_cooldown initial 0 10 20 [1; 2; 3; 4; 5; 6]%N
           [6; 5; 4; 3; 2; 1]%N "user@example.com" "kyc" "123456").
  reflexivity.
Defined.

(** X9: [cleanup] keeps exactly the entries that are not expired and, if
    verified, were created at most five minutes before; it changes no entry
    it keeps, and running it twice at the same time changes nothing more. *)
Theorem cleanup_keeps_live_entries (st : state) (now : Z) :
  (forall k e,
     otpStore (cleanup st now) !! k = Some e
     <-> otpStore st !! k = Some e
         /\ now <= expiresAt e
         /\ (verified e = true -> now - createdAt e <= 300000))
  /\ cleanup (cleanup st now) now = cleanup st now.
Proof.
  assert (Hlook : forall st' k e,
    otpStore (cleanup st' now) !! k = Some e
    <-> otpStore st' !! k = Some e
        /\ now <= expiresAt e
        /\ (verified e = true -> now - createdAt e <= 300000)).
  { intros st' k e. unfold cleanup. cbn [otpStore].
    rewrite map_lookup_filter_Some. cbn [snd].
    split; intros [H1 H2]; (split; [exact H1|]).
    - split; [lia|]. intros Hv.
      destruct (Z.le_gt_cases (now - createdAt e) 300000); [assumption|].
      exfalso. apply H2. right. split; [exact Hv | lia].
    - destruct H2 as [H2 H3]. intros [Hx | [Hv Hy]]; [lia|].
      specialize (H3 Hv). lia. }
  split; [apply Hlook|].
  assert (Hmap : otpStore (cleanup (cleanup st now) now) = otpStore (cleanup st now)).
  { apply map_eq. intros k. apply option_eq. intros e.
    rewrite (Hlook (cleanup st now)), (Hlook st). tauto. }
  unfold cleanup at 1. unfold cleanup at 3.
  f_equal. exact Hmap.
Qed.

Lemma generate_keeps_timers (st : state) (now : Z) (randomBytes : list N)
    (identifier purpose : string) :
  timers (snd (generate st now randomBytes identifier purpose)) = timers st.
Proof.
  unfold generate.
  destruct (otpStore st !! createOTPKey identifier purpose) as [existing|];
    [destruct (now - createdAt existing <? _)|]; reflexivity.
Qed.

(** X10: the timer set by an accepted [verify] deletes whatever entry its key
    holds when it fires: if [generate] has issued a new code for the key in
    the meantime, that new code is deleted too and [verify] answers
    ['not_found'] for it. *)
Theorem grace_timer_deletes_new_code (st : state) (t1 t2 t3 t4 : Z)
    (bytes : list N) (identifier purpose c1 c4 : string) (e : entry) :
  otpStore st !! createOTPKey identifier purpose = Some e ->
  verified e = false ->
  t1 <= expiresAt e ->
  attempts e < 3 ->
  JsString.trim c1 = otp e ->
  t1 + 5000 <= t3 ->
  let st1 := snd (verify st t1 identifier c1 purpose) in
  let issued := generate st1 t2 bytes identifier purpose in
  let fired := runTimers (snd issued) t3 in
  otpStore fired !! createOTPKey identifier purpose = None
  /\ fst (verify fired t4 identifier c4 purpose)
     = mkVerifyResult false (Some "not_found") None.
Proof.
  intros Hlook Hver Hexp Hatt Hcode Hdue st1 issued fired.
  assert (Htimer : (t1 + 5000, createOTPKey identifier purpose) ∈ timers st1).
  { unfold st1.
    rewrite (verify_correct st t1 identifier c1 purpose e Hlook Hver Hexp Hatt Hcode).
    cbn [snd timers]. apply elem_of_app. right. left. }
  assert (Hgone : otpStore fired !! createOTPKey identifier purpose = None).
  { unfold fired. apply (runTimers_due _ t3 (t1 + 5000)); [|exact Hdue].
    unfold issued. rewrite generate_keeps_timers. exact Htimer. }
  split; [exact Hgone|].
  rewrite (verify_absent fired t4 identifier c4 purpose Hgone). reflexivity.
Qed.

Lemma grace_timer_deletes_new_code_witness :
  let st1 := snd (verify freshCode 58000 "user@example.com" "123456" "login") in
  let issued := generate st1 60000 [9; 8; 7; 6; 5; 4]%N "user@example.com" "login" in
  let fired := runTimers (snd issued) 63000 in
  otpStore fired !! createOTPKey "user@example.com" "login" = None
  /\ fst (verify fired 64000 "user@example.com" "987654" "login")
     = mkVerifyResult false (Some "not_found") None.
Proof.
  apply (grace_timer_deletes_new_code freshCode 58000 60000 63000 64000
           [9; 8; 7; 6; 5; 4]%N "user@example.com" "login" "123456" "987654"
           (mkEntry "123456" 0 600000 0 false)).
  - vm_compute. reflexivity.
  - reflexivity.
  - simpl. lia.
  - simpl. lia.
  - vm_compute. reflexivity.
  - lia.
Defined.

End OneTimeCodeInvariants.

(** ** Entity keys and the risk engine: further properties *)

Lemma normalizeEntity_cases (x : string) :
  let n := JsString.trim (JsString.toLowerCase x) in
  (JsString.includes n "@" = true /\ normalizeEntity x = n)
  \/ (JsString.includes n "@" = false
      /\ normalizeEntity x = JsString.removeChars formattingChar n).
Proof.
  simpl. unfold normalizeEntity.
  destruct (JsString.includes _ "@"); [left | right]; split; reflexivity.
Qed.

Lemma not_formatting_not_space (s : string) :
  JsString.allChars (fun c => negb (formattingChar c)) s = true ->
  JsString.allChars (fun c => negb (JsString.isWhiteSpace c)) s = true.
Proof.
  apply allChars_weaken. intros c Hc.
  destruct (JsString.isWhiteSpace c) eqn:E; [|reflexivity].
  rewrite (isWhiteSpace_formattingChar c E) in Hc. discriminate.
Qed.

Lemma normalizeEntity_lower (x : string) :
  JsString.toLowerCase (normalizeEntity x) = normalizeEntity x.
Proof.
  destruct (normalizeEntity_cases x) as [[_ ->] | [_ ->]].
  - rewrite toLowerCase_trim, toLowerCase_idem. reflexivity.
  - rewrite toLowerCase_removeChars by apply formattingChar_toLowerChar.
    rewrite toLowerCase_trim, toLowerCase_idem. reflexivity.
Qed.

Lemma normalizeEntity_trimmed (x : string) :
  JsString.trim (normalizeEntity x) = normalizeEntity x.
Proof.
  destruct (normalizeEntity_cases x) as [[_ ->] | [_ ->]].
  - apply trim_idem.
  - apply trim_no_space, not_formatting_not_space, removeChars_allChars.
Qed.

Lemma normalizeEntity_phone_clean (x : string) :
  JsString.includes (normalizeEntity x) "@" = false ->
  JsString.allChars (fun c => negb (formattingChar c)) (normalizeEntity x) = true.
Proof.
  destruct (normalizeEntity_cases x) as [[Hat ->] | [_ ->]].
  - rewrite Hat. discriminate.
  - intros _. apply removeChars_allChars.
Qed.

Lemma normalizeEntity_again (x : string) :
  normalizeEntity (normalizeEntity x) = normalizeEntity x.
Proof.
  unfold normalizeEntity at 1.
  rewrite normalizeEntity_lower, normalizeEntity_trimmed.
  destruct (JsString.includes (normalizeEntity x) "@") eqn:Hat; [reflexivity|].
  apply removeChars_fixed, normalizeEntity_phone_clean, Hat.
Qed.

(** X11: the key [normalizeEntity] returns is in canonical form: lower-casing
    or trimming it changes nothing, and a key without ['@'] contains no white
    space and none of ['-'], ['('], [')'], ['+'], ['.'].  The key does not
    depend on the letter case of the input or on white space around it. *)
Theorem normalizeEntity_canonical (x : string) :
  JsString.toLowerCase (normalizeEntity x) = normalizeEntity x
  /\ JsString.trim (normalizeEntity x) = normalizeEntity x
  /\ (JsString.includes (normalizeEntity x) "@" = false ->
      JsString.allChars (fun c => negb (formattingChar c)) (normalizeEntity x)
      = true)
  /\ normalizeEntity (JsString.toLowerCase x) = normalizeEntity x
  /\ normalizeEntity (JsString.trim x) = normalizeEntity x.
Proof.
  split; [apply normalizeEntity_lower|].
  split; [apply normalizeEntity_trimmed|].
  split; [apply normalizeEntity_phone_clean|].
  split.
  - unfold normalizeEntity. rewrite toLowerCase_idem. reflexivity.
  - unfold normalizeEntity. rewrite toLowerCase_trim, trim_idem. reflexivity.
Qed.

Lemma normalizeEntity_canonical_witness :
  JsString.allChars (fun c => negb (formattingChar c))
    (normalizeEntity " +91 98765-43210 ") = true.
Proof.
  apply (proj1 (proj2 (proj2 (normalizeEntity_canonical " +91 98765-43210 ")))).
  reflexivity.
Defined.

Lemma calculateFraudRisk_by_key (fuel : nat) (env : Env.t)
    (now thirtyDaysAgo : Z) (e1 e2 : string) (userId : option string) :
  normalizeEntity e1 = normalizeEntity e2 ->
  calculateFraudRisk fuel env now thirtyDaysAgo e1 userId
  = calculateFraudRisk fuel env now thirtyDaysAgo e2 userId.
Proof.
  intros Hkey. revert env.
  induction fuel as [|fuel IH]; intros env; [reflexivity|].
  cbn [calculateFraudRisk]. rewrite Hkey, IH. reflexivity.
Qed.

(** X12: [calculateFraudRisk] depends on its entity only through the
    normalised key: two spellings with the same key get the same result, and
    so does the key itself. *)
Theorem calculateFraudRisk_same_key (fuel : nat) (env : Env.t)
    (now thirtyDaysAgo : Z) (e1 e2 : string) (userId : option string) :
  normalizeEntity e1 = normalizeEntity e2 ->
  calculateFraudRisk fuel env now thirtyDaysAgo e1 userId
  = calculateFraudRisk fuel env now thirtyDaysAgo e2 userId
  /\ calculateFraudRisk fuel env now thirtyDaysAgo (normalizeEntity e1) userId
     = calculateFraudRisk fuel env now thirtyDaysAgo e1 userId.
Proof.
  intros Hkey. split.
  - apply calculateFraudRisk_by_key, Hkey.
  - apply calculateFraudRisk_by_key, normalizeEntity_again.
Qed.

Lemma calculateFraudRisk_same_key_witness :
  calculateFraudRisk 2 failingStore 0 0 "(994) 408-4754" None
  = calculateFraudRisk 2 failingStore 0 0 " 9944084754 " None
  /\ calculateFraudRisk 2 failingStore 0 0 (normalizeEntity "(994) 408-4754") None
     = calculateFraudRisk 2 failingStore 0 0 "(994) 408-4754" None.
Proof.
  apply (calculateFraudRisk_same_key 2 failingStore 0 0
           "(994) 408-4754" " 9944084754 " None).
  vm_compute. reflexivity.
Defined.

Lemma sumOver_reportPoints_split (reports : list Report.t) :
  sumOver reportPoints reports
  = Z.of_nat (List.length reports)
    + 2 * Z.of_nat (List.length (List.filter weightedCategory reports)).
Proof.
  induction reports as [|r reports IH]; [reflexivity|].
  rewrite sumOver_cons, IH. cbn [List.length List.filter].
  unfold reportPoints. fold (weightedCategory r).
  destruct (weightedCategory r); cbn [List.length]; lia.
Qed.

(** X13: the score is the number of reports plus twice the number of reports
    of category ['Phishing'] or ['Identity Theft'], so it lies between
    [totalReports] and three times [totalReports]; the level is ['safe']
    exactly when there is no report, a single report is never ['high_risk'],
    and six reports or more always are. *)
Theorem score_against_report_count (fuel : nat) (env : Env.t)
    (now thirtyDaysAgo : Z) (targetEntity : string) (userId : option string) :
  let reports := reportsInHand env now thirtyDaysAgo targetEntity in
  exists payload env' dispatched,
    calculateFraudRisk (S (S fuel)) env now thirtyDaysAgo targetEntity userId
    = Some (payload, env', dispatched)
    /\ RiskResult.score payload
       = RiskResult.totalReports payload
         + 2 * Z.of_nat (List.length (List.filter weightedCategory reports))
    /\ RiskResult.totalReports payload <= RiskResult.score payload
       <= 3 * RiskResult.totalReports payload
    /\ (RiskResult.riskLevel payload = "safe"
        <-> RiskResult.totalReports payload = 0)
    /\ (RiskResult.totalReports payload <= 1 ->
        RiskResult.riskLevel payload <> "high_risk")
    /\ (6 <= RiskResult.totalReports payload ->
        RiskResult.riskLevel payload = "high_risk").
Proof.
  intros reports.
  destruct (calculateFraudRisk_returns fuel env now thirtyDaysAgo targetEntity userId)
    as (payload & dispatched & Hcall & Hpayload).
  eexists payload, _, dispatched. split; [exact Hcall|].
  fold reports in Hpayload.
  match type of Hpayload with
  | _ = fst (riskPayload ?a ?b ?c ?d ?e ?f) =>
      pose proof (riskPayload_spec a b c d e f) as (Hs & Hl & Ht & _)
  end.
  rewrite <- Hpayload in Hs, Hl, Ht.
  pose proof (sumOver_reportPoints_split reports) as Hsplit.
  assert (Hw : Z.of_nat (List.length (List.filter weightedCategory reports))
               <= Z.of_nat (List.length reports)).
  { apply Nat2Z.inj_le, filter_length_le. }
  assert (Hnn : 0 <= sumOver reportPoints reports) by lia.
  pose proof (riskMapping_level _ Hnn) as (L1 & L2 & L3).
  rewrite Hl, Hs, Ht.
  split; [lia|]. split; [lia|]. split; [rewrite L1; lia|]. split.
  - intros Hone Hhigh. apply L3 in Hhigh. lia.
  - intros Hsix. apply L3. lia.
Qed.

Lemma score_against_report_count_witness :
  exists payload env' dispatched,
    calculateFraudRisk 2 failingStore 0 0 "nobody@example.com" None
    = Some (payload, env', dispatched)
    /\ RiskResult.riskLevel payload <> "high_risk".
Proof.
  destruct (score_against_report_count 0 failingStore 0 0 "nobody@example.com" None)
    as (p & e & d & Hcall & _ & _ & _ & Hone & _).
  exists p, e, d. split; [exact Hcall|]. apply Hone.
  vm_compute in Hcall. injection Hcall as <- _ _. simpl. lia.
Defined.

(** X14: with the demo flag up the real stores are never consulted and no
    time window is applied: the payload and the notifications are the same
    whatever the report collection and the cyber-crime lookup hold or
    whether they fail, and for any cut-off date; the flag stays up. *)
Theorem demo_mode_ignores_stores (fuel : nat)
    (demo : list Report.t) (docs docs' : option (list Report.t))
    (cyber cyber' : string -> option (option (list string)))
    (now thirtyDaysAgo thirtyDaysAgo' : Z)
    (targetEntity : string) (userId : option string) :
  let env := Env.mk true demo docs cyber in
  let env' := Env.mk true demo docs' cyber' in
  observable (calculateFraudRisk (S fuel) env now thirtyDaysAgo targetEntity userId)
  = observable (calculateFraudRisk (S fuel) env' now thirtyDaysAgo' targetEntity userId)
  /\ exists payload dispatched,
       calculateFraudRisk (S fuel) env now thirtyDaysAgo targetEntity userId
       = Some (payload, env, dispatched)
       /\ RiskResult.isDemo payload = true
       /\ RiskResult.investigativeProtocols payload = [].
Proof.
  intros env env'. cbn [calculateFraudRisk Env.DEMO_MODE env env' Env.demoReports].
  match goal with
  | |- context [riskPayload ?a ?b ?c ?d ?e ?f] =>
      pose proof (riskPayload_spec a b c d e f) as (_ & _ & _ & Hd & _);
      assert (Hp : RiskResult.investigativeProtocols
                     (fst (riskPayload a b c d e f)) = []);
      [unfold riskPayload;
       destruct (riskMapping _) as [[? ?] ?]; reflexivity|];
      destruct (riskPayload a b c d e f) as [payload dispatched]
  end.
  cbn [observable]. split; [reflexivity|].
  exists payload, dispatched. repeat split; assumption.
Qed.

Lemma findReports_app (d1 d2 : list Report.t) (entity : string) (t : Z) :
  findReports (d1 ++ d2) entity t
  = findReports d1 entity t ++ findReports d2 entity t.
Proof. unfold findReports. apply List.filter_app. Qed.

Lemma sumOver_app {A : Type} (f : A -> Z) (l1 l2 : list A) :
  sumOver f (l1 ++ l2) = sumOver f l1 + sumOver f l2.
Proof.
  induction l1 as [|x l1 IH]; simpl; [lia|]. fold (sumOver f (l1 ++ l2)).
  fold (sumOver f l1). rewrite IH. lia.
Qed.

(** X15: when the store answers, a report added to the collection changes the
    result only if it is active, filed for the normalised key and dated
    within the window; it then adds 1 to [totalReports] and 1 or 3 to the
    score.  A report that is inactive, older than the cut-off or filed for
    another key changes neither. *)
Theorem added_report_contribution (fuel : nat) (demo d1 d2 : list Report.t)
    (cyber : string -> option (option (list string)))
    (now thirtyDaysAgo : Z) (targetEntity : string) (userId : option string)
    (r : Report.t) :
  let env := Env.mk false demo (Some (d1 ++ d2)) cyber in
  let env' := Env.mk false demo (Some (d1 ++ r :: d2)) cyber in
  let counted := reportMatches (normalizeEntity targetEntity) thirtyDaysAgo r in
  exists p d p' d',
    calculateFraudRisk (S fuel) env now thirtyDaysAgo targetEntity userId
    = Some (p, env, d)
    /\ calculateFraudRisk (S fuel) env' now thirtyDaysAgo targetEntity userId
       = Some (p', env', d')
    /\ RiskResult.score p'
       = RiskResult.score p + (if counted then reportPoints r else 0)
    /\ RiskResult.totalReports p'
       = RiskResult.totalReports p + (if counted then 1 else 0)
    /\ 1 <= reportPoints r <= 3.
Proof.
  intros env env' counted.
  cbn [calculateFraudRisk Env.DEMO_MODE Env.fraudReports env env'].
  repeat match goal with
  | |- context [riskPayload ?a ?b ?c ?d ?e ?f] =>
      let H := fresh "H" in
      pose proof (riskPayload_spec a b c d e f) as H;
      destruct (riskPayload a b c d e f) as [? ?]
  end.
  cbn [fst] in *.
  destruct H as (Hs & _ & Ht & _), H0 as (Hs' & _ & Ht' & _).
  do 4 eexists. split; [reflexivity|]. split; [reflexivity|].
  rewrite Hs, Hs', Ht, Ht'.
  rewrite !findReports_app, !sumOver_app, !length_app.
  change (findReports (r :: d2) (normalizeEntity targetEntity) thirtyDaysAgo)
    with (if counted
          then r :: findReports d2 (normalizeEntity targetEntity) thirtyDaysAgo
          else findReports d2 (normalizeEntity targetEntity) thirtyDaysAgo).
  pose proof (reportPoints_pos r) as Hpos.
  assert (Hle : reportPoints r <= 3) by (unfold reportPoints; case_bool_decide; lia).
  destruct counted; [rewrite sumOver_cons; cbn [List.length]|]; lia.
Qed.

(** ** Content scoring: further properties *)

Lemma findingsAccount_push (score : Z) (findings : list Finding.t)
    (f : Finding.t) :
  findingsAccount (score, findings) ->
  0 < Finding.score f ->
  findingsAccount (score + Finding.score f, findings ++ [f]).
Proof.
  intros [Hs Hp] Hf. split; cbn [fst snd] in *.
  - rewrite sumOver_app, sumOver_cons. simpl. lia.
  - apply Forall_app. split; [exact Hp|]. constructor; [exact Hf | constructor].
Qed.

Lemma sumOver_positive (findings : list Finding.t) :
  Forall (fun f => 0 < Finding.score f) findings ->
  0 <= sumOver Finding.score findings.
Proof.
  induction findings as [|f rest IH]; intros H; [simpl; lia|].
  apply Forall_cons in H as [Hf Hr]. rewrite sumOver_cons.
  specialize (IH Hr). lia.
Qed.

Lemma categoryStep_account (lowerContent : string) (st : Z * list Finding.t)
    (entry : string * list string) :
  findingsAccount st ->
  findingsAccount (categoryStep lowerContent st entry)
  /\ (List.length (snd (categoryStep lowerContent st entry))
      <= S (List.length (snd st)))%nat.
Proof.
  destruct st as [score findings], entry as [category keywords]. intros Hacc.
  unfold categoryStep.
  set (n := Z.of_nat (List.length (matchedKeywordsOf lowerContent keywords))).
  destruct (Z.ltb_spec 0 n) as [Hpos|Hz].
  - split.
    + apply (findingsAccount_push score findings
               (Finding.mk category (matchedKeywordsOf lowerContent keywords)
                  (n * getCategoryWeight category)) Hacc).
      cbn [Finding.score]. pose proof (getCategoryWeight_pos category). nia.
    + cbn [snd]. rewrite length_app. simpl. lia.
  - split; [exact Hacc | cbn [snd]; lia].
Qed.

Lemma fold_categoryStep_account (lowerContent : string)
    (entries : list (string * list string)) (st : Z * list Finding.t) :
  findingsAccount st ->
  findingsAccount (List.fold_left (categoryStep lowerContent) entries st)
  /\ (List.length (snd (List.fold_left (categoryStep lowerContent) entries st))
      <= List.length entries + List.length (snd st))%nat.
Proof.
  revert st. induction entries as [|entry entries IH]; intros st Hacc.
  - split; [exact Hacc | simpl; lia].
  - cbn [List.fold_left].
    destruct (categoryStep_account lowerContent st entry Hacc) as [Hacc' Hlen].
    destruct (IH _ Hacc') as [Hfin Hlen']. split; [exact Hfin|].
    cbn [List.length]. lia.
Qed.

Lemma urlLoop_account (patterns : list Regex.t) (content : string)
    (st : Z * list Finding.t) :
  findingsAccount st ->
  findingsAccount (urlLoop patterns content st)
  /\ (List.length (snd (urlLoop patterns content st))
      <= S (List.length (snd st)))%nat.
Proof.
  intros Hacc. induction patterns as [|pattern rest IH]; cbn [urlLoop].
  - split; [exact Hacc | lia].
  - destruct (Regex.test pattern content); [|exact IH].
    destruct st as [score findings]. split.
    + apply (findingsAccount_push score findings
               (Finding.mk "suspicious_url"
                  ["shortened/suspicious URL detected"] 3) Hacc).
      simpl. lia.
    + cbn [snd]. rewrite length_app. simpl. lia.
Qed.

Lemma capsStep_account (content : string) (st : Z * list Finding.t) :
  findingsAccount st ->
  findingsAccount (capsStep content st)
  /\ (List.length (snd (capsStep content st)) <= S (List.length (snd st)))%nat.
Proof.
  intros Hacc. unfold capsStep. destruct (excessiveCaps content).
  - destruct st as [score findings]. split.
    + apply (findingsAccount_push score findings
               (Finding.mk "excessive_caps"
                  ["Excessive use of capital letters"] 2) Hacc).
      simpl. lia.
    + cbn [snd]. rewrite length_app. simpl. lia.
  - split; [exact Hacc | lia].
Qed.

Lemma analyzeText_state (now : Z) (content : string) :
  let st :=
    capsStep content
      (urlLoop urlPatterns content
         (List.fold_left (categoryStep (JsString.toLowerCase content))
            FRAUD_KEYWORDS (0, []))) in
  ContentRiskResult.score (analyzeText now content) = fst st
  /\ ContentRiskResult.findings (analyzeText now content) = snd st
  /\ ContentRiskResult.isSuspicious (analyzeText now content) = (0 <? fst st).
Proof.
  cbv zeta. unfold analyzeText.
  destruct (capsStep content _) as [score findings].
  destruct (contentBand score) as [level message].
  repeat split; reflexivity.
Qed.

(** X16: for every non-empty text the score is the sum of the scores of the
    findings reported, each finding has a positive score, and there are at
    most eight findings; the findings are empty exactly when the score is 0,
    which is exactly when [isSuspicious] is false. *)
Theorem findings_account_for_score (now : Z) (text : string) :
  text <> "" ->
  let r := analyzeContentForFraud now (JsString text) in
  ContentRiskResult.score r
  = sumOver Finding.score (ContentRiskResult.findings r)
  /\ Forall (fun f => 0 < Finding.score f) (ContentRiskResult.findings r)
  /\ (List.length (ContentRiskResult.findings r) <= 8)%nat
  /\ (ContentRiskResult.findings r = [] <-> ContentRiskResult.score r = 0)
  /\ (ContentRiskResult.isSuspicious r = false <-> ContentRiskResult.score r = 0).
Proof.
  intros Hne r. unfold r. rewrite (analyze_nonempty_string now text Hne).
  destruct (analyzeText_state now text) as (Hs & Hf & Hi).
  rewrite Hs, Hf, Hi. clear Hs Hf Hi.
  assert (H0 : findingsAccount (0, [])) by (split; [reflexivity | constructor]).
  destruct (fold_categoryStep_account (JsString.toLowerCase text)
              FRAUD_KEYWORDS _ H0) as [H1 L1].
  destruct (urlLoop_account urlPatterns text _ H1) as [H2 L2].
  destruct (capsStep_account text _ H2) as [[H3 P3] L3].
  set (st := capsStep text _) in *.
  change (List.length FRAUD_KEYWORDS) with 6%nat in L1. cbn [snd List.length] in L1.
  split; [exact H3|]. split; [exact P3|]. split; [lia|].
  assert (Hnn : 0 <= fst st) by (rewrite H3; apply sumOver_positive, P3).
  split.
  - split.
    + intros E. rewrite H3, E. reflexivity.
    + intros E. rewrite H3 in E. destruct (snd st) as [|f rest]; [reflexivity|].
      exfalso. apply Forall_cons in P3 as [Pf Pr].
      rewrite sumOver_cons in E.
      pose proof (sumOver_positive rest Pr). lia.
  - destruct (Z.ltb_spec 0 (fst st)); split; intros;
      try discriminate; try lia; reflexivity.
Qed.

Lemma findings_account_for_score_witness :
  let r := analyzeContentForFraud 0 (JsString "urgent bank account click here") in
  ContentRiskResult.score r
  = sumOver Finding.score (ContentRiskResult.findings r)
  /\ Forall (fun f => 0 < Finding.score f) (ContentRiskResult.findings r)
  /\ (List.length (ContentRiskResult.findings r) <= 8)%nat
  /\ (ContentRiskResult.findings r = [] <-> ContentRiskResult.score r = 0)
  /\ (ContentRiskResult.isSuspicious r = false <-> ContentRiskResult.score r = 0).
Proof.
  apply (findings_account_for_score 0 "urgent bank account click here").
  discriminate.
Defined.

(** ** Patterns *)

Section Patterns.
Import Regex.

Lemma matchesPrefix_Empty (s : string) : matchesPrefix Empty s = false.
Proof. induction s as [|c s IH]; [reflexivity | exact IH]. Qed.

Lemma matchesPrefix_Alt (r1 r2 : t) (s : string) :
  matchesPrefix (Alt r1 r2) s = matchesPrefix r1 s || matchesPrefix r2 s.
Proof.
  revert r1 r2. induction s as [|c s IH]; intros r1 r2.
  - cbn [matchesPrefix nullable]. rewrite !orb_false_r. reflexivity.
  - cbn [matchesPrefix nullable deriv]. rewrite IH.
    destruct (nullable r1), (nullable r2),
      (matchesPrefix (deriv c r1) s), (matchesPrefix (deriv c r2) s);
      reflexivity.
Qed.

Lemma matchesPrefix_Cat_Empty (r : t) (s : string) :
  matchesPrefix (Cat Empty r) s = false.
Proof. induction s as [|c s IH]; [reflexivity | exact IH]. Qed.

Lemma matchesPrefix_Cat_Eps (r : t) (s : string) :
  matchesPrefix (Cat Eps r) s = matchesPrefix r s.
Proof.
  destruct s as [|c s]; [reflexivity|].
  cbn [matchesPrefix nullable deriv andb].
  rewrite matchesPrefix_Alt, matchesPrefix_Cat_Empty. reflexivity.
Qed.

Lemma matchesPrefix_litI (p s : string) :
  matchesPrefix (litI p) s
  = JsString.startsWith (JsString.toLowerCase p) (JsString.toLowerCase s).
Proof.
  revert s. induction p as [|c p IH]; intros s.
  - destruct s; reflexivity.
  - destruct s as [|d s]; [reflexivity|].
    cbn [litI matchesPrefix nullable chrI deriv andb orb
         JsString.toLowerCase JsString.startsWith].
    rewrite (Ascii.eqb_sym (JsString.toLowerChar c)).
    destruct (Ascii.eqb (JsString.toLowerChar d) (JsString.toLowerChar c)).
    + rewrite matchesPrefix_Cat_Eps. apply IH.
    + apply matchesPrefix_Cat_Empty.
Qed.

(** A literal pattern under the [i] flag matches exactly the texts that
    contain the literal when both are put in lower case. *)
Lemma test_litI (p s : string) :
  test (litI p) s
  = JsString.includes (JsString.toLowerCase s) (JsString.toLowerCase p).
Proof.
  induction s as [|c s IH].
  - cbn [test JsString.toLowerCase JsString.includes].
    rewrite matchesPrefix_litI. reflexivity.
  - cbn [test JsString.toLowerCase JsString.includes].
    rewrite matchesPrefix_litI, IH. reflexivity.
Qed.

End Patterns.

Lemma existsb_here {A : Type} (f : A -> bool) (l : list A) (x : A) :
  In x l -> f x = true -> List.existsb f l = true.
Proof. intros Hin Hf. apply existsb_exists. eauto. Qed.

(** X17: a text that contains the name of one of the nine link shorteners, in
    any letter case, matches the URL patterns: it gets the
    ['suspicious_url'] points, so its score is at least 3 and its level is
    not ['safe']. *)
Theorem shortener_is_flagged (now : Z) (text name : string) :
  In name shortenerNames ->
  JsString.includes (JsString.toLowerCase text) name = true ->
  let r := analyzeContentForFraud now (JsString text) in
  urlMatches text = true
  /\ 3 <= ContentRiskResult.score r
  /\ ContentRiskResult.isSuspicious r = true
  /\ ContentRiskResult.riskLevel r <> Some "safe"
  /\ ContentRiskResult.riskLevel r <> None.
Proof.
  intros Hin Hinc r.
  assert (Hne : text <> "").
  { intros ->. simpl in Hin.
    repeat (destruct Hin as [<- | Hin]; [discriminate Hinc|]). destruct Hin. }
  assert (Hurl : urlMatches text = true).
  { unfold urlMatches.
    apply (existsb_here _ _ (Regex.litI name)).
    - simpl in Hin. unfold urlPatterns.
      repeat (destruct Hin as [<- | Hin]; [simpl; tauto|]). destruct Hin.
    - rewrite test_litI.
      assert (Hlow : JsString.toLowerCase name = name).
      { simpl in Hin.
        repeat (destruct Hin as [<- | Hin]; [reflexivity|]). destruct Hin. }
      rewrite Hlow. exact Hinc. }
  unfold r. rewrite (analyze_nonempty_string now text Hne).
  destruct (analyzeText_spec now text) as (Hs & Hl & Hi).
  rewrite Hs, Hl, Hi.
  assert (Hge : 3 <= contentTotal text).
  { unfold contentTotal. rewrite Hurl.
    pose proof (sumOver_nonneg (categoryPoints text) FRAUD_KEYWORDS
                  (categoryPoints_nonneg text)).
    destruct (excessiveCaps text); lia. }
  pose proof (contentBand_level _ (contentTotal_nonneg text)) as (B1 & _).
  split; [exact Hurl|]. split; [exact Hge|]. split; [apply Z.ltb_lt; lia|].
  split; [|discriminate].
  intros [= E]. apply B1 in E. lia.
Qed.

Lemma shortener_is_flagged_witness :
  let r := analyzeContentForFraud 0 (JsString "see HTTP://Bit.LY/x1") in
  urlMatches "see HTTP://Bit.LY/x1" = true
  /\ 3 <= ContentRiskResult.score r
  /\ ContentRiskResult.isSuspicious r = true
  /\ ContentRiskResult.riskLevel r <> Some "safe"
  /\ ContentRiskResult.riskLevel r <> None.
Proof.
  apply (shortener_is_flagged 0 "see HTTP://Bit.LY/x1" "bit.ly").
  - simpl. tauto.
  - vm_compute. reflexivity.
Defined.

Lemma matchCount_le (content : string) (keywords : list string) :
  0 <= matchCount content keywords <= Z.of_nat (List.length keywords).
Proof.
  unfold matchCount, matchedKeywordsOf. split; [lia|].
  apply Nat2Z.inj_le, filter_length_le.
Qed.

(** X18: the content score is never negative and never exceeds 247, the sum
    of the weights of all keywords (15 + 60 + 48 + 63 + 42 + 14) and of the
    two heuristics (3 + 2). *)
Theorem content_score_bounds (now : Z) (content : JsValue) :
  0 <= ContentRiskResult.score (analyzeContentForFraud now content) <= 247.
Proof.
  unfold analyzeContentForFraud.
  destruct (negb (truthy content) || negb (isString content));
    [simpl; lia|].
  destruct content; try (simpl; lia).
  destruct (analyzeText_spec now s) as (Hs & _). rewrite Hs.
  split; [apply contentTotal_nonneg|].
  rewrite contentTotal_by_category.
  pose proof (matchCount_le s (keywordsOf "urgency")) as H1.
  pose proof (matchCount_le s (keywordsOf "financial")) as H2.
  pose proof (matchCount_le s (keywordsOf "threats")) as H3.
  pose proof (matchCount_le s (keywordsOf "impersonation")) as H4.
  pose proof (matchCount_le s (keywordsOf "action_requests")) as H5.
  pose proof (matchCount_le s (keywordsOf "suspicious_patterns")) as H6.
  change (Z.of_nat (List.length (keywordsOf "urgency"))) with 15 in H1.
  change (Z.of_nat (List.length (keywordsOf "financial"))) with 30 in H2.
  change (Z.of_nat (List.length (keywordsOf "threats"))) with 16 in H3.
  change (Z.of_nat (List.length (keywordsOf "impersonation"))) with 21 in H4.
  change (Z.of_nat (List.length (keywordsOf "action_requests"))) with 21 in H5.
  change (Z.of_nat (List.length (keywordsOf "suspicious_patterns"))) with 14 in H6.
  destruct (urlMatches s), (excessiveCaps s); lia.
Qed.

(** ** Combined risk of the content route *)

Lemma contentBand_cases (score : Z) :
  0 <= score ->
  (fst (contentBand score) = "safe" /\ score = 0)
  \/ (fst (contentBand score) = "low" /\ 1 <= score <= 5)
  \/ (fst (contentBand score) = "suspicious" /\ 6 <= score <= 10)
  \/ (fst (contentBand score) = "high_risk" /\ 10 < score).
Proof.
  intros Hs. unfold contentBand.
  destruct (Z.eqb_spec score 0); [left; split; [reflexivity | assumption]|].
  destruct (Z.leb_spec score 5); [right; left; split; [reflexivity | lia]|].
  destruct (Z.leb_spec score 10);
    [right; right; left; split; [reflexivity | lia]|].
  right; right; right. split; [reflexivity | lia].
Qed.

Lemma riskMapping_cases (score : Z) :
  0 <= score ->
  (fst (fst (riskMapping score)) = "safe" /\ score = 0)
  \/ (fst (fst (riskMapping score)) = "suspicious" /\ 1 <= score <= 5)
  \/ (fst (fst (riskMapping score)) = "high_risk" /\ 5 < score).
Proof.
  intros Hs. unfold riskMapping.
  destruct (Z.eqb_spec score 0); [left; split; [reflexivity | assumption]|].
  destruct (Z.leb_spec score 5); [right; left; split; [reflexivity | lia]|].
  right; right. split; [reflexivity | lia].
Qed.

Lemma riskPayload_no_user (demoMode : bool) (entity : string)
    (ctx : option (list string)) (now : Z) (reports : list Report.t) :
  snd (riskPayload demoMode entity ctx now None reports) = [].
Proof.
  unfold riskPayload.
  destruct (riskMapping (List.fold_left reportStep reports 0)) as [[? ?] ?].
  reflexivity.
Qed.

(** The call in full: the payload and the notifications are those of
    [riskPayload] on the reports in hand. *)
Lemma calculateFraudRisk_result (fuel : nat) (env : Env.t)
    (now thirtyDaysAgo : Z) (targetEntity : string) (userId : option string) :
  let rp :=
    riskPayload
      (match Env.fraudReports env with
       | None => true
       | Some _ => Env.DEMO_MODE env
       end)
      (normalizeEntity targetEntity)
      (if Env.DEMO_MODE env then None
       else match Env.fraudReports env with
            | Some _ =>
                match Env.cyberCrime env
                        (escapeRegex (normalizeEntity targetEntity)) with
                | Some found => found
                | None => None
                end
            | None => None
            end)
      now userId
      (reportsInHand env now thirtyDaysAgo targetEntity) in
  calculateFraudRisk (S (S fuel)) env now thirtyDaysAgo targetEntity userId
  = Some (fst rp,
          match Env.DEMO_MODE env, Env.fraudReports env with
          | false, None => Env.setDemoMode env
          | _, _ => env
          end,
          snd rp).
Proof.
  unfold reportsInHand.
  destruct env as [demo demoReports [docs|] cyber]; destruct demo;
    cbn [calculateFraudRisk Env.DEMO_MODE Env.fraudReports Env.setDemoMode
         Env.demoReports Env.cyberCrime];
    match goal with
    | |- context [riskPayload ?a ?b ?c ?d ?e ?f] =>
        destruct (riskPayload a b c d e f) as [payload dispatched]
    end; reflexivity.
Qed.

(** X19: in the content route, when a sender is given, the combined score is
    the content score plus the entity score and the combined level is the
    more severe of the two levels (safe below low below suspicious below
    high_risk); it is ['safe'] exactly when the combined score is 0.
    Without a sender the combined risk is that of the content. *)
Theorem combined_risk_is_most_severe (fuel : nat) (env : Env.t)
    (now thirtyDaysAgo : Z) (content sender : string) :
  content <> "" ->
  sender <> "" ->
  (exists contentAnalysis entityRisk combined env' contentLevel combinedLevel,
     analyzeContentRoute (S (S fuel)) env now thirtyDaysAgo content (Some sender)
     = Some (contentAnalysis, Some entityRisk, combined, env')
     /\ contentAnalysis = analyzeContentForFraud now (JsString content)
     /\ observable (calculateFraudRisk (S (S fuel)) env now thirtyDaysAgo sender None)
        = Some (entityRisk, [])
     /\ CombinedRisk.score combined
        = ContentRiskResult.score contentAnalysis + RiskResult.score entityRisk
     /\ ContentRiskResult.riskLevel contentAnalysis = Some contentLevel
     /\ CombinedRisk.riskLevel combined = Some combinedLevel
     /\ severity combinedLevel
        = Nat.max (severity contentLevel)
                  (severity (RiskResult.riskLevel entityRisk))
     /\ (combinedLevel = "safe" <-> CombinedRisk.score combined = 0))
  /\ (exists contentAnalysis combined,
        analyzeContentRoute (S (S fuel)) env now thirtyDaysAgo content None
        = Some (contentAnalysis, None, combined, env)
        /\ CombinedRisk.score combined = ContentRiskResult.score contentAnalysis
        /\ CombinedRisk.riskLevel combined
           = ContentRiskResult.riskLevel contentAnalysis).
Proof.
  intros Hc Hsender. split.
  - unfold analyzeContentRoute. cbn [knownUser].
    destruct (String.eqb_spec sender ""); [contradiction|].
    rewrite (calculateFraudRisk_result fuel env now thirtyDaysAgo sender None).
    match goal with
    | |- context [riskPayload ?a ?b ?c ?d ?e ?f] =>
        pose proof (riskPayload_spec a b c d e f) as (Hs & Hl & _);
        rewrite (riskPayload_no_user a b c d f);
        set (payload := fst (riskPayload a b c d e f)) in *
    end.
    cbn [observable].
    rewrite (analyze_nonempty_string now content Hc).
    destruct (analyzeText_spec now content) as (Cs & Cl & _).
    set (reports := reportsInHand env now thirtyDaysAgo sender) in *.
    assert (Hnn : 0 <= sumOver reportPoints reports).
    { pose proof (sumOver_reportPoints_ge reports). lia. }
    pose proof (contentBand_cases _ (contentTotal_nonneg content)) as Hcb.
    pose proof (riskMapping_cases _ Hnn) as Hrm.
    unfold combineRisk. rewrite Cl, Cs, Hl, Hs. cbn [levelIs].
    destruct Hcb as [[E1 Hc0] | [[E1 Hc1] | [[E1 Hc2] | [E1 Hc3]]]];
      destruct Hrm as [[E2 Hr0] | [[E2 Hr1] | [E2 Hr2]]];
      rewrite E1, E2;
      cbn [String.eqb Ascii.eqb Bool.eqb orb andb];
      do 6 eexists;
      (split; [reflexivity|]); (split; [reflexivity|]); (split; [reflexivity|]);
      cbn [CombinedRisk.score CombinedRisk.riskLevel];
      (split; [rewrite Cs, Hs; reflexivity|]);
      (split; [rewrite Cl, E1; reflexivity|]);
      (split; [reflexivity|]);
      (split; [rewrite Hl, E2; reflexivity|]);
      (split; [intros E; first [lia | discriminate E] |
               intros E; first [reflexivity | exfalso; lia]]).
  - unfold analyzeContentRoute. cbn [knownUser combineRisk].
    do 2 eexists. split; [reflexivity|]. split; reflexivity.
Qed.

Lemma combined_risk_is_most_severe_witness :
  exists contentAnalysis combined,
    analyzeContentRoute 2 failingStore 0 0 "urgent bank account click here" None
    = Some (contentAnalysis, None, combined, failingStore)
    /\ CombinedRisk.score combined = ContentRiskResult.score contentAnalysis
    /\ CombinedRisk.riskLevel combined
       = ContentRiskResult.riskLevel contentAnalysis.
Proof.
  apply (proj2 (combined_risk_is_most_severe 0 failingStore 0 0
                  "urgent bank account click here" "9944084754"
                  ltac:(discriminate) ltac:(discriminate))).
Defined.

(** ** Registry counts and alert delivery *)

Section RegistryDelivery.
Import websocketService websocketNotify.

(** X20: [getConnectedUsersCount] is the number of users who own at least one
    open session, however many sessions each of them has. *)
Theorem connected_users_count (evs : list event) :
  getConnectedUsersCount (run started evs)
  = size (set_map (C := gset (string * string)) (D := gset string)
            fst (openSessions evs)).
Proof.
  unfold getConnectedUsersCount. rewrite <- size_dom.
  f_equal. apply set_eq. intros u.
  rewrite elem_of_dom, elem_of_map.
  rewrite (proj2 (mirrors_online _ _ u (mirrors_run evs))).
  split.
  - intros [s Hs]. exists (u, s). split; [reflexivity | exact Hs].
  - intros ([u' s] & -> & Hs). exists s. exact Hs.
Qed.

Lemma membersOf_onConnection (st : state) (nowIso u0 s0 u : string) :
  membersOf (fst (onConnection st nowIso u0 s0)) (roomOf u)
  = if decide (u = u0) then membersOf st (roomOf u0) ∪ {[s0]}
    else membersOf st (roomOf u).
Proof.
  unfold membersOf at 1. cbn [onConnection fst rooms].
  destruct (decide (u = u0)) as [->|Hne].
  - rewrite lookup_insert_eq. reflexivity.
  - rewrite lookup_insert_ne
      by (intros Heq; apply Hne; symmetry; exact (roomOf_inj _ _ Heq)).
    reflexivity.
Qed.

Lemma membersOf_onDisconnect (st : state) (u0 s0 room : string) :
  membersOf (onDisconnect st u0 s0) room = membersOf st room ∖ {[s0]}.
Proof.
  unfold membersOf. rewrite onDisconnect_rooms, lookup_fmap.
  destruct (rooms st !! room) as [members|]; cbn; [reflexivity|].
  apply leibniz_equiv. set_solver.
Qed.

Lemma roomsMirror_step (owner : string -> string) (st : state)
    (open : gset (string * string)) (ev : event) :
  match ev with Open u s => owner s = u | Close u s => owner s = u end ->
  roomsMirror owner st open ->
  roomsMirror owner (step st ev) (sessionsStep open ev).
Proof.
  intros Hown [Hmem Howner]. destruct ev as [u0 s0|u0 s0]; cbn [step sessionsStep].
  - split.
    + intros u s. rewrite membersOf_onConnection.
      destruct (decide (u = u0)) as [->|Hne].
      * rewrite !elem_of_union, !elem_of_singleton, (Hmem u0 s).
        split; (intros [H|H]; [left; exact H | right; congruence]).
      * rewrite elem_of_union, elem_of_singleton, (Hmem u s).
        split; [tauto|]. intros [H|H]; [exact H | congruence].
    + intros u s. rewrite elem_of_union, elem_of_singleton.
      intros [H | [= -> ->]]; [exact (Howner u s H) | exact Hown].
  - split.
    + intros u s. rewrite membersOf_onDisconnect.
      rewrite !elem_of_difference, !elem_of_singleton, (Hmem u s). split.
      * intros [Hin Hne]. split; [exact Hin|]. congruence.
      * intros [Hin Hne]. split; [exact Hin|]. intros ->.
        apply Hne. f_equal. rewrite <- (Howner u s0 Hin). exact Hown.
    + intros u s. rewrite elem_of_difference.
      intros [H _]. exact (Howner u s H).
Qed.

Lemma roomsMirror_run (owner : string -> string) (evs : list event) :
  ownedBy owner evs ->
  roomsMirror owner (run started evs) (openSessions evs).
Proof.
  unfold run, openSessions.
  assert (H0 : roomsMirror owner started ∅).
  { split; intros u s; [|set_solver].
    unfold membersOf. simpl. rewrite lookup_empty. set_solver. }
  revert H0. generalize started (∅ : gset (string * string)).
  induction evs as [|ev evs IH]; intros st open Hr Hown; simpl; [exact Hr|].
  apply IH.
  - apply roomsMirror_step; [|exact Hr]. apply (Hown ev). left. reflexivity.
  - intros ev' Hin. apply Hown. right. exact Hin.
Qed.

(** X21: when every socket id belongs to one user, [sendAlert] hands the alert
    to each open session of the user exactly once and to no other socket;
    the payload carries the fields of the alert under the type
    ['fraud_alert']. *)
Theorem sendAlert_reaches_every_session (owner : string -> string)
    (evs : list event) (nowIso u : string) (alertData : AlertData.t) :
  ownedBy owner evs ->
  exists (sockets : gset string) (payload : AlertPayload.t),
    snd (sendAlert (run started evs) nowIso u alertData)
    = (fun s => AlertNew s payload) <$> elements sockets
    /\ (forall s, s ∈ sockets <-> (u, s) ∈ openSessions evs)
    /\ NoDup (snd (sendAlert (run started evs) nowIso u alertData))
    /\ AlertPayload.type payload = "fraud_alert"
    /\ AlertPayload.alertType payload = AlertData.alertType alertData
    /\ AlertPayload.fromEntity payload = AlertData.fromEntity alertData
    /\ AlertPayload.riskLevel payload = AlertData.riskLevel alertData
    /\ AlertPayload.riskScore payload = AlertData.riskScore alertData.
Proof.
  intros Hown.
  destruct (roomsMirror_run owner evs Hown) as [Hmem _].
  unfold sendAlert. rewrite run_io. cbn [started initialize io negb snd].
  eexists (membersOf (run started evs) (roomOf u)), _.
  split; [reflexivity|]. split; [apply Hmem|]. split.
  - apply NoDup_fmap_2; [|apply NoDup_elements].
    intros s1 s2 [= H]. exact H.
  - repeat split; reflexivity.
Qed.

Lemma sendAlert_reaches_every_session_witness :
  exists (sockets : gset string) (payload : AlertPayload.t),
    snd (sendAlert (run started [Open "u1" "a"; Open "u2" "b"; Open "u1" "c"])
           "2026-01-01T00:00:00.000Z" "u1" sampleAlert)
    = (fun s => AlertNew s payload) <$> elements sockets
    /\ (forall s, s ∈ sockets
                  <-> ("u1", s) ∈ openSessions
                                    [Open "u1" "a"; Open "u2" "b"; Open "u1" "c"])
    /\ NoDup (snd (sendAlert
                     (run started [Open "u1" "a"; Open "u2" "b"; Open "u1" "c"])
                     "2026-01-01T00:00:00.000Z" "u1" sampleAlert))
    /\ AlertPayload.type payload = "fraud_alert"
    /\ AlertPayload.alertType payload = AlertData.alertType sampleAlert
    /\ AlertPayload.fromEntity payload = AlertData.fromEntity sampleAlert
    /\ AlertPayload.riskLevel payload = AlertData.riskLevel sampleAlert
    /\ AlertPayload.riskScore payload = AlertData.riskScore sampleAlert.
Proof.
  apply (sendAlert_reaches_every_session
           (fun s => if String.eqb s "b" then "u2" else "u1")
           [Open "u1" "a"; Open "u2" "b"; Open "u1" "c"]).
  intros ev [<- | [<- | [<- | []]]]; reflexivity.
Defined.

End RegistryDelivery.

(** ** Threat alerts and their routing *)

Section ThreatAlerts.
Import websocketService websocketNotify notificationService.

Lemma riskPayload_dispatched (demoMode : bool) (entity : string)
    (ctx : option (list string)) (now : Z) (userId : option string)
    (reports : list Report.t) :
  snd (riskPayload demoMode entity ctx now userId reports)
  = match knownUser userId with
    | Some u =>
        if 5 <? sumOver reportPoints reports then
          [Notification.mk u "THREAT_ALERT" "critical" "High Risk Alert"
             ("Critical threat detected for entity: " +:+ entity +:+ ".")
             "web_and_sms"]
        else []
    | None => []
    end.
Proof.
  unfold riskPayload. rewrite fold_reportStep, Z.add_0_l.
  assert (Hnn : 0 <= sumOver reportPoints reports).
  { pose proof (sumOver_reportPoints_ge reports). lia. }
  destruct (riskMapping_cases _ Hnn) as [[E H] | [[E H] | [E H]]];
    destruct (riskMapping (sumOver reportPoints reports)) as [[level color] msg];
    cbn [fst] in E; subst level; cbn [snd];
    destruct (knownUser userId); try reflexivity;
    destruct (Z.ltb_spec 5 (sumOver reportPoints reports)); try lia; reflexivity.
Qed.

(** X22: [calculateFraudRisk] hands a notification to the dispatcher exactly
    when the level is ['high_risk'] and a user is given, and then exactly
    one, a critical ['THREAT_ALERT'] for that user naming the normalised
    entity.  [dispatch] routes it to the socket, SMS and e-mail channels
    alike, makes one SMS call, and builds the same envelope whether or not
    the socket server is set up or the user is connected. *)
Theorem threat_alert_routing (fuel : nat) (env : Env.t)
    (now thirtyDaysAgo : Z) (targetEntity : string) (userId : option string)
    (ws : state) (nowMs : Z) (nowIso : string) :
  exists payload env' dispatched,
    calculateFraudRisk (S (S fuel)) env now thirtyDaysAgo targetEntity userId
    = Some (payload, env', dispatched)
    /\ (dispatched <> [] <->
        RiskResult.riskLevel payload = "high_risk"
        /\ exists u, userId = Some u /\ u <> "")
    /\ (forall n, In n dispatched ->
        dispatched = [n]
        /\ userId = Some (Notification.userId n)
        /\ Notification.type n = "THREAT_ALERT"
        /\ Notification.body n
           = "Critical threat detected for entity: "
             +:+ normalizeEntity targetEntity +:+ "."
        /\ let envelope :=
             fst (fst (dispatch ws nowMs nowIso (Notification.userId n)
                         (ofNotification n))) in
           UnifiedPayload.priority envelope = "critical"
           /\ UnifiedPayload.websocket envelope = true
           /\ UnifiedPayload.sms envelope = true
           /\ UnifiedPayload.email envelope = true
           /\ snd (dispatch ws nowMs nowIso (Notification.userId n)
                     (ofNotification n))
              = [(Notification.userId n, envelope)]
           /\ envelope
              = fst (fst (dispatch uninitialized nowMs nowIso
                            (Notification.userId n) (ofNotification n)))).
Proof.
  rewrite (calculateFraudRisk_result fuel env now thirtyDaysAgo targetEntity userId).
  cbv zeta.
  match goal with
  | |- context [riskPayload ?a ?b ?c ?d ?e ?f] =>
      pose proof (riskPayload_spec a b c d e f) as (Hs & Hl & _);
      pose proof (riskPayload_dispatched a b c d e f) as Hd;
      destruct (riskPayload a b c d e f) as [payload dispatched]
  end.
  cbn [fst snd] in *.
  set (reports := reportsInHand env now thirtyDaysAgo targetEntity) in *.
  assert (Hnn : 0 <= sumOver reportPoints reports).
  { pose proof (sumOver_reportPoints_ge reports). lia. }
  pose proof (riskMapping_level _ Hnn) as (_ & _ & L3). cbv zeta in L3.
  rewrite <- Hl in L3.
  eexists payload, _, dispatched. split; [reflexivity|].
  unfold knownUser in Hd.
  destruct userId as [u|]; [destruct (String.eqb_spec u "") as [->|Hu]|].
  - subst dispatched. split; [|intros n []].
    split; [congruence|]. intros (_ & u & [= <-] & Hne). congruence.
  - destruct (Z.ltb_spec 5 (sumOver reportPoints reports)) as [Hhigh|Hlow].
    + subst dispatched. split.
      * split; [|discriminate]. intros _. split; [apply L3, Hhigh | eauto].
      * intros n [<- | []]. cbn. repeat split; reflexivity.
    + subst dispatched. split; [|intros n []].
      split; [congruence|]. intros (Hl' & _). apply L3 in Hl'. lia.
  - subst dispatched. split; [|intros n []].
    split; [congruence|]. intros (_ & u & [=] & _).
Qed.

Lemma threat_alert_routing_witness :
  exists payload env' dispatched,
    calculateFraudRisk 2 failingStore 0 0 "9944084754" (Some "u1")
    = Some (payload, env', dispatched)
    /\ dispatched <> [].
Proof.
  destruct (threat_alert_routing 0 failingStore 0 0 "9944084754" (Some "u1")
              uninitialized 0 "t")
    as (p & e & d & Hcall & Hsome & _).
  exists p, e, d. split; [exact Hcall|]. apply Hsome.
  vm_compute in Hcall. injection Hcall as <- _ _.
  split; [reflexivity|]. exists "u1". split; [reflexivity | discriminate].
Defined.

End ThreatAlerts.

(** ** Escaped search patterns *)

Lemma backslash_special (c : ascii) :
  regexSpecial c = false -> Ascii.eqb c "\" = false.
Proof.
  intros H. destruct (Ascii.eqb_spec c "\") as [->|_]; [|reflexivity].
  discriminate H.
Qed.

(** X23: the pattern [escapeRegex] returns is made of literals only: every
    character of the special class in it is the escaped character after a
    backslash that was inserted, so the pattern stands for the very text
    given and cannot inject an operator.  A text without special characters
    is returned as it is, and the result is at most twice as long as the
    text. *)
Theorem escapeRegex_is_literal (s : string) :
  literalPattern (escapeRegex s) = true
  /\ patternText (escapeRegex s) = s
  /\ (JsString.allChars (fun c => negb (regexSpecial c)) s = true ->
      escapeRegex s = s)
  /\ (String.length s <= String.length (escapeRegex s) <= 2 * String.length s)%nat.
Proof.
  induction s as [|c s (IH1 & IH2 & IH3 & IH4)]; [repeat split; simpl; lia|].
  cbn [escapeRegex]. destruct (regexSpecial c) eqn:Hc.
  - split; [exact IH1|]. split; [cbn; rewrite IH2; reflexivity|].
    split; [cbn [JsString.allChars]; rewrite Hc; discriminate|].
    cbn [String.length]. lia.
  - pose proof (backslash_special c Hc) as Hb.
    split; [cbn [literalPattern]; rewrite Hb, Hc; exact IH1|].
    split; [cbn [patternText]; rewrite Hb, IH2; reflexivity|].
    split.
    + cbn [JsString.allChars]. rewrite Hc. cbn [negb andb].
      intros H. rewrite (IH3 H). reflexivity.
    + cbn [String.length]. lia.
Qed.

Lemma escapeRegex_is_literal_witness :
  escapeRegex "9944084754" = "9944084754".
Proof.
  apply (proj1 (proj2 (proj2 (escapeRegex_is_literal "9944084754")))).
  reflexivity.
Defined.

(** ** Password rules *)

Lemma anyChar_app (P : ascii -> bool) (s1 s2 : string) :
  anyChar P (s1 +:+ s2) = anyChar P s1 || anyChar P s2.
Proof.
  induction s1 as [|c s1 IH]; [reflexivity|].
  simpl. rewrite IH, orb_assoc. reflexivity.
Qed.

Lemma string_length_app (s1 s2 : string) :
  String.length (s1 +:+ s2) = (String.length s1 + String.length s2)%nat.
Proof.
  induction s1 as [|c s1 IH]; [reflexivity|].
  simpl. rewrite IH. reflexivity.
Qed.

Lemma validatePassword_accepts (password : string) :
  validatePasswordStrength password = [] <->
  8 <= JsString.length password
  /\ anyChar JsString.isUpperAZ password = true
  /\ anyChar isLowerAZ password = true
  /\ anyChar JsString.isDigit password = true
  /\ anyChar passwordSpecial password = true.
Proof.
  unfold validatePasswordStrength.
  destruct (Z.ltb_spec (JsString.length password) 8);
    destruct (anyChar JsString.isUpperAZ password);
    destruct (anyChar isLowerAZ password);
    destruct (anyChar JsString.isDigit password);
    destruct (anyChar passwordSpecial password);
    cbn; split; try discriminate; try reflexivity;
    try (intros (? & ? & ? & ? & ?); first [lia | discriminate]);
    intros _; repeat split; lia.
Qed.

(** X24: [validatePasswordStrength] reports no error exactly for a password
    of at least 8 code units containing a letter A-Z, a letter a-z, a digit
    and one of the listed special characters; it never reports more than
    five errors, and a password that passes still passes when characters are
    added before or after it. *)
Theorem password_rules (password before after : string) :
  (validatePasswordStrength password = [] <->
   8 <= JsString.length password
   /\ anyChar JsString.isUpperAZ password = true
   /\ anyChar isLowerAZ password = true
   /\ anyChar JsString.isDigit password = true
   /\ anyChar passwordSpecial password = true)
  /\ (List.length (validatePasswordStrength password) <= 5)%nat
  /\ (validatePasswordStrength password = [] ->
      validatePasswordStrength (before +:+ password +:+ after) = []).
Proof.
  split; [apply validatePassword_accepts|]. split.
  - unfold validatePasswordStrength.
    destruct (JsString.length password <? 8);
      destruct (anyChar JsString.isUpperAZ password);
      destruct (anyChar isLowerAZ password);
      destruct (anyChar JsString.isDigit password);
      destruct (anyChar passwordSpecial password); cbn; lia.
  - intros H. apply validatePassword_accepts in H as (Hl & Hu & Hlo & Hd & Hs).
    apply validatePassword_accepts.
    rewrite !anyChar_app, Hu, Hlo, Hd, Hs, !orb_true_r.
    unfold JsString.length in *. rewrite !string_length_app.
    repeat split; try reflexivity. lia.
Qed.

Lemma password_rules_witness :
  validatePasswordStrength ("xx" +:+ "Abcdef1!" +:+ "yy") = [].
Proof.
  apply (proj2 (proj2 (password_rules "Abcdef1!" "xx" "yy"))).
  reflexivity.
Defined.

(** ** Alert routes *)

Section AlertRoutes.
Import Alerts.

Lemma slice_last {A : Type} (n : Z) (l : list A) :
  0 < n ->
  slice (- n) l = List.skipn (List.length l - Z.to_nat n) l.
Proof.
  intros Hn. unfold slice.
  destruct (Z.ltb_spec (- n) 0); [|lia].
  f_equal. lia.
Qed.

Lemma last_suffix {A : Type} (l1 l2 : list A) (d : A) :
  l2 <> [] -> List.last (l1 ++ l2) d = List.last l2 d.
Proof.
  intros Hne. induction l1 as [|x l1 IH]; [reflexivity|].
  cbn [app List.last]. rewrite IH.
  destruct (l1 ++ l2) eqn:E; [|reflexivity].
  apply app_eq_nil in E as [_ E]. contradiction.
Qed.

Lemma findAlert_Some (alertId : string) (alerts : list PendingAlert)
    (alert : PendingAlert) :
  findAlert alertId alerts = Some alert ->
  In alert alerts /\ _id alert = alertId.
Proof.
  intros H. apply List.find_some in H as [Hin Heq].
  split; [exact Hin|]. apply String.eqb_eq, Heq.
Qed.

Lemma markAcknowledged_length (alertId : string) (now : Z)
    (alerts : list PendingAlert) :
  List.length (markAcknowledged alertId now alerts) = List.length alerts.
Proof.
  induction alerts as [|a rest IH]; [reflexivity|]. cbn [markAcknowledged].
  destruct (String.eqb (_id a) alertId); cbn [List.length]; [reflexivity|].
  rewrite IH. reflexivity.
Qed.

Lemma markAcknowledged_pending (alertId : string) (now : Z)
    (alerts : list PendingAlert) (a : PendingAlert) :
  List.NoDup (List.map _id alerts) ->
  In a (List.filter (fun x => negb (acknowledged x))
          (markAcknowledged alertId now alerts))
  <-> In a (List.filter (fun x => negb (acknowledged x)) alerts)
      /\ _id a <> alertId.
Proof.
  induction alerts as [|a0 rest IH]; intros Hnd.
  - simpl. tauto.
  - cbn [List.map] in Hnd. apply List.NoDup_cons_iff in Hnd as [Hfresh Hnd].
    cbn [markAcknowledged].
    destruct (String.eqb_spec (_id a0) alertId) as [Heq|Hne].
    + cbn [List.filter acknowledged negb].
      assert (Hrest : forall x, In x rest -> _id x <> alertId).
      { intros x Hx Hxid. apply Hfresh. rewrite Heq, <- Hxid.
        apply List.in_map, Hx. }
      split.
      * intros Hin. pose proof Hin as Hin'.
        apply List.filter_In in Hin' as [Hr _].
        split; [|exact (Hrest a Hr)].
        destruct (negb (acknowledged a0)); [right|]; exact Hin.
      * intros [Hin Hid].
        destruct (negb (acknowledged a0)); [|exact Hin].
        destruct Hin as [<- | Hin]; [contradiction | exact Hin].
    + cbn [List.filter].
      destruct (negb (acknowledged a0)) eqn:Ea.
      * cbn [In]. rewrite (IH Hnd). split.
        -- intros [<- | [Hin Hid]]; [split; [left; reflexivity | exact Hne]|].
           split; [right; exact Hin | exact Hid].
        -- intros [[<- | Hin] Hid]; [left; reflexivity | right; split; assumption].
      * apply (IH Hnd).
Qed.

(** X25: acknowledging an alert that is not in the user's list answers 404 and
    changes nothing.  Acknowledging one that is there answers 200, keeps
    the list at its length, and, the ids being distinct, removes exactly
    that alert from what the pending route returns.  The history gains the
    entry of the alert as its last element, with the action given or
    ['dismissed'], and keeps only its last 500 entries. *)
Theorem acknowledge_route (user : User) (now : Z) (alertId : string)
    (action : option string) :
  (findAlert alertId (pendingAlerts user) = None ->
   acknowledgeRoute user now alertId action = (NotFound404, user))
  /\ (forall alert,
        findAlert alertId (pendingAlerts user) = Some alert ->
        let user' := snd (acknowledgeRoute user now alertId action) in
        let entry :=
          mkHistory (alertType alert) (fromEntity alert) (riskLevel alert)
            (riskScore alert)
            (default "dismissed" (websocketService.orElse action None)) now in
        fst (acknowledgeRoute user now alertId action) = Ok200
        /\ List.length (pendingAlerts user') = List.length (pendingAlerts user)
        /\ (List.NoDup (List.map _id (pendingAlerts user)) ->
            forall a, In a (fst (pendingRoute user'))
                      <-> In a (fst (pendingRoute user)) /\ _id a <> alertId)
        /\ (exists dropped,
              alertHistory user ++ [entry] = dropped ++ alertHistory user')
        /\ List.last (alertHistory user') entry = entry
        /\ List.length (alertHistory user')
           = Nat.min 500 (S (List.length (alertHistory user)))).
Proof.
  split.
  - intros H. unfold acknowledgeRoute. rewrite H. reflexivity.
  - intros alert H user' entry. unfold user', acknowledgeRoute. rewrite H.
    cbn [fst snd pendingAlerts alertHistory pendingRoute]. fold entry.
    split; [reflexivity|]. split; [apply markAcknowledged_length|].
    split; [intros Hnd a; apply markAcknowledged_pending, Hnd|].
    set (h := alertHistory user ++ [entry]).
    assert (Hlen : List.length h = S (List.length (alertHistory user))).
    { unfold h. rewrite length_app. simpl. lia. }
    destruct (Z.ltb_spec 500 (Z.of_nat (List.length h))) as [Hbig|Hsmall].
    + change (slice (-500) h) with (slice (Z.opp 500) h).
      rewrite (slice_last 500 h) by lia.
      change (Z.to_nat 500) with 500%nat.
      split; [|split].
      * exists (List.firstn (List.length h - 500) h).
        symmetry. apply List.firstn_skipn.
      * pose proof (List.firstn_skipn (List.length h - 500) h) as Hsplit.
        assert (Hne : List.skipn (List.length h - 500) h <> []).
        { intros E. apply (f_equal (@List.length _)) in E.
          rewrite List.length_skipn in E. simpl in E. lia. }
        rewrite <- (last_suffix (List.firstn (List.length h - 500) h) _ entry Hne),
          Hsplit.
        unfold h. apply List.last_last.
      * rewrite List.length_skipn. lia.
    + split; [exists []; reflexivity|]. split.
      * unfold h. apply List.last_last.
      * lia.
Qed.

Lemma acknowledge_route_witness :
  let alert := mkPending "a1" "call" "9944084754" "high_risk" 9 "m" "Phishing"
                 0 false None in
  let user := mkUser "u1" "u1@example.com" [alert] [] in
  acknowledgeRoute user 5 "zz" None = (NotFound404, user)
  /\ fst (acknowledgeRoute user 5 "a1" None) = Ok200.
Proof.
  split.
  - apply (proj1 (acknowledge_route
                    (mkUser "u1" "u1@example.com"
                       [mkPending "a1" "call" "9944084754" "high_risk" 9 "m"
                          "Phishing" 0 false None] [])
                    5 "zz" None)).
    reflexivity.
  - apply (proj2 (acknowledge_route
                    (mkUser "u1" "u1@example.com"
                       [mkPending "a1" "call" "9944084754" "high_risk" 9 "m"
                          "Phishing" 0 false None] [])
                    5 "a1" None)
             (mkPending "a1" "call" "9944084754" "high_risk" 9 "m" "Phishing"
                0 false None)).
    reflexivity.
Defined.

(** X26: the history route returns the most recent entries, newest first: as
    many as the limit asks for when it is positive, 50 when it is missing,
    not a number or 0, and never more than there are.  A negative limit
    does not bound the count: it drops that many of the oldest entries and
    returns all the others. *)
Theorem history_route (user : User) (limit : option Z) :
  let asked := match limit with
               | Some n => if n =? 0 then 50 else n
               | None => 50
               end in
  snd (historyRoute user limit)
  = Z.of_nat (List.length (fst (historyRoute user limit)))
  /\ (0 < asked ->
      fst (historyRoute user limit)
      = List.firstn (Z.to_nat asked) (List.rev (alertHistory user)))
  /\ (asked < 0 ->
      fst (historyRoute user limit)
      = List.rev (List.skipn (Z.to_nat (- asked)) (alertHistory user))).
Proof.
  intros asked. unfold historyRoute. fold asked. cbn [fst snd].
  split; [reflexivity|]. split; intros Hsign.
  - rewrite slice_last by lia. symmetry. apply List.firstn_rev.
  - unfold slice. destruct (Z.ltb_spec (- asked) 0); [lia|].
    f_equal.
    destruct (Z.le_gt_cases (- asked) (Z.of_nat (List.length (alertHistory user)))).
    + rewrite Z.min_l by lia. reflexivity.
    + rewrite Z.min_r by lia. rewrite Nat2Z.id.
      rewrite List.skipn_all.
      symmetry. apply List.skipn_all2. lia.
Qed.

Lemma history_route_witness :
  let h := fun t => mkHistory "call" "x" "suspicious" 1 "dismissed" t in
  fst (historyRoute (mkUser "u1" "u1@example.com" [] [h 1; h 2; h 3]) (Some 2))
  = [h 3; h 2].
Proof.
  apply (proj1 (proj2 (history_route
                         (mkUser "u1" "u1@example.com" []
                            [mkHistory "call" "x" "suspicious" 1 "dismissed" 1;
                             mkHistory "call" "x" "suspicious" 1 "dismissed" 2;
                             mkHistory "call" "x" "suspicious" 1 "dismissed" 3])
                         (Some 2)))).
  reflexivity.
Defined.

Lemma triggerLoop_throws (step : loopState -> User -> option loopState)
    (users : list User) (st : loopState) :
  users <> [] ->
  (forall st' u, step st' u = None) ->
  triggerLoop step users st
  = (mkLoop (processed st ++ users) (emitted st) (emailed st) (alertsCreated st),
     false).
Proof.
  intros Hne Hstep. destruct users as [|u rest]; [contradiction|].
  cbn [triggerLoop]. rewrite Hstep. reflexivity.
Qed.

Lemma triggerLoop_skips (step : loopState -> User -> option loopState)
    (users : list User) (st : loopState) :
  (forall st' u,
     step st' u
     = Some (mkLoop (processed st' ++ [u]) (emitted st') (emailed st')
               (alertsCreated st'))) ->
  triggerLoop step users st
  = (mkLoop (processed st ++ users) (emitted st) (emailed st) (alertsCreated st),
     true).
Proof.
  intros Hstep. revert st. induction users as [|u rest IH]; intros st.
  - cbn [triggerLoop]. rewrite app_nil_r. destruct st; reflexivity.
  - cbn [triggerLoop]. rewrite Hstep, IH.
    cbn [processed emitted emailed alertsCreated].
    rewrite <- app_assoc. reflexivity.
Qed.

(** X27: the trigger route never creates an alert.  With no user found it
    answers that there is none; with users found and a sender that is
    ['safe'] it answers with a count of 0; with any other level the first
    round of its loop throws on [riskResult.reportDetails[0]], a property
    the risk payload does not have, and the route answers with its error.
    In every case the user documents are left as they were, no socket is
    handed anything and no e-mail is asked for. *)
Theorem trigger_route_creates_nothing (fuel : nat) (env : Env.t)
    (now thirtyDaysAgo : Z) (ws : websocketService.state) (nowIso : string)
    (newId : User -> string) (warningText : string -> string -> string)
    (users : list User) (fromEntity alertType : string)
    (message : option string) :
  let result :=
    triggerRoute (S (S fuel)) env now thirtyDaysAgo ws nowIso newId
      warningText users fromEntity alertType message in
  snd (fst result) = mkLoop users [] [] 0
  /\ (users = [] -> fst (fst result) = NoProtectedUsers /\ snd result = env)
  /\ (users <> [] ->
      exists riskResult env',
        observable (calculateFraudRisk (S (S fuel)) env now thirtyDaysAgo
                      fromEntity None)
        = Some (riskResult, [])
        /\ snd result = env'
        /\ (RiskResult.riskLevel riskResult = "safe" ->
            fst (fst result) = Processed 0 riskResult)
        /\ (RiskResult.riskLevel riskResult <> "safe" ->
            fst (fst result) = ErrorTriggering)).
Proof.
  intros result. unfold result, triggerRoute.
  destruct users as [|u rest].
  - cbn. split; [reflexivity|]. split; [tauto | congruence].
  - assert (Hlen : (Z.of_nat (List.length (u :: rest)) =? 0) = false)
      by (apply Z.eqb_neq; simpl; lia).
    rewrite Hlen.
    rewrite (calculateFraudRisk_result fuel env now thirtyDaysAgo fromEntity None).
    cbv zeta.
    match goal with
    | |- context [riskPayload ?a ?b ?c ?d ?e ?f] =>
        rewrite (riskPayload_no_user a b c d f);
        set (riskResult := fst (riskPayload a b c d e f))
    end.
    cbn [observable].
    destruct (String.eqb_spec (RiskResult.riskLevel riskResult) "safe")
      as [Hsafe|Hrisk].
    + rewrite triggerLoop_skips.
      * cbn [fst snd processed emitted emailed alertsCreated app].
        split; [reflexivity|]. split; [discriminate|]. intros _.
        eexists riskResult, _. split; [reflexivity|]. split; [reflexivity|].
        split; [reflexivity | contradiction].
      * intros st' u'. unfold triggerStep. rewrite Hsafe. reflexivity.
    + rewrite triggerLoop_throws.
      * cbn [fst snd processed emitted emailed alertsCreated app].
        split; [reflexivity|]. split; [discriminate|]. intros _.
        eexists riskResult, _. split; [reflexivity|]. split; [reflexivity|].
        split; [contradiction | reflexivity].
      * discriminate.
      * intros st' u'. unfold triggerStep.
        destruct (String.eqb_spec (RiskResult.riskLevel riskResult) "safe");
          [contradiction | reflexivity].
Qed.

Lemma trigger_route_creates_nothing_witness :
  exists riskResult env',
    observable (calculateFraudRisk 2 failingStore 0 0 "9944084754" None)
    = Some (riskResult, [])
    /\ snd (triggerRoute 2 failingStore 0 0 websocketService.started "t"
              (fun _ => "id") (fun l a => l +:+ a)
              [mkUser "u1" "u1@example.com" [] []] "9944084754" "call" None)
       = env'
    /\ (RiskResult.riskLevel riskResult = "safe" ->
        fst (fst (triggerRoute 2 failingStore 0 0 websocketService.started "t"
                    (fun _ => "id") (fun l a => l +:+ a)
                    [mkUser "u1" "u1@example.com" [] []] "9944084754" "call"
                    None))
        = Processed 0 riskResult)
    /\ (RiskResult.riskLevel riskResult <> "safe" ->
        fst (fst (triggerRoute 2 failingStore 0 0 websocketService.started "t"
                    (fun _ => "id") (fun l a => l +:+ a)
                    [mkUser "u1" "u1@example.com" [] []] "9944084754" "call"
                    None))
        = ErrorTriggering).
Proof.
  apply (proj2 (proj2 (trigger_route_creates_nothing 0 failingStore 0 0
                         websocketService.started "t" (fun _ => "id")
                         (fun l a => l +:+ a)
                         [mkUser "u1" "u1@example.com" [] []]
                         "9944084754" "call" None))).
  discriminate.
Defined.

End AlertRoutes.
